(** * Flutter code generation service: extraction, classification and
      navigation synthesis

    A shallow embedding of [src/openai/openai.service.ts] (class
    [OpenAIService]) and of the auto-navigation service (class
    [AutoNavigationService]), with the properties of the specification
    stated and settled on it.

    Conventions of the embedding.
    - A JavaScript string is a [string]: a sequence of code units below
      256.  The character classes are those of ECMAScript on these code
      units.  The case mappings are those of ECMAScript on code units
      below 128 and leave the others as they are, where ECMAScript maps
      some of them (192 to 222 and 224 to 254, and 181, 223 and 255 to
      code units or texts outside this range); a property that depends
      on the case of such code units is stated for code units below 128.
    - [Map<string,string>] is an association list in insertion order with
      in-place update ([JsMap]), because the code iterates over it.
    - Regular expressions are terms of [regex], run by a backtracking
      matcher with the priorities of ECMAScript (greedy and lazy
      quantifiers, alternation left to right, look-ahead).
    - Code that can throw returns a [result]; [try]/[catch] is [catch]. *)

From Stdlib Require Import String Ascii List Bool Arith Lia ZArith.
From Stdlib Require Import Decimal DecimalString DecimalNat.
Import ListNotations.
Local Open Scope list_scope.
Local Open Scope string_scope.

Set Implicit Arguments.

(** ** JavaScript strings *)

Module JsString.

Definition code (c : ascii) : nat := nat_of_ascii c.

Definition between (lo hi : nat) (c : ascii) : bool :=
  (lo <=? code c)%nat && (code c <=? hi)%nat.

Definition isUpper : ascii -> bool := between 65 90.
Definition isLower : ascii -> bool := between 97 122.
Definition isDigit : ascii -> bool := between 48 57.

(** [\s] (and [String.prototype.trim]): TAB, LF, VT, FF, CR, SPACE and the
    no-break space U+00A0, the white space there is below 256. *)
Definition isSpace (c : ascii) : bool :=
  between 9 13 c || (code c =? 32)%nat || (code c =? 160)%nat.

(** [\w]: letters, digits and the underscore. *)
Definition isWord (c : ascii) : bool :=
  isUpper c || isLower c || isDigit c || (code c =? 95)%nat.

(** [.] without the [s] flag: anything but a line terminator. *)
Definition isDot (c : ascii) : bool :=
  negb ((code c =? 10)%nat || (code c =? 13)%nat).

(** The lower-case and upper-case mappings on the letters [A-Z] and
    [a-z]; every other code unit is left as it is. *)
Definition lowerChar (c : ascii) : ascii :=
  if isUpper c then ascii_of_nat (code c + 32) else c.

Definition upperChar (c : ascii) : ascii :=
  if isLower c then ascii_of_nat (code c - 32) else c.

Fixpoint map (f : ascii -> ascii) (s : string) : string :=
  match s with
  | EmptyString => EmptyString
  | String c t => String (f c) (map f t)
  end.

Definition toLowerCase : string -> string := map lowerChar.
Definition toUpperCase : string -> string := map upperChar.

(** [s.startsWith(p)] *)
Fixpoint startsWith (s p : string) {struct p} : bool :=
  match p with
  | EmptyString => true
  | String a p' =>
      match s with
      | String b s' => Ascii.eqb a b && startsWith s' p'
      | EmptyString => false
      end
  end.

(** [s.includes(p)] *)
Fixpoint includes (s p : string) : bool :=
  startsWith s p ||
  match s with
  | EmptyString => false
  | String _ t => includes t p
  end.

(** [s.indexOf(p)], [None] standing for -1. *)
Fixpoint indexOf (s p : string) : option nat :=
  if startsWith s p then Some 0
  else match s with
       | EmptyString => None
       | String _ t => option_map S (indexOf t p)
       end.

Fixpoint drop (n : nat) (s : string) : string :=
  match n, s with
  | S k, String _ t => drop k t
  | _, _ => s
  end.

Fixpoint take (n : nat) (s : string) : string :=
  match n, s with
  | S k, String c t => String c (take k t)
  | _, _ => EmptyString
  end.

(** [s.substring(a, b)] for [a <= b]; both ends are clamped to the length. *)
Definition substring (a b : nat) (s : string) : string := take (b - a) (drop a s).

(** [s.charAt(0)]: the empty string when [s] is empty. *)
Definition charAt0 (s : string) : string := take 1 s.

(** [s.slice(1)] *)
Definition slice1 (s : string) : string := drop 1 s.

(** [s.replace(p, r)] with a string pattern: the first occurrence only. *)
Fixpoint replaceStr (s p r : string) : string :=
  if startsWith s p then r ++ drop (String.length p) s
  else match s with
       | EmptyString => EmptyString
       | String c t => String c (replaceStr t p r)
       end.

Fixpoint trimStart (s : string) : string :=
  match s with
  | String c t => if isSpace c then trimStart t else s
  | EmptyString => EmptyString
  end.

(** Drops the trailing white space: a character is kept when something
    that is kept follows it, or when it is not white space. *)
Fixpoint trimEnd (s : string) : string :=
  match s with
  | EmptyString => EmptyString
  | String c t =>
      match trimEnd t with
      | EmptyString => if isSpace c then EmptyString else String c EmptyString
      | t' => String c t'
      end
  end.

Definition trim (s : string) : string := trimEnd (trimStart s).

(** [s.split(sep)] for a one-character separator. *)
Fixpoint splitChar (sep : ascii) (s : string) : list string :=
  match s with
  | EmptyString => [EmptyString]
  | String c t =>
      if Ascii.eqb c sep then EmptyString :: splitChar sep t
      else match splitChar sep t with
           | w :: ws => String c w :: ws
           | [] => [String c EmptyString]
           end
  end.

(** [s.split(/[...]+/)] for a class of separator characters: a run of
    separators is one cut; a run at either end leaves an empty piece. *)
Fixpoint splitRuns (sep : ascii -> bool) (inrun : bool) (s : string) : list string :=
  match s with
  | EmptyString => [EmptyString]
  | String c t =>
      if sep c then
        if inrun then splitRuns sep true t
        else EmptyString :: splitRuns sep true t
      else match splitRuns sep false t with
           | w :: ws => String c w :: ws
           | [] => [String c EmptyString]
           end
  end.

(** [xs.join(sep)] *)
Fixpoint join (sep : string) (xs : list string) : string :=
  match xs with
  | [] => EmptyString
  | [x] => x
  | x :: rest => x ++ sep ++ join sep rest
  end.

(** Every character of [s] is in the class [p]. *)
Fixpoint allChars (p : ascii -> bool) (s : string) : bool :=
  match s with
  | EmptyString => true
  | String c t => p c && allChars p t
  end.

(** Template-literal rendering of an array index. *)
Definition ofNat (n : nat) : string := NilZero.string_of_uint (Nat.to_uint n).

End JsString.

(** ** Regular expressions *)

Module Regex.
Import JsString.

(** The fragment of ECMAScript patterns the two services use: every
    quantifier of the source is over a character class. *)
Inductive regex : Type :=
| Lit (s : string)                          (* literal text *)
| Class (p : ascii -> bool)                 (* one character of a class *)
| Star (greedy : bool) (p : ascii -> bool)  (* [c]* and [c]*? *)
| Seq (r1 r2 : regex)
| Alt (r1 r2 : regex)
| Group (r : regex)                         (* capture group 1 *)
| Ahead (r : regex)                         (* (?=r) *)
| NotAhead (r : regex)                      (* (?!r) *)
| Bos                                       (* ^ *)
| Eos.                                      (* $ *)

Definition Plus (p : ascii -> bool) : regex := Seq (Class p) (Star true p).
Definition Opt (r : regex) : regex := Alt r (Lit EmptyString).

Declare Scope regex_scope.
Delimit Scope regex_scope with re.
Bind Scope regex_scope with regex.
Infix ";;" := Seq (at level 61, right associativity) : regex_scope.

(** Where the matcher stands: the index, the text that remains, and the
    text captured by group 1 so far. *)
Record cursor : Type := Cursor {
  pos : nat;
  rest : string;
  cap : option string
}.

Definition cont : Type := cursor -> option cursor.

Definition orElse (a : option cursor) (b : unit -> option cursor) : option cursor :=
  match a with
  | Some x => Some x
  | None => b tt
  end.

Fixpoint starGreedy (p : ascii -> bool) (k : cont) (n : nat) (s : string)
         (g : option string) : option cursor :=
  match s with
  | String c t =>
      if p c then orElse (starGreedy p k (S n) t g) (fun _ => k (Cursor n s g))
      else k (Cursor n s g)
  | EmptyString => k (Cursor n s g)
  end.

Fixpoint starLazy (p : ascii -> bool) (k : cont) (n : nat) (s : string)
         (g : option string) : option cursor :=
  orElse (k (Cursor n s g))
         (fun _ => match s with
                   | String c t => if p c then starLazy p k (S n) t g else None
                   | EmptyString => None
                   end).

(** [run r k c]: match [r] at [c], then continue with [k]; the first
    success in backtracking order. *)
Fixpoint run (r : regex) (k : cont) (c : cursor) : option cursor :=
  match r with
  | Lit s =>
      if startsWith (rest c) s
      then k (Cursor (pos c + String.length s) (drop (String.length s) (rest c)) (cap c))
      else None
  | Class p =>
      match rest c with
      | String a t => if p a then k (Cursor (S (pos c)) t (cap c)) else None
      | EmptyString => None
      end
  | Star true p => starGreedy p k (pos c) (rest c) (cap c)
  | Star false p => starLazy p k (pos c) (rest c) (cap c)
  | Seq r1 r2 => run r1 (run r2 k) c
  | Alt r1 r2 => orElse (run r1 k c) (fun _ => run r2 k c)
  | Group r1 =>
      run r1 (fun c' => k (Cursor (pos c') (rest c')
                                  (Some (take (pos c' - pos c) (rest c))))) c
  | Ahead r1 =>
      match run r1 Some c with
      | Some c' => k (Cursor (pos c) (rest c) (cap c'))
      | None => None
      end
  | NotAhead r1 =>
      match run r1 Some c with
      | Some _ => None
      | None => k c
      end
  | Bos => if (pos c =? 0)%nat then k c else None
  | Eos => match rest c with EmptyString => k c | _ => None end
  end.

(** A match: [m[0]], [m[1]] and the index it starts at. *)
Record rmatch : Type := Match {
  index : nat;
  whole : string;
  group1 : option string
}.

(** One attempt at index [n], where [s] is the text from [n] on. *)
Definition execAt (r : regex) (n : nat) (s : string) : option rmatch :=
  match run r Some (Cursor n s None) with
  | Some c' => Some (Match n (take (pos c' - n) s) (cap c'))
  | None => None
  end.

(** The text cut into the matches of a global scan and the characters
    between them.  [skip] counts the characters still covered by the last
    match; after an empty match the scan moves on by one character. *)
Inductive piece : Type :=
| Keep (c : ascii)
| Hit (m : rmatch).

Fixpoint pieces (r : regex) (skip n : nat) (s : string) : list piece :=
  match skip with
  | S k =>
      match s with
      | String _ t => pieces r k (S n) t
      | EmptyString => []
      end
  | O =>
      match execAt r n s with
      | Some m =>
          Hit m ::
          match s with
          | String c t =>
              match String.length (whole m) with
              | O => Keep c :: pieces r 0 (S n) t
              | S k => pieces r k (S n) t
              end
          | EmptyString => []
          end
      | None =>
          match s with
          | String c t => Keep c :: pieces r 0 (S n) t
          | EmptyString => []
          end
      end
  end.

Fixpoint hits (ps : list piece) : list rmatch :=
  match ps with
  | [] => []
  | Keep _ :: t => hits t
  | Hit m :: t => m :: hits t
  end.

(** [Array.from(s.matchAll(r))] for a pattern with the [g] flag. *)
Definition matchAll (r : regex) (s : string) : list rmatch := hits (pieces r 0 0 s).

(** [s.match(r)] for a pattern without the [g] flag: the leftmost match. *)
Definition matchFirst (r : regex) (s : string) : option rmatch :=
  match matchAll r s with
  | m :: _ => Some m
  | [] => None
  end.

Fixpoint render (f : rmatch -> string) (once : bool) (ps : list piece) : string :=
  match ps with
  | [] => EmptyString
  | Keep c :: t => String c (render f once t)
  | Hit m :: t => if once then f m ++ render whole true t
                  else f m ++ render f false t
  end.

(** [s.replace(r, f)] with the [g] flag: every match is replaced. *)
Definition replaceAll (r : regex) (f : rmatch -> string) (s : string) : string :=
  render f false (pieces r 0 0 s).

(** [s.replace(r, f)] without the [g] flag: the leftmost match only. *)
Definition replaceFirst (r : regex) (f : rmatch -> string) (s : string) : string :=
  render f true (pieces r 0 0 s).

(** What a successful run of [r] from [c] to [c1] has read and captured:
    the declarative reading of a pattern, used to reason about [run]. *)
Fixpoint steps (r : regex) (c c1 : cursor) : Prop :=
  match r with
  | Lit s =>
      rest c = s ++ rest c1 /\ pos c1 = pos c + String.length s /\ cap c1 = cap c
  | Class p =>
      exists a, rest c = String a (rest c1) /\ p a = true
                /\ pos c1 = S (pos c) /\ cap c1 = cap c
  | Star _ p =>
      exists w, rest c = w ++ rest c1 /\ allChars p w = true
                /\ pos c1 = pos c + String.length w /\ cap c1 = cap c
  | Seq r1 r2 => exists c', steps r1 c c' /\ steps r2 c' c1
  | Alt r1 r2 => steps r1 c c1 \/ steps r2 c c1
  | Group r1 =>
      exists c', steps r1 c c'
                 /\ c1 = Cursor (pos c') (rest c') (Some (take (pos c' - pos c) (rest c)))
  | Ahead r1 => exists c', steps r1 c c' /\ c1 = Cursor (pos c) (rest c) (cap c')
  | NotAhead _ => c1 = c
  | Bos => c1 = c
  | Eos => c1 = c
  end.

(** The pattern has no capture group. *)
Fixpoint capFree (r : regex) : bool :=
  match r with
  | Group _ => false
  | Seq r1 r2 => capFree r1 && capFree r2
  | Alt r1 r2 => capFree r1 && capFree r2
  | Ahead r1 => capFree r1
  | _ => true
  end.

End Regex.

(** ** [Map<string, V>]: keys in insertion order, [set] updates in place *)

Module JsMap.

Definition t (V : Type) : Type := list (string * V).

Definition empty {V : Type} : t V := [].

Fixpoint get {V : Type} (m : t V) (k : string) : option V :=
  match m with
  | [] => None
  | (k', v) :: rest => if String.eqb k' k then Some v else get rest k
  end.

Definition has {V : Type} (m : t V) (k : string) : bool :=
  match get m k with
  | Some _ => true
  | None => false
  end.

(** An existing key keeps its place and takes the new value; a new key
    goes to the end. *)
Fixpoint set {V : Type} (m : t V) (k : string) (v : V) : t V :=
  match m with
  | [] => [(k, v)]
  | (k', v') :: rest =>
      if String.eqb k' k then (k', v) :: rest else (k', v') :: set rest k v
  end.

Definition size {V : Type} (m : t V) : nat := List.length m.

Definition keys {V : Type} (m : t V) : list string := List.map fst m.

End JsMap.

(** ** Results of code that can throw *)

Inductive result (A : Type) : Type :=
| Ok (a : A)
| Throw (message : string).

Arguments Ok {A} a.
Arguments Throw {A} message.

Definition bind {A B : Type} (r : result A) (f : A -> result B) : result B :=
  match r with
  | Ok a => f a
  | Throw e => Throw e
  end.

(** [try { body } catch (error) { handler(error.message) }] *)
Definition catch {A : Type} (body : result A) (handler : string -> result A) : result A :=
  match body with
  | Ok a => Ok a
  | Throw e => handler e
  end.

(** ** JavaScript values that cross the interfaces *)

#[warnings="-register-all"] Inductive jsval : Type :=
| JUndefined
| JNull
| JBool (b : bool)
| JNum (n : Z)
| JStr (s : string)
| JBuffer (bytes : list Byte.byte)
| JArr (items : list jsval)
| JObj (props : JsMap.t jsval).

(** The own enumerable properties an object spread [{...v}] copies:
    those of an object, the indexed items of an array, the characters of a
    string, and nothing for the other values. *)
Fixpoint indexed {A : Type} (f : A -> jsval) (i : nat) (xs : list A) : JsMap.t jsval :=
  match xs with
  | [] => []
  | x :: rest => (JsString.ofNat i, f x) :: indexed f (S i) rest
  end.

Definition spread (v : jsval) : JsMap.t jsval :=
  match v with
  | JObj props => props
  | JArr items => indexed (fun x => x) 0 items
  | JStr s => indexed (fun c => JStr (String c EmptyString)) 0 (list_ascii_of_string s)
  | _ => []
  end.

(** ** [Buffer.prototype.toString('base64')] *)

Module Base64.

Definition alphabet : string :=
  "ABCDEFGHIJKLMNOPQRSTUVWXYZabcdefghijklmnopqrstuvwxyz0123456789+/".

Definition digit (n : N) : ascii :=
  match String.get (N.to_nat n) alphabet with
  | Some c => c
  | None => "="%char
  end.

Definition pad : ascii := "="%char.

Fixpoint encode (bytes : list Byte.byte) : string :=
  match bytes with
  | [] => EmptyString
  | [a] =>
      let n := (Byte.to_N a * 65536)%N in
      String (digit (n / 262144)) (String (digit ((n / 4096) mod 64))
        (String pad (String pad EmptyString)))
  | [a; b] =>
      let n := (Byte.to_N a * 65536 + Byte.to_N b * 256)%N in
      String (digit (n / 262144)) (String (digit ((n / 4096) mod 64))
        (String (digit ((n / 64) mod 64)) (String pad EmptyString)))
  | a :: b :: c :: rest =>
      let n := (Byte.to_N a * 65536 + Byte.to_N b * 256 + Byte.to_N c)%N in
      String (digit (n / 262144)) (String (digit ((n / 4096) mod 64))
        (String (digit ((n / 64) mod 64)) (String (digit (n mod 64)) (encode rest))))
  end.

End Base64.

(** ** The code generation service ([OpenAIService]) *)

Module OpenAIService.
Import JsString Regex.
Local Open Scope regex_scope.

(** [FlutterScreen], [FlutterWidget], [FlutterModel] and [FlutterService]
    are all a name and a text (the text field of a widget is called
    [dartCode] in the source). *)
Record Artifact : Type := { name : string; code : string }.

Record MainApp : Type := { mainCode : string }.

Record ProcessedResponse : Type := {
  screens : list Artifact;
  widgets : list Artifact;
  models : list Artifact;
  services : list Artifact;
  mainApp : option MainApp
}.

(** *** Patterns *)

Definition any (_ : ascii) : bool := true.
Definition isWordDash (c : ascii) : bool := isWord c || Ascii.eqb c "-".
Definition isWordSlashDash (c : ascii) : bool :=
  isWord c || Ascii.eqb c "/" || Ascii.eqb c "-".

Definition fence : regex := Lit "```".
Definition spaces : regex := Star true isSpace.      (* [\s\n]* *)
Definition spaces1 : regex := Plus isSpace.          (* \s+ *)
Definition anything : regex := Star false any.       (* [\s\S]*? *)

(** [/```dart[\s\n]*\/\/[\s\n]*([\w-]+SUFFIX\.dart)[\s\S]*?```/g] *)
Definition suffixed (suffix : string) : regex :=
  Lit "```dart" ;; spaces ;; Lit "//" ;; spaces ;;
  Group (Plus isWordDash ;; Lit (suffix ++ ".dart")) ;; anything ;; fence.

Definition patterns : list regex := [
  (* /```(?:dart)[\s\n]*\/\/[\s\n]*main\.dart[\s\S]*?```/g *)
  Lit "```" ;; Lit "dart" ;; spaces ;; Lit "//" ;; spaces ;; Lit "main.dart" ;;
    anything ;; fence;
  suffixed "_screen";
  suffixed "_widget";
  suffixed "_model";
  suffixed "_service";
  (* /```dart[\s\n]*\/\/[\s\n]*([\w\/-]+\.dart)[\s\S]*?```/g *)
  Lit "```dart" ;; spaces ;; Lit "//" ;; spaces ;;
    Group (Plus isWordSlashDash ;; Lit ".dart") ;; anything ;; fence
].

(** [/```dart[\s\n]*\/\/[\s\n]*main\.dart[\s\S]*?```/] *)
Definition mainPattern : regex :=
  Lit "```dart" ;; spaces ;; Lit "//" ;; spaces ;; Lit "main.dart" ;; anything ;; fence.

(** [/```dart[\s\S]*?```/g] *)
Definition dartPattern : regex := Lit "```dart" ;; anything ;; fence.

Definition blank (_ : rmatch) : string := EmptyString.

(** [extractCodeContent]: the fence with its file-name comment line, then
    any other opening fence, then a fence at the very end are removed, and
    the result is trimmed. *)
Definition extractCodeContent (codeBlock : string) : string :=
  let s1 := replaceAll (Lit "```dart" ;; spaces ;; Lit "//" ;; spaces ;;
                        Star true isDot ;; spaces) blank codeBlock in
  let s2 := replaceAll (Lit "```dart" ;; spaces) blank s1 in
  let s3 := replaceAll (fence ;; Eos) blank s2 in
  trim s3.

(** [inferFileNameFromContent] *)
Definition inferFileNameFromContent (content : string) (index : nat) : string :=
  if includes content "void main()" || includes content "runApp(" then
    "main.dart"
  else if includes content "StatefulWidget" || includes content "StatelessWidget" then
    if includes content "Screen" || includes content "Page" then
      "screen_" ++ ofNat index ++ ".dart"
    else
      "widget_" ++ ofNat index ++ ".dart"
  else if includes content "class" && Bool.eqb (includes content "extends") false then
    "model_" ++ ofNat index ++ ".dart"
  else if includes content "service" || includes content "Service"
          || includes content "Repository" then
    "service_" ++ ofNat index ++ ".dart"
  else
    "file_" ++ ofNat index ++ ".dart".

(** The body of the inner loop of [extractFileBlocks] for one match of
    pattern number [i]. *)
Definition recordMatch (i : nat) (mainFound : bool)
           (blocks : JsMap.t string) (m : rmatch) : JsMap.t string :=
  if String.eqb (whole m) EmptyString then blocks
  else if (i =? 0)%nat && mainFound then blocks
  else match option_map trim (group1 m) with
       | None => blocks
       | Some fileName =>
           if String.eqb fileName EmptyString then blocks
           else if String.eqb fileName "main.dart" && JsMap.has blocks "main.dart"
                then blocks
                else JsMap.set blocks fileName (extractCodeContent (whole m))
       end.

(** The loop over the patterns, from pattern [i] on. *)
Fixpoint scanPatterns (text : string) (mainFound : bool) (start i : nat)
         (ps : list regex) (blocks : JsMap.t string) : JsMap.t string :=
  match ps with
  | [] => blocks
  | p :: rest =>
      let blocks' :=
        if (i <? start)%nat then blocks
        else fold_left (recordMatch i mainFound) (matchAll p text) blocks in
      scanPatterns text mainFound start (S i) rest blocks'
  end.

(** The last loop of [extractFileBlocks]: every dart fence, named from
    its content. *)
Fixpoint scanGeneric (i : nat) (dartBlocks : list rmatch)
         (blocks : JsMap.t string) : JsMap.t string :=
  match dartBlocks with
  | [] => blocks
  | m :: rest =>
      let dartContent := extractCodeContent (whole m) in
      let fileName := inferFileNameFromContent dartContent i in
      scanGeneric (S i) rest (JsMap.set blocks fileName dartContent)
  end.

(** The blocks found by file-name convention: [extractFileBlocks] up to
    its test [blocks.size === 0]. *)
Definition namedBlocks (text : string) : JsMap.t string :=
  let mainAppMatch := matchFirst mainPattern text in
  let blocks :=
    match mainAppMatch with
    | Some m => JsMap.set JsMap.empty "main.dart" (extractCodeContent (whole m))
    | None => JsMap.empty
    end in
  let mainFound := match mainAppMatch with Some _ => true | None => false end in
  scanPatterns text mainFound (if mainFound then 1 else 0) 0 patterns blocks.

(** [extractFileBlocks], called on the empty map as [processCode] does. *)
Definition extractFileBlocks (text : string) : JsMap.t string :=
  let blocks := namedBlocks text in
  if (JsMap.size blocks =? 0)%nat
  then scanGeneric 0 (matchAll dartPattern text) blocks
  else blocks.

(** *** Classification *)

(** The accumulators [processCodeBlocks] works on. *)
Record Acc : Type := {
  processedFiles : JsMap.t bool;
  accScreens : list Artifact;
  accWidgets : list Artifact;
  accModels : list Artifact;
  accServices : list Artifact
}.

Definition markProcessed (fileName : string) (a : Acc) : Acc :=
  {| processedFiles := JsMap.set (processedFiles a) fileName true;
     accScreens := accScreens a; accWidgets := accWidgets a;
     accModels := accModels a; accServices := accServices a |}.

Definition pushScreen (x : Artifact) (a : Acc) : Acc :=
  {| processedFiles := processedFiles a;
     accScreens := accScreens a ++ [x]; accWidgets := accWidgets a;
     accModels := accModels a; accServices := accServices a |}.

Definition pushWidget (x : Artifact) (a : Acc) : Acc :=
  {| processedFiles := processedFiles a;
     accScreens := accScreens a; accWidgets := accWidgets a ++ [x];
     accModels := accModels a; accServices := accServices a |}.

Definition pushModel (x : Artifact) (a : Acc) : Acc :=
  {| processedFiles := processedFiles a;
     accScreens := accScreens a; accWidgets := accWidgets a;
     accModels := accModels a ++ [x]; accServices := accServices a |}.

Definition pushService (x : Artifact) (a : Acc) : Acc :=
  {| processedFiles := processedFiles a;
     accScreens := accScreens a; accWidgets := accWidgets a;
     accModels := accModels a; accServices := accServices a ++ [x] |}.

(** [fileName.replace('.dart', '')] *)
Definition baseName (fileName : string) : string := replaceStr fileName ".dart" EmptyString.

(** The body of the loop of [processCodeBlocks] for one entry of the map. *)
Definition classifyEntry (a : Acc) (entry : string * string) : Acc :=
  let (fileName, codeContent) := entry in
  let item := {| name := baseName fileName; code := codeContent |} in
  if JsMap.has (processedFiles a) fileName then a
  else if String.eqb fileName "main.dart" then a
  else if includes fileName "_screen" || includes fileName "page" then
    markProcessed fileName (pushScreen item a)
  else if includes fileName "_widget"
          || (includes fileName "widget" && negb (includes fileName "screen")) then
    markProcessed fileName (pushWidget item a)
  else if includes fileName "_model" || includes fileName "model" then
    markProcessed fileName (pushModel item a)
  else if includes fileName "_service" || includes fileName "service"
          || includes fileName "provider" then
    markProcessed fileName (pushService item a)
  else
    markProcessed fileName
      (if includes codeContent "StatefulWidget" || includes codeContent "StatelessWidget" then
         if includes codeContent "Screen" || includes codeContent "Page"
         then pushScreen item a
         else pushWidget item a
       else if includes codeContent "class" && negb (includes codeContent "extends") then
         pushModel item a
       else if includes codeContent "Service" || includes codeContent "Provider"
               || includes codeContent "Repository" then
         pushService item a
       else a).

(** The main entry taken from the map: a block named [main.dart] whose
    text is not empty. *)
Definition mainOfBlocks (codeBlocks : JsMap.t string) : option MainApp :=
  if JsMap.has codeBlocks "main.dart" then
    match JsMap.get codeBlocks "main.dart" with
    | Some mainAppCode =>
        if String.eqb mainAppCode EmptyString then None else Some {| mainCode := mainAppCode |}
    | None => None
    end
  else None.

(** [processCodeBlocks], called with empty accumulators as [processCode]
    does. *)
Definition processCodeBlocks (codeBlocks : JsMap.t string) : ProcessedResponse :=
  let mainApp := mainOfBlocks codeBlocks in
  let processed0 : JsMap.t bool :=
    match mainApp with
    | Some _ => JsMap.set JsMap.empty "main.dart" true
    | None => JsMap.empty
    end in
  let a := fold_left classifyEntry codeBlocks
             {| processedFiles := processed0; accScreens := []; accWidgets := [];
                accModels := []; accServices := [] |} in
  {| screens := accScreens a; widgets := accWidgets a; models := accModels a;
     services := accServices a; mainApp := mainApp |}.

(** *** Naming helpers *)

(** [toSnakeCase]: an underscore before every capital, lower case, and
    one leading underscore dropped. *)
Definition toSnakeCase (text : string) : string :=
  let s1 := replaceAll (Group (Class isUpper))
              (fun m => "_" ++ match group1 m with Some g => g | None => EmptyString end) text in
  replaceFirst (Bos ;; Lit "_") blank (toLowerCase s1).

(** [toPascalCase] *)
Definition toPascalCase (text : string) : string :=
  if String.eqb text EmptyString then EmptyString
  else join EmptyString (List.map (fun word => toUpperCase (charAt0 word) ++ slice1 word)
                         (splitChar "_" text)).

(** *** The entry-point synthesizer *)

Definition quote : string := String "034"%char EmptyString.

(** The text of [generateMainApp] before the import line, between the
    import line and the home expression, and after it. *)
Definition mainHead : string :=
"import 'package:flutter/material.dart';
".

Definition mainMiddle : string :=
"

void main() {
  runApp(const MyApp());
}

class MyApp extends StatelessWidget {
  const MyApp({Key? key}) : super(key: key);

  @override
  Widget build(BuildContext context) {
    return MaterialApp(
      title: 'Flutter Demo',
      theme: ThemeData(
        primarySwatch: Colors.blue,
        visualDensity: VisualDensity.adaptivePlatformDensity,
      ),
      home: ".

Definition mainTail : string :=
",
    );
  }
}".

Definition placeholderHome : string :=
  "const Center(child: Text(" ++ quote ++ "Pantalla principal" ++ quote ++ "))".

(** [generateMainApp]: only the [screens] of its argument are read. *)
Definition generateMainApp (screens : list Artifact) : MainApp :=
  let (homeScreenImport, homeScreenWidget) :=
    match screens with
    | homeScreen :: _ =>
        let homeScreenName := toSnakeCase (name homeScreen) in
        let className := toPascalCase (name homeScreen) in
        ("import '" ++ homeScreenName ++ ".dart';", className ++ "()")
    | [] => (EmptyString, placeholderHome)
    end in
  {| mainCode := mainHead ++ homeScreenImport ++ mainMiddle ++ homeScreenWidget ++ mainTail |}.

(** *** The fall-back extractor *)

(** [findAllMatches]: the matches whose text and group are not empty. *)
Fixpoint findAllMatchesOf (ms : list rmatch) : list (string * string) :=
  match ms with
  | [] => []
  | m :: rest =>
      match group1 m with
      | Some g =>
          if negb (String.eqb (whole m) EmptyString) && negb (String.eqb g EmptyString)
          then (whole m, g) :: findAllMatchesOf rest
          else findAllMatchesOf rest
      | None => findAllMatchesOf rest
      end
  end.

Definition findAllMatches (text : string) (pattern : regex) : list (string * string) :=
  findAllMatchesOf (matchAll pattern text).

(** [extractRelevantCode(text, 'dart')]; the pattern is
    [new RegExp("```(?:dart)?[\\s\\S]*?```")]. *)
Definition extractRelevantCode (text : string) : string :=
  match matchFirst (fence ;; Opt (Lit "dart") ;; anything ;; fence) text with
  | Some blockMatch => extractCodeContent (whole blockMatch)
  | None =>
      match indexOf text "import " with
      | Some codeStart => drop codeStart text
      | None => text
      end
  end.

(** [(?=```|class\s+\w+\s+extends)] *)
Definition untilClassExtends : regex :=
  Ahead (Alt fence (Lit "class" ;; spaces1 ;; Plus isWord ;; spaces1 ;; Lit "extends")).

(** [(?=```|class\s+\w+)] *)
Definition untilClass : regex :=
  Ahead (Alt fence (Lit "class" ;; spaces1 ;; Plus isWord)).

(** [/class\s+(\w+)\s+extends\s+BASE[\s\S]*?(?=```|class\s+\w+\s+extends)/g] *)
Definition widgetPattern (base : string) : regex :=
  Lit "class" ;; spaces1 ;; Group (Plus isWord) ;; spaces1 ;; Lit "extends" ;;
  spaces1 ;; Lit base ;; anything ;; untilClassExtends.

(** [/class\s+(\w+)(?!\s+extends)[\s\S]*?(?=```|class\s+\w+)/g] *)
Definition modelPattern : regex :=
  Lit "class" ;; spaces1 ;; Group (Plus isWord) ;; NotAhead (spaces1 ;; Lit "extends") ;;
  anything ;; untilClass.

(** [/class\s+(\w+(?:Service|Provider|Repository|Client|Api))[\s\S]*?(?=```|class\s+\w+)/g] *)
Definition servicePattern : regex :=
  Lit "class" ;; spaces1 ;;
  Group (Plus isWord ;;
         Alt (Lit "Service") (Alt (Lit "Provider") (Alt (Lit "Repository")
           (Alt (Lit "Client") (Lit "Api"))))) ;;
  anything ;; untilClass.

(** [extractWidgetsAndScreens]: the loop over the blocks, on the pair of
    arrays [(screens, widgets)]. *)
Definition sortWidget (acc : list Artifact * list Artifact) (block : string * string)
  : list Artifact * list Artifact :=
  let (blockText, className) := block in
  let code := extractRelevantCode blockText in
  if includes className "Screen" || includes className "Page"
  then ((fst acc ++ [{| name := toSnakeCase className; code := code |}])%list, snd acc)
  else (fst acc, (snd acc ++ [{| name := toSnakeCase className; code := code |}])%list).

Definition extractWidgetsAndScreens (text : string) : list Artifact * list Artifact :=
  let widgetBlocks :=
    (findAllMatches text (widgetPattern "StatelessWidget") ++
     findAllMatches text (widgetPattern "StatefulWidget"))%list in
  fold_left sortWidget widgetBlocks ([], []).

(** [extractModels] *)
Definition addModel (models : list Artifact) (block : string * string) : list Artifact :=
  let (blockText, className) := block in
  if includes blockText "final" || includes blockText "const"
     || includes blockText "constructor"
  then models ++ [{| name := toSnakeCase className; code := extractRelevantCode blockText |}]
  else models.

Definition extractModels (text : string) : list Artifact :=
  fold_left addModel (findAllMatches text modelPattern) [].

(** [extractServices] *)
Definition addService (services : list Artifact) (block : string * string) : list Artifact :=
  let (blockText, className) := block in
  services ++ [{| name := toSnakeCase className; code := extractRelevantCode blockText |}].

Definition extractServices (text : string) : list Artifact :=
  fold_left addService (findAllMatches text servicePattern) [].

Definition oAcute : string := String "243"%char EmptyString.

(** The text of the placeholder widget before and after the excerpt of
    the response. *)
Definition errorHead : string :=
  "
        import 'package:flutter/material.dart';
        
        class ErrorWidget extends StatelessWidget {
          const ErrorWidget({Key? key}) : super(key: key);
          
          @override
          Widget build(BuildContext context) {
            return Scaffold(
              appBar: AppBar(
                title: const Text('Error de Generaci" ++ oAcute ++ "n'),
              ),
              body: Padding(
                padding: const EdgeInsets.all(16.0),
                child: Column(
                  crossAxisAlignment: CrossAxisAlignment.start,
                  children: [
                    const Text(
                      'Error al generar c" ++ oAcute ++ "digo',
                      style: TextStyle(fontSize: 20, fontWeight: FontWeight.bold),
                    ),
                    const SizedBox(height: 16),
                    const Text(
                      'No se pudo procesar la respuesta de la IA. Por favor intenta con otra captura o contacta al soporte.',
                    ),
                    const SizedBox(height: 16),
                    Container(
                      padding: const EdgeInsets.all(8),
                      color: Colors.grey[200],
                      child: Text(
                        '".

Definition errorTail : string :=
  "...',
                        style: const TextStyle(fontFamily: 'monospace', fontSize: 12),
                      ),
                    )
                  ],
                ),
              ),
            );
          }
        }
      ".

(** [createErrorWidget]: the widget it pushes. *)
Definition errorWidget (responseText : string) : Artifact :=
  {| name := "error_widget";
     code := errorHead ++ substring 0 500 responseText ++ errorTail |}.

Definition createErrorWidget (widgets : list Artifact) (responseText : string)
  : list Artifact :=
  widgets ++ [errorWidget responseText].

(** [/```dart[\s\S]*?void\s+main[\s\S]*?runApp[\s\S]*?```/] *)
Definition looseMainPattern : regex :=
  Lit "```dart" ;; anything ;; Lit "void" ;; spaces1 ;; Lit "main" ;; anything ;;
  Lit "runApp" ;; anything ;; fence.

(** The main entry the fall-back extractor finds in the text, if any. *)
Definition looseMain (responseText : string) : option MainApp :=
  match matchFirst looseMainPattern responseText with
  | Some mainAppMatch => Some {| mainCode := extractCodeContent (whole mainAppMatch) |}
  | None => None
  end.

Definition isEmpty {A : Type} (xs : list A) : bool := (List.length xs =? 0)%nat.

(** [extractWithExtendedPatterns] *)
Definition extractWithExtendedPatterns (responseText : string) : ProcessedResponse :=
  let mainApp := looseMain responseText in
  let (screens, widgets) := extractWidgetsAndScreens responseText in
  let models := extractModels responseText in
  let services := extractServices responseText in
  let widgets :=
    if isEmpty screens && isEmpty widgets && isEmpty models && isEmpty services
    then createErrorWidget widgets responseText
    else widgets in
  let mainApp :=
    match mainApp with
    | Some m => Some m
    | None => Some (generateMainApp screens)
    end in
  {| screens := screens; widgets := widgets; models := models; services := services;
     mainApp := mainApp |}.

(** *** The pipeline *)

(** The test of step 3 of [processCode]: nothing was classified and no
    main entry was found. *)
Definition nothingFound (r : ProcessedResponse) : bool :=
  isEmpty (screens r) && isEmpty (widgets r) && isEmpty (models r)
  && isEmpty (services r)
  && match mainApp r with Some _ => false | None => true end.

(** [processCode].  No step of its [try] block throws on a string, so the
    [catch] branch (which also calls the fall-back extractor) is never
    entered and is not represented. *)
Definition processCode (responseText : string) : ProcessedResponse :=
  let codeBlocks := extractFileBlocks responseText in
  let processedResult := processCodeBlocks codeBlocks in
  if nothingFound processedResult then
    extractWithExtendedPatterns responseText
  else
    match mainApp processedResult with
    | Some _ => processedResult
    | None =>
        {| screens := screens processedResult; widgets := widgets processedResult;
           models := models processedResult; services := services processedResult;
           mainApp := Some (generateMainApp (screens processedResult)) |}
    end.

(** *** Image preparation *)

(** [prepareImageBase64].  The declared result is a string, but the
    second piece of the split does not exist when the text has no comma,
    so the result is a [jsval]. *)
Definition prepareImageBase64 (image : jsval) : result jsval :=
  match image with
  | JBuffer bytes => Ok (JStr (Base64.encode bytes))
  | JStr s =>
      if startsWith s "data:image" then
        match nth_error (splitChar "," s) 1 with
        | Some piece => Ok (JStr piece)
        | None => Ok JUndefined
        end
      else Ok (JStr s)
  | _ => Throw "Formato de imagen no soportado"
  end.

(** *** Batch persistence of UI elements *)

Section Figures.

(** The figure service is an opaque collaborator: [St] is whatever state
    it keeps, and [create] either resolves with the created record or
    rejects. *)
Variable St : Type.

Record FiguraService : Type := {
  create : jsval -> St -> result jsval * St
}.

(** [{ ...element, vistaId }] *)
Definition figuraData (vistaId : string) (element : jsval) : jsval :=
  JObj (JsMap.set (spread element) "vistaId" (JStr vistaId)).

(** The body of the loop of [createFiguresFromUIElements] with its inner
    [try]/[catch].  The record is pushed as soon as [create] resolves;
    the log line that follows the push reads [createdFigure.id] and
    [element.tipo], and when that throws the same [catch] only logs. *)
Definition createOne (svc : FiguraService) (vistaId : string)
           (acc : list jsval * St) (element : jsval) : list jsval * St :=
  let (createdFigures, st) := acc in
  match create svc (figuraData vistaId element) st with
  | (Ok createdFigure, st') => ((createdFigures ++ [createdFigure])%list, st')
  | (Throw _, st') => (createdFigures, st')
  end.

(** [createFiguresFromUIElements]; [resolved] is what
    [moduleRef.get(FiguraService, { strict: false })] gives. *)
Definition createFiguresFromUIElements
           (resolved : result (option FiguraService))
           (uiElements : list jsval) (vistaId : string) (st : St)
  : result (list jsval) * St :=
  match resolved with
  | Throw e => (Throw ("Error al crear figuras: " ++ e), st)
  | Ok None =>
      (Throw ("Error al crear figuras: " ++ "No se pudo obtener el servicio de figuras"),
       st)
  | Ok (Some figuraService) =>
      let (createdFigures, st') :=
        fold_left (createOne figuraService vistaId) uiElements ([], st) in
      (Ok createdFigures, st')
  end.

End Figures.

End OpenAIService.

(** ** The navigation synthesizer ([AutoNavigationService]) *)

Module AutoNavigationService.
Import JsString Regex.
Local Open Scope regex_scope.

Record Proyecto : Type := { proyectoNombre : string }.

(** A view as the view service returns it. *)
Record Vista : Type := {
  vistaId : string;
  vistaNombre : string;
  vistaProyecto : option Proyecto
}.

(** A view with its figures, as [generateNavigationForProject] builds it. *)
Record VistaDetail : Type := {
  id : string;
  nombre : string;
  figuras : list jsval;
  proyecto : option Proyecto
}.

Record Route : Type := {
  name : string;
  screenName : string;
  path : string;
  isInitial : bool;
  description : string;
  figuraCount : nat
}.

Record NavigationStructure : Type := {
  routes : list Route;
  mainApp : string          (* files.mainApp *)
}.

(** The two collaborators; both are only read.  [None] stands for a
    [null] or [undefined] answer. *)
Record VistaService : Type := {
  findAllVistas : string -> result (option (list Vista))
}.

Record FiguraService : Type := {
  findAllFiguras : string -> result (option (list jsval))
}.

(** What [moduleRef.get(..., { strict: false })] gives for each of them. *)
Record ModuleRef : Type := {
  getVistaService : result (option VistaService);
  getFiguraService : result (option FiguraService)
}.

Definition blank (_ : rmatch) : string := EmptyString.
Definition newline : string := String "010"%char EmptyString.
Definition chr (n : nat) : string := String (ascii_of_nat n) EmptyString.

(** [toSnakeCase] of this service: as in the generation service, and
    every run of white space becomes one underscore. *)
Definition toSnakeCase (text : string) : string :=
  let s1 := replaceAll (Group (Class isUpper))
              (fun m => "_" ++ match group1 m with Some g => g | None => EmptyString end) text in
  let s2 := replaceFirst (Bos ;; Lit "_") blank (toLowerCase s1) in
  replaceAll (Plus isSpace) (fun _ => "_") s2.

Definition isSeparator (c : ascii) : bool :=
  isSpace c || Ascii.eqb c "_" || Ascii.eqb c "-".

(** [toPascalCase] of this service: split on [/[\s_-]+/]. *)
Definition toPascalCase (text : string) : string :=
  join EmptyString (List.map (fun word => toUpperCase (charAt0 word) ++ toLowerCase (slice1 word))
                    (splitRuns isSeparator false text)).

Definition initialPatterns : list string := [
  "login"; "signin"; "auth"; "welcome"; "onboarding";
  "splash"; "home"; "dashboard"; "main"; "inicio"; "principal"
].

(** [determineIfInitial] *)
Definition determineIfInitial (vista : VistaDetail) (index : nat) : bool :=
  let name := toLowerCase (nombre vista) in
  if existsb (fun pattern => includes name pattern) initialPatterns then true
  else (index =? 0)%nat.

Definition iconMap : list (string * string) := [
  ("home", "home"); ("login", "login"); ("register", "person_add");
  ("profile", "person"); ("settings", "settings"); ("dashboard", "dashboard");
  ("lista", "list"); ("principal", "home"); ("usuario", "person");
  ("registro", "person_add")
].

(** [getIconForRoute] *)
Definition getIconForRoute (routeName : string) : string :=
  match find (fun entry => includes (toLowerCase routeName) (fst entry)) iconMap with
  | Some entry => snd entry
  | None => "pages"
  end.

(** [a || b] on a string that may be missing: an empty string is falsy. *)
Definition orString (a : option string) (b : string) : string :=
  match a with
  | Some s => if String.eqb s EmptyString then b else s
  | None => b
  end.

(** The initial route [generateSimpleMainApp] writes:
    [routes.find(r => r.isInitial)?.path || routes[0]?.path || '/']. *)
Definition initialRouteOf (routes : list Route) : string :=
  orString (option_map path (find isInitial routes))
           (orString (option_map path (nth_error routes 0)) "/").

(** [generateSimpleMainApp] *)
Definition generateSimpleMainApp (routes : list Route) (projectName : string) : string :=
  let className := toPascalCase projectName in
  let initialRoute := initialRouteOf routes in
"// lib/main.dart
import 'package:flutter/material.dart';
// Importar todas las pantallas
" ++
(join newline (List.map (fun route => "import 'screens/" ++ name route ++ "_screen.dart';") routes)) ++
"

void main() {
  runApp(const " ++
className ++
"App());
}

class " ++
className ++
"App extends StatelessWidget {
  const " ++
className ++
"App({super.key});

  @override
  Widget build(BuildContext context) {
    return MaterialApp(
      title: '" ++
projectName ++
"',
      theme: ThemeData(
        primarySwatch: Colors.blue,
        visualDensity: VisualDensity.adaptivePlatformDensity,
      ),
      initialRoute: '" ++
initialRoute ++
"',
      routes: {
        // Definir todas las rutas directamente aqu" ++
chr 237 ++
"
" ++
(join newline (List.map (fun route => "        '" ++ path route ++ "': (context) => " ++ screenName route ++ "(),") routes)) ++
"
      },
      debugShowCheckedModeBanner: false,
    );
  }
}

// Navegaci" ++
chr 243 ++
"n simple - TODO EN UNA CLASE
class AppNavigation {
  // Rutas disponibles
" ++
(join newline (List.map (fun route => "  static const String " ++ name route ++ " = '" ++ path route ++ "';") routes)) ++
"

  // M" ++
chr 233 ++
"todos simples para navegar
  static void goTo(BuildContext context, String route) {
    Navigator.pushNamed(context, route);
  }

  static void goBack(BuildContext context) {
    if (Navigator.canPop(context)) {
      Navigator.pop(context);
    }
  }

  // Lista para el drawer
  static List<NavigationItem> get allRoutes => [
" ++
(join newline (List.map (fun route => "    NavigationItem('" ++ description route ++ "', " ++ name route ++ ", Icons." ++ getIconForRoute (name route) ++ "),") routes)) ++
"
  ];
}

// Item simple de navegaci" ++
chr 243 ++
"n
class NavigationItem {
  final String title;
  final String route;
  final IconData icon;
  const NavigationItem(this.title, this.route, this.icon);
}

// Drawer autom" ++
chr 225 ++
"tico
class AppDrawer extends StatelessWidget {
  const AppDrawer({super.key});

  @override
  Widget build(BuildContext context) {
    return Drawer(
      child: ListView(
        padding: EdgeInsets.zero,
        children: [
          const DrawerHeader(
            decoration: BoxDecoration(color: Colors.blue),
            child: Text(
              'Navegaci" ++
chr 243 ++
"n',
              style: TextStyle(color: Colors.white, fontSize: 24),
            ),
          ),
          ...AppNavigation.allRoutes.map((item) => ListTile(
            leading: Icon(item.icon),
            title: Text(item.title),
            onTap: () {
              Navigator.pop(context);
              AppNavigation.goTo(context, item.route);
            },
          )),
        ],
      ),
    );
  }
}".

(** [xs.map((x, index) => f(x, index))] *)
Fixpoint mapi {A B : Type} (f : A -> nat -> B) (index : nat) (xs : list A) : list B :=
  match xs with
  | [] => []
  | x :: rest => f x index :: mapi f (S index) rest
  end.

Definition routeOf (vista : VistaDetail) (index : nat) : Route :=
  {| name := toSnakeCase (nombre vista);
     screenName := toPascalCase (nombre vista) ++ "Screen";
     path := "/" ++ toSnakeCase (nombre vista);
     isInitial := determineIfInitial vista index;
     description := nombre vista;
     figuraCount := List.length (figuras vista) |}.

(** [createNavigationStructure] *)
Definition createNavigationStructure (vistas : list VistaDetail) : NavigationStructure :=
  let routes := mapi routeOf 0 vistas in
  let projectName :=
    orString (match nth_error vistas 0 with
              | Some v => option_map proyectoNombre (proyecto v)
              | None => None
              end) "MyApp" in
  {| routes := routes; mainApp := generateSimpleMainApp routes projectName |}.

(** One view of the [Promise.all]: a failed fetch of the figures leaves the
    view with no figures. *)
Definition detailOf (figuraService : FiguraService) (vista : Vista) : VistaDetail :=
  let figuras :=
    match findAllFiguras figuraService (vistaId vista) with
    | Ok (Some figuras) => figuras
    | Ok None => []
    | Throw _ => []
    end in
  {| id := vistaId vista; nombre := vistaNombre vista; figuras := figuras;
     proyecto := vistaProyecto vista |}.

(** [generateNavigationForProject]: [Ok None] is the result [null]. *)
Definition generateNavigationForProject (moduleRef : ModuleRef) (projectId : string)
  : result (option NavigationStructure) :=
  catch
    (bind (getVistaService moduleRef) (fun vistaService =>
     bind (getFiguraService moduleRef) (fun figuraService =>
       match vistaService, figuraService with
       | Some vistaService, Some figuraService =>
           bind (findAllVistas vistaService projectId) (fun vistas =>
             match vistas with
             | None => Ok None
             | Some vistas =>
                 if (List.length vistas <? 2)%nat then Ok None
                 else
                   let vistaDetails := List.map (detailOf figuraService) vistas in
                   Ok (Some (createNavigationStructure vistaDetails))
             end)
       | _, _ => Throw "Servicios requeridos no disponibles"
       end)))
    (fun _ => Ok None).

End AutoNavigationService.

(** ** The public operations of the generation service *)

Module Generation.
Import JsString Regex OpenAIService.
Local Open Scope regex_scope.

(** [ScreenshotGenerationParams], with the [projectId] the later
    revision of the service reads. *)
Record ScreenshotGenerationParams : Type := {
  image : jsval;
  pageName : string;
  description : option string;
  projectId : option string
}.

(** The completion API is external.  A call either rejects or resolves
    with [response.choices[0].message.content], [None] standing for a
    [null] content.  Its arguments are the base64 text of the image, the
    page name and the description. *)
Definition CompletionApi : Type :=
  string -> string -> option string -> result (option string).

(** The bundle with the [navigationFiles] the operation may add to it. *)
Record GeneratedCode : Type := {
  processed : ProcessedResponse;
  navigationFiles : option AutoNavigationService.NavigationStructure
}.

(** [v.length] as the log line reads it: a [TypeError] on [undefined]
    and [null] (the messages are those of V8). *)
Definition readLength (v : jsval) : result unit :=
  match v with
  | JUndefined => Throw "Cannot read properties of undefined (reading 'length')"
  | JNull => Throw "Cannot read properties of null (reading 'length')"
  | _ => Ok tt
  end.

(** The text a template literal writes for what [prepareImageBase64]
    returned: the string itself, or [undefined]. *)
Definition textOf (v : jsval) : string :=
  match v with
  | JStr s => s
  | _ => "undefined"
  end.

(** [!s] for a string that may be missing. *)
Definition falsy (s : option string) : bool :=
  match s with
  | None => true
  | Some s => String.eqb s EmptyString
  end.

Definition textOr (s : option string) : string :=
  match s with
  | Some s => s
  | None => EmptyString
  end.

(** The navigation step of [generateFlutterCodeFromScreenshot]: its
    [try]/[catch] only warns, and [navigationFiles] is set when the
    navigation service returns a structure. *)
Definition navigationFor (moduleRef : AutoNavigationService.ModuleRef)
           (projectId : option string) : option AutoNavigationService.NavigationStructure :=
  if falsy projectId then None
  else match AutoNavigationService.generateNavigationForProject moduleRef (textOr projectId) with
       | Ok (Some navigationCode) => Some navigationCode
       | Ok None => None
       | Throw _ => None
       end.

Definition failure (message : string) : string :=
  "Error al generar c" ++ oAcute ++ "digo Flutter: " ++ message.

(** [generateFlutterCodeFromScreenshot] *)
Definition generateFlutterCodeFromScreenshot
           (callOpenAI : CompletionApi) (moduleRef : AutoNavigationService.ModuleRef)
           (data : ScreenshotGenerationParams) : result GeneratedCode :=
  catch
    (bind (prepareImageBase64 (image data)) (fun imageBase64 =>
     bind (readLength imageBase64) (fun _ =>
     bind (callOpenAI (textOf imageBase64) (pageName data) (description data))
          (fun content =>
       if falsy content then Throw "La respuesta de OpenAI no contiene contenido."
       else
         let processedResult := processCode (textOr content) in
         Ok {| processed := processedResult;
               navigationFiles := navigationFor moduleRef (projectId data) |}))))
    (fun message => Throw (failure message)).

(** *** Elements of a sketch *)

(** [/\[\s*\{[\s\S]*\}\s*\]/] *)
Definition jsonArrayPattern : regex :=
  Lit "[" ;; spaces ;; Lit "{" ;; Star true any ;; Lit "}" ;; spaces ;; Lit "]".

Definition formatError : string :=
  "No se pudo procesar la respuesta de la IA. Formato incorrecto.".

Definition isArray (v : jsval) : bool :=
  match v with
  | JArr _ => true
  | _ => false
  end.

(** Step 4 of [extractUIElementsFromImage]; [parse] is [JSON.parse]. *)
Definition parseElements (parse : string -> result jsval) (content : string) : result jsval :=
  match matchFirst jsonArrayPattern content with
  | Some jsonMatch => catch (parse (whole jsonMatch)) (fun _ => Throw formatError)
  | None =>
      catch (bind (parse content) (fun uiElements =>
               if isArray uiElements then Ok uiElements
               else Throw "La respuesta no es un array"))
            (fun _ => Throw formatError)
  end.

(** What [for (const element of v)] goes through; a value that is not
    iterable throws a [TypeError]. *)
Definition elementsOf (v : jsval) : result (list jsval) :=
  match v with
  | JArr items => Ok items
  | JStr s => Ok (List.map (fun c => JStr (String c EmptyString)) (list_ascii_of_string s))
  | JBuffer bytes => Ok (List.map (fun b => JNum (Z.of_N (Byte.to_N b))) bytes)
  | _ => Throw "uiElements is not iterable"
  end.

Section Sketch.

Variable St : Type.

(** [createFiguresFromUIElements] on what the parser returned: the
    service is resolved first, then the value is iterated. *)
Definition createFiguresFromParsed (resolved : result (option (FiguraService St)))
           (uiElements : jsval) (vistaId : string) (st : St) : result (list jsval) * St :=
  match resolved with
  | Ok (Some _) =>
      match elementsOf uiElements with
      | Ok items => createFiguresFromUIElements resolved items vistaId st
      | Throw e => (Throw ("Error al crear figuras: " ++ e), st)
      end
  | _ => createFiguresFromUIElements resolved [] vistaId st
  end.

(** [extractUIElementsFromImage]; [analyse] is the completion call, given
    the base64 text of the image and the description. *)
Definition extractUIElementsFromImage
           (analyse : string -> string -> result (option string))
           (parse : string -> result jsval)
           (resolved : result (option (FiguraService St)))
           (imageBuffer : jsval) (vistaId description : string) (st : St)
  : result (list jsval) * St :=
  let parsed :=
    bind (prepareImageBase64 imageBuffer) (fun imageBase64 =>
    bind (analyse (textOf imageBase64) description) (fun content =>
      if falsy content then Throw "La respuesta de OpenAI no contiene contenido"
      else parseElements parse (textOr content))) in
  match parsed with
  | Throw e => (Throw ("Error al procesar la imagen: " ++ e), st)
  | Ok uiElements =>
      match createFiguresFromParsed resolved uiElements vistaId st with
      | (Ok createdFigures, st') => (Ok createdFigures, st')
      | (Throw e, st') => (Throw ("Error al procesar la imagen: " ++ e), st')
      end
  end.

End Sketch.

End Generation.

(** ** The navigation helpers kept in the generation service *)

Module ProjectNavigation.
Import JsString OpenAIService.

(** A view with its figures, as [generateProjectNavigationCode] builds it. *)
Record VistaDetail : Type := {
  id : string;
  nombre : string;
  figuras : list jsval
}.

Record Route : Type := {
  name : string;
  screenName : string;
  path : string;
  isInitial : bool;
  description : string;
  figuraCount : nat
}.

Definition initialPatterns : list string := [
  "login"; "signin"; "auth"; "welcome"; "onboarding";
  "splash"; "home"; "dashboard"; "main"; "inicio"
].

(** The test of [routes.find] in [determineInitialRoute]. *)
Definition mentions (pattern : string) (route : Route) : bool :=
  includes (toLowerCase (name route)) pattern
  || includes (toLowerCase (description route)) pattern.

(** The loop of [determineInitialRoute] over the patterns that remain. *)
Fixpoint firstMentioned (patterns : list string) (routes : list Route) : option string :=
  match patterns with
  | [] => None
  | pattern :: rest =>
      match find (mentions pattern) routes with
      | Some foundRoute => Some (name foundRoute)
      | None => firstMentioned rest routes
      end
  end.

(** [determineInitialRoute]: [None] is [null]. *)
Definition determineInitialRoute (routes : list Route) : option string :=
  firstMentioned initialPatterns routes.

Fixpoint mapi {A B : Type} (f : A -> nat -> B) (index : nat) (xs : list A) : list B :=
  match xs with
  | [] => []
  | x :: rest => f x index :: mapi f (S index) rest
  end.

Definition routeOf (vista : VistaDetail) (index : nat) : Route :=
  {| name := toSnakeCase (nombre vista);
     screenName := toPascalCase (nombre vista) ++ "Screen";
     path := "/" ++ toSnakeCase (nombre vista);
     isInitial := (index =? 0)%nat;
     description := nombre vista;
     figuraCount := List.length (figuras vista) |}.

Definition setInitial (initialRoute : string) (route : Route) : Route :=
  {| name := name route; screenName := screenName route; path := path route;
     isInitial := String.eqb (name route) initialRoute;
     description := description route; figuraCount := figuraCount route |}.

(** The [routes] of the structure [analyzeAndGenerateNavigation] returns:
    the first view is initial, unless [determineInitialRoute] names a
    route, and then the routes of that name are.  The [files] of the
    structure are texts written from these routes and are not
    represented. *)
Definition analyzedRoutes (vistas : list VistaDetail) : list Route :=
  let routes := mapi routeOf 0 vistas in
  match determineInitialRoute routes with
  | Some initialRoute =>
      if String.eqb initialRoute EmptyString then routes
      else List.map (setInitial initialRoute) routes
  | None => routes
  end.

End ProjectNavigation.

(** ** Notions of the specification *)

Import JsString.

(** "Everything up to and including the first comma" removed. *)
Fixpoint afterFirstComma (s : string) : string :=
  match s with
  | EmptyString => EmptyString
  | String c t => if Ascii.eqb c "," then t else afterFirstComma t
  end.

(** The history of a batch: every item is submitted to the figure service
    once, in order, whatever became of the items before it; each entry is
    the submitted data with the answer of the service. *)
Fixpoint submitAll {St : Type} (svc : OpenAIService.FiguraService St)
         (datas : list jsval) (st : St) : list (jsval * result jsval) * St :=
  match datas with
  | [] => ([], st)
  | d :: rest =>
      let (r, st1) := OpenAIService.create svc d st in
      let (h, st2) := submitAll svc rest st1 in
      ((d, r) :: h, st2)
  end.

(** The records of the submissions that succeeded, in order. *)
Fixpoint createdOf (history : list (jsval * result jsval)) : list jsval :=
  match history with
  | [] => []
  | (_, Ok v) :: rest => v :: createdOf rest
  | (_, Throw _) :: rest => createdOf rest
  end.

(** A module reference that resolves both collaborators, over a fixed
    list of views without figures. *)
Definition viewNamed (n : string) : AutoNavigationService.Vista :=
  {| AutoNavigationService.vistaId := n;
     AutoNavigationService.vistaNombre := n;
     AutoNavigationService.vistaProyecto := None |}.

Definition projectWith (names : list string) : AutoNavigationService.ModuleRef :=
  {| AutoNavigationService.getVistaService :=
       Ok (Some {| AutoNavigationService.findAllVistas :=
                     fun _ => Ok (Some (List.map viewNamed names)) |});
     AutoNavigationService.getFiguraService :=
       Ok (Some {| AutoNavigationService.findAllFiguras := fun _ => Ok (Some []) |}) |}.

(** A module reference in which the view service is not registered. *)
Definition withoutVistaService : AutoNavigationService.ModuleRef :=
  {| AutoNavigationService.getVistaService := Ok None;
     AutoNavigationService.getFiguraService :=
       Ok (Some {| AutoNavigationService.findAllFiguras := fun _ => Ok (Some []) |}) |}.

(** A collaborator cannot be resolved: [get] gives nothing or throws. *)
Definition unresolved {A : Type} (r : result (option A)) : Prop :=
  r = Ok None \/ exists e, r = Throw e.

(** The number of classified artifacts of a bundle. *)
Definition classified (r : OpenAIService.ProcessedResponse) : nat :=
  List.length (OpenAIService.screens r) + List.length (OpenAIService.widgets r)
  + List.length (OpenAIService.models r) + List.length (OpenAIService.services r).

Definition namesOf (xs : list OpenAIService.Artifact) : list string :=
  List.map OpenAIService.name xs.

(** No two artifacts of one category share a name. *)
Definition uniqueNames (r : OpenAIService.ProcessedResponse) : Prop :=
  NoDup (namesOf (OpenAIService.screens r))
  /\ NoDup (namesOf (OpenAIService.widgets r))
  /\ NoDup (namesOf (OpenAIService.models r))
  /\ NoDup (namesOf (OpenAIService.services r)).

Definition notDot (c : ascii) : bool := negb (Ascii.eqb c ".").

(** A dart file name: a base without a dot, followed by [.dart]. *)
Definition dartName (k : string) : Prop :=
  exists b, k = b ++ ".dart" /\ allChars notDot b = true.

(** A pattern names files: whatever it captures is, once trimmed, a dart
    file name. *)
Definition namesFiles (p : Regex.regex) : Prop :=
  forall n s c' x,
    Regex.run p Some (Regex.Cursor n s None) = Some c' ->
    Regex.cap c' = Some x -> dartName (trim x).

(** The keys of a map of blocks are distinct dart file names. *)
Definition wellNamed (blocks : JsMap.t string) : Prop :=
  NoDup (JsMap.keys blocks) /\ Forall dartName (JsMap.keys blocks).

(** The names of a category are distinct and are base names of the files
    seen so far. *)
Definition distinctAmong (seen : list string) (xs : list OpenAIService.Artifact) : Prop :=
  NoDup (namesOf xs) /\ incl (namesOf xs) (List.map OpenAIService.baseName seen).

Definition fresh (seen : list string) (a : OpenAIService.Acc) : Prop :=
  distinctAmong seen (OpenAIService.accScreens a)
  /\ distinctAmong seen (OpenAIService.accWidgets a)
  /\ distinctAmong seen (OpenAIService.accModels a)
  /\ distinctAmong seen (OpenAIService.accServices a).

(** A figure service that numbers the records it creates and rejects data
    without a [tipo]. *)
Definition numberingService : OpenAIService.FiguraService nat :=
  {| OpenAIService.create := fun data next =>
       match data with
       | JObj props =>
           if JsMap.has props "tipo"
           then (Ok (JObj (JsMap.set props "id" (JNum (Z.of_nat next)))), S next)
           else (Throw "tipo requerido", next)
       | _ => (Throw "tipo requerido", next)
       end |}.

(** A response in which one file name heads two dart blocks. *)
Definition twoLoginScreens : string :=
"```dart
// login_screen.dart
class A {}
```
```dart
// login_screen.dart
class B {}
```".

(** A response without dart fences in which one class is written twice. *)
Definition twoHomePages : string :=
"class HomePage extends StatelessWidget {}
```
class HomePage extends StatelessWidget {}
```".

(** A response whose only dart block has no file-name comment. *)
Definition unnamedWidget : string :=
"```dart
class Foo extends StatelessWidget {}
```".

(** Every artifact of a bundle, category after category. *)
Definition allArtifacts (r : OpenAIService.ProcessedResponse) : list OpenAIService.Artifact :=
  (OpenAIService.screens r ++ OpenAIService.widgets r
   ++ OpenAIService.models r ++ OpenAIService.services r)%list.

Definition accArtifacts (a : OpenAIService.Acc) : list OpenAIService.Artifact :=
  (OpenAIService.accScreens a ++ OpenAIService.accWidgets a
   ++ OpenAIService.accModels a ++ OpenAIService.accServices a)%list.

(** A response with a main block followed by a second main block. *)
Definition twoMainBlocks : string :=
"```dart
// main.dart
void main() { runApp(First()); }
```
```dart
// main.dart
void main() { runApp(Second()); }
```".

(** The number of figures the navigation keeps for a view: none when the
    fetch fails or answers nothing. *)
Definition figuresKept (figuraService : AutoNavigationService.FiguraService)
           (vista : AutoNavigationService.Vista) : nat :=
  match AutoNavigationService.findAllFiguras figuraService
          (AutoNavigationService.vistaId vista) with
  | Ok (Some figuras) => List.length figuras
  | Ok None => 0
  | Throw _ => 0
  end.

(** A figure service that fails for the view [Home]. *)
Definition failingForHome : AutoNavigationService.FiguraService :=
  {| AutoNavigationService.findAllFiguras := fun vistaId =>
       if String.eqb vistaId "Home" then Throw "timeout"
       else Ok (Some [JNull; JNull]) |}.

Definition threeViews : AutoNavigationService.VistaService :=
  {| AutoNavigationService.findAllVistas := fun _ =>
       Ok (Some (List.map viewNamed ["Login"; "Home"; "User Profile"])) |}.

(** A view service whose [findAll] rejects. *)
Definition rejectingViews : AutoNavigationService.VistaService :=
  {| AutoNavigationService.findAllVistas := fun _ => Throw "connection lost" |}.

(** An underscore put in front of every capital letter. *)
Fixpoint underscoreCapitals (s : string) : string :=
  match s with
  | EmptyString => EmptyString
  | String c t =>
      if isUpper c then String "_" (String c (underscoreCapitals t))
      else String c (underscoreCapitals t)
  end.

(** One leading underscore removed. *)
Definition dropUnderscore (s : string) : string :=
  match s with
  | String c t => if Ascii.eqb c "_" then t else s
  | EmptyString => EmptyString
  end.

Definition notUnderscore (c : ascii) : bool := negb (Ascii.eqb c "_").
Definition notUpper (c : ascii) : bool := negb (isUpper c).
Definition notBacktick (c : ascii) : bool := negb (Ascii.eqb c "`").

(** A character of a route name: no capital letter, no white space. *)
Definition routeChar (c : ascii) : bool := negb (isUpper c) && negb (isSpace c).

(** A word with its first letter in upper case, as [toPascalCase] of the
    generation service writes it. *)
Definition capitalised (word : string) : string :=
  toUpperCase (charAt0 word) ++ slice1 word.

Definition lineBreak : string := String "010"%char EmptyString.

(** The text does not start with a character of the class. *)
Definition headFails (p : ascii -> bool) (s : string) : Prop :=
  match s with
  | EmptyString => True
  | String c _ => p c = false
  end.

(** A completion API that always answers with the same content. *)
Definition answering (content : string) : Generation.CompletionApi :=
  fun _ _ _ => Ok (Some content).

(** A completion API that always rejects. *)
Definition rejecting (message : string) : Generation.CompletionApi :=
  fun _ _ _ => Throw message.

Definition screenshotOf (image : jsval) (projectId : option string)
  : Generation.ScreenshotGenerationParams :=
  {| Generation.image := image; Generation.pageName := "Login";
     Generation.description := None; Generation.projectId := projectId |}.

(** A parser that accepts one text only, as an array with one element. *)
Definition parsingOnly (text : string) : string -> result jsval :=
  fun s => if String.eqb s text then Ok (JArr [JObj [("tipo", JStr "circle")]])
           else Throw "Unexpected token".

Definition sketchApi (content : string) : string -> string -> result (option string) :=
  fun _ _ => Ok (Some content).

Definition settingsAndHome : list ProjectNavigation.VistaDetail :=
  [ {| ProjectNavigation.id := "1"; ProjectNavigation.nombre := "Settings";
       ProjectNavigation.figuras := [] |};
    {| ProjectNavigation.id := "2"; ProjectNavigation.nombre := "Home";
       ProjectNavigation.figuras := [] |} ].

(** The categories of the classifier, and the rows of its decision read
    as a table: the file name first, then the content. *)
Inductive Kind : Type := KScreen | KWidget | KModel | KService | KNone.

Definition kindOfName (fileName : string) : option Kind :=
  if includes fileName "_screen" || includes fileName "page" then Some KScreen
  else if includes fileName "_widget"
          || (includes fileName "widget" && negb (includes fileName "screen"))
       then Some KWidget
  else if includes fileName "_model" || includes fileName "model" then Some KModel
  else if includes fileName "_service" || includes fileName "service"
          || includes fileName "provider" then Some KService
  else None.

Definition kindOfContent (codeContent : string) : Kind :=
  if includes codeContent "StatefulWidget" || includes codeContent "StatelessWidget" then
    if includes codeContent "Screen" || includes codeContent "Page" then KScreen else KWidget
  else if includes codeContent "class" && negb (includes codeContent "extends") then KModel
  else if includes codeContent "Service" || includes codeContent "Provider"
          || includes codeContent "Repository" then KService
  else KNone.

Definition kindOf (entry : string * string) : Kind :=
  match kindOfName (fst entry) with
  | Some k => k
  | None => kindOfContent (snd entry)
  end.

Definition sameKind (a b : Kind) : bool :=
  match a, b with
  | KScreen, KScreen | KWidget, KWidget | KModel, KModel
  | KService, KService | KNone, KNone => true
  | _, _ => false
  end.

(** The block is not [main.dart] and the table gives it the kind [k]. *)
Definition ofKind (k : Kind) (entry : string * string) : bool :=
  negb (String.eqb (fst entry) "main.dart") && sameKind (kindOf entry) k.

Definition artifactOf (entry : string * string) : OpenAIService.Artifact :=
  {| OpenAIService.name := OpenAIService.baseName (fst entry);
     OpenAIService.code := snd entry |}.

(** The main entry of a bundle is one of the three the pipeline knows. *)
Definition mainEntryOrigin (text : string) (m : OpenAIService.MainApp)
           (r : OpenAIService.ProcessedResponse) : Prop :=
  OpenAIService.mainOfBlocks (OpenAIService.extractFileBlocks text) = Some m
  \/ OpenAIService.looseMain text = Some m
  \/ m = OpenAIService.generateMainApp (OpenAIService.screens r).

(** A code unit below 128, where the case mappings of the embedding are
    those of ECMAScript. *)
Definition isAscii (c : ascii) : bool := (code c <? 128)%nat.

(** A data-URI cut short: the header, without the comma and the payload. *)
Definition truncatedDataUri : string := "data:image/png;base64".

(** A response whose only dart block has no file-name comment and holds
    the entry point. *)
Definition loneMainFence : string :=
"```dart
void main() { runApp(const MyApp()); }
```".

(** A response whose only block is headed by a file name with its
    directories. *)
Definition pathNamedScreen : string :=
"```dart
// lib/screens/login_screen.dart
class LoginScreen extends StatelessWidget {}
```".

(** A response whose only block is a named screen that also holds an
    entry point. *)
Definition screenWithMain : string :=
"```dart
// login_screen.dart
class LoginScreen extends StatelessWidget {}
void main() { runApp(LoginScreen()); }
```".

(** Pascal case, character by character: the underscores are dropped, and
    the character at the start and the one after an underscore are put in
    upper case. *)
Fixpoint pascalFrom (atStart : bool) (s : string) : string :=
  match s with
  | EmptyString => EmptyString
  | String c t =>
      if Ascii.eqb c "_" then pascalFrom true t
      else String (if atStart then upperChar c else c) (pascalFrom false t)
  end.

Definition pascalCase (s : string) : string := pascalFrom true s.

(** Snake case, character by character: an underscore before every
    capital letter but a leading one, and lower case. *)
Definition snakeCase (s : string) : string :=
  dropUnderscore (toLowerCase (underscoreCapitals s)).

(** A snake-case name: words joined by single underscores, each a
    lower-case letter followed by lower-case letters and digits. *)
Fixpoint snakeFrom (atStart : bool) (s : string) : bool :=
  match s with
  | EmptyString => negb atStart
  | String c t =>
      if Ascii.eqb c "_" then negb atStart && snakeFrom true t
      else (if atStart then isLower c else isLower c || isDigit c) && snakeFrom false t
  end.

Definition snakeName (s : string) : bool := snakeFrom true s.

(** A class name in Pascal case: a capital letter followed by letters and
    digits. *)
Definition className (s : string) : bool :=
  match s with
  | String c t => isUpper c && allChars (fun x => isUpper x || isLower x || isDigit x) t
  | EmptyString => false
  end.

(** ** The matcher *)

Section Matcher.
Import Regex.

Lemma append_empty (s : string) : s ++ EmptyString = s.
Proof. induction s; simpl; congruence. Qed.

Lemma append_assoc (a b c : string) : (a ++ b) ++ c = a ++ b ++ c.
Proof. induction a; simpl; congruence. Qed.

Lemma length_append (a b : string) :
  String.length (a ++ b) = String.length a + String.length b.
Proof. induction a; simpl; congruence. Qed.

Lemma take_append (w s : string) : take (String.length w) (w ++ s) = w.
Proof. induction w; simpl; [ destruct s | ]; congruence. Qed.

Lemma startsWith_same (l x : string) : startsWith (l ++ x) l = true.
Proof.
  induction l as [ | c l IH ]; [ reflexivity | ].
  cbn [append startsWith]. rewrite Ascii.eqb_refl, IH. reflexivity.
Qed.

Lemma startsWith_split (s p : string) :
  startsWith s p = true -> s = p ++ drop (String.length p) s.
Proof.
  revert s. induction p as [ | a p IH ]; intros s H.
  - reflexivity.
  - destruct s as [ | b s ]; [ discriminate | ].
    cbn [startsWith] in H. apply andb_true_iff in H. destruct H as [Hc Hp].
    apply Ascii.eqb_eq in Hc. subst b.
    cbn [String.length drop append]. f_equal. exact (IH s Hp).
Qed.

Lemma starGreedy_steps (p : ascii -> bool) (k : cont) :
  forall s n g cf,
    starGreedy p k n s g = Some cf ->
    exists w s1, s = w ++ s1 /\ allChars p w = true
                 /\ k (Cursor (n + String.length w) s1 g) = Some cf.
Proof.
  induction s as [ | a s IH ]; intros n g cf H; cbn [starGreedy] in H.
  - exists EmptyString, EmptyString. rewrite Nat.add_0_r. auto.
  - destruct (p a) eqn:Pa.
    + unfold orElse in H.
      destruct (starGreedy p k (S n) s g) as [c' | ] eqn:E.
      * inversion H; subst c'. apply IH in E.
        destruct E as (w & s1 & -> & Hw & Hk).
        exists (String a w), s1. cbn [allChars append String.length].
        rewrite Pa, Hw. repeat split.
        replace (n + S (String.length w)) with (S n + String.length w) by lia.
        exact Hk.
      * exists EmptyString, (String a s). rewrite Nat.add_0_r. auto.
    + exists EmptyString, (String a s). rewrite Nat.add_0_r. auto.
Qed.

Lemma starLazy_steps (p : ascii -> bool) (k : cont) :
  forall s n g cf,
    starLazy p k n s g = Some cf ->
    exists w s1, s = w ++ s1 /\ allChars p w = true
                 /\ k (Cursor (n + String.length w) s1 g) = Some cf.
Proof.
  induction s as [ | a s IH ]; intros n g cf H; cbn [starLazy] in H; unfold orElse in H.
  - destruct (k (Cursor n EmptyString g)) as [c' | ] eqn:E; [ | discriminate ].
    exists EmptyString, EmptyString. rewrite Nat.add_0_r. rewrite E. auto.
  - destruct (k (Cursor n (String a s) g)) as [c' | ] eqn:E.
    + exists EmptyString, (String a s). rewrite Nat.add_0_r. rewrite E. auto.
    + destruct (p a) eqn:Pa; [ | discriminate ].
      apply IH in H. destruct H as (w & s1 & -> & Hw & Hk).
      exists (String a w), s1. cbn [allChars append String.length].
      rewrite Pa, Hw. repeat split.
      replace (n + S (String.length w)) with (S n + String.length w) by lia.
      exact Hk.
Qed.

(** A successful run went through its continuation, at a cursor the
    pattern leads to. *)
Lemma run_steps (r : regex) :
  forall k c cf, run r k c = Some cf -> exists c1, steps r c c1 /\ k c1 = Some cf.
Proof.
  induction r as [ s | p | greedy p | r1 IH1 r2 IH2 | r1 IH1 r2 IH2 | r1 IH1
                   | r1 IH1 | r1 IH1 | | ];
    intros k c cf H; cbn [run steps] in *.
  - destruct (startsWith (rest c) s) eqn:E; [ | discriminate ].
    eexists. split; [ | exact H ]. cbn [rest pos cap].
    repeat split. exact (startsWith_split _ _ E).
  - destruct (rest c) as [ | a t ] eqn:E; [ discriminate | ].
    destruct (p a) eqn:Pa; [ | discriminate ].
    eexists. split; [ | exact H ]. exists a. cbn [rest pos cap]. auto.
  - assert (exists w s1, rest c = w ++ s1 /\ allChars p w = true
                         /\ k (Cursor (pos c + String.length w) s1 (cap c)) = Some cf)
      as (w & s1 & Hs & Hw & Hk)
      by (destruct greedy; [ apply starGreedy_steps | apply starLazy_steps ]; exact H).
    eexists. split; [ | exact Hk ]. exists w. cbn [rest pos cap]. auto.
  - apply IH1 in H. destruct H as (c' & H1 & H).
    apply IH2 in H. destruct H as (c1 & H2 & H).
    exists c1. split; [ exists c'; auto | exact H ].
  - unfold orElse in H. destruct (run r1 k c) as [x | ] eqn:E.
    + inversion H; subst x. apply IH1 in E. destruct E as (c1 & H1 & Hk).
      exists c1. auto.
    + apply IH2 in H. destruct H as (c1 & H2 & Hk). exists c1. auto.
  - apply IH1 in H. destruct H as (c' & H1 & Hk).
    eexists. split; [ | exact Hk ]. exists c'. auto.
  - destruct (run r1 Some c) as [c' | ] eqn:E; [ | discriminate ].
    apply IH1 in E. destruct E as (c1 & H1 & Hk). inversion Hk; subst c1.
    eexists. split; [ | exact H ]. exists c'. auto.
  - destruct (run r1 Some c); [ discriminate | ]. exists c. auto.
  - destruct (pos c =? 0)%nat; [ | discriminate ]. exists c. auto.
  - destruct (rest c); [ | discriminate ]. exists c. auto.
Qed.

(** What a run reads is a prefix of the remaining text, and the index
    moves by its length. *)
Lemma steps_reads (r : regex) :
  forall c c1, steps r c c1 ->
               exists w, rest c = w ++ rest c1 /\ pos c1 = pos c + String.length w.
Proof.
  induction r as [ s | p | greedy p | r1 IH1 r2 IH2 | r1 IH1 r2 IH2 | r1 IH1
                   | r1 IH1 | r1 IH1 | | ];
    intros c c1 H; cbn [steps] in H.
  - destruct H as (Hr & Hp & _). exists s. auto.
  - destruct H as (a & Hr & _ & Hp & _). exists (String a EmptyString). simpl. split; [ exact Hr | lia ].
  - destruct H as (w & Hr & _ & Hp & _). exists w. auto.
  - destruct H as (c' & H1 & H2).
    apply IH1 in H1. destruct H1 as (w1 & Hr1 & Hp1).
    apply IH2 in H2. destruct H2 as (w2 & Hr2 & Hp2).
    exists (w1 ++ w2). rewrite append_assoc, length_append, <- Hr2. split; [ exact Hr1 | lia ].
  - destruct H as [H | H]; [ apply IH1 | apply IH2 ]; exact H.
  - destruct H as (c' & H1 & ->). apply IH1 in H1. exact H1.
  - destruct H as (c' & _ & ->). exists EmptyString. simpl. split; [ reflexivity | lia ].
  - subst c1. exists EmptyString. simpl. split; [ reflexivity | lia ].
  - subst c1. exists EmptyString. simpl. split; [ reflexivity | lia ].
  - subst c1. exists EmptyString. simpl. split; [ reflexivity | lia ].
Qed.

(** A pattern without a group leaves the capture as it was. *)
Lemma steps_capFree (r : regex) :
  capFree r = true -> forall c c1, steps r c c1 -> cap c1 = cap c.
Proof.
  induction r as [ s | p | greedy p | r1 IH1 r2 IH2 | r1 IH1 r2 IH2 | r1 IH1
                   | r1 IH1 | r1 IH1 | | ];
    intros F c c1 H; cbn [steps capFree] in *.
  - destruct H as (_ & _ & H). exact H.
  - destruct H as (a & _ & _ & _ & H). exact H.
  - destruct H as (w & _ & _ & _ & H). exact H.
  - apply andb_true_iff in F. destruct F as [F1 F2].
    destruct H as (c' & H1 & H2).
    rewrite (IH2 F2 _ _ H2). exact (IH1 F1 _ _ H1).
  - apply andb_true_iff in F. destruct F as [F1 F2].
    destruct H as [H | H]; [ exact (IH1 F1 _ _ H) | exact (IH2 F2 _ _ H) ].
  - discriminate.
  - destruct H as (c' & H1 & ->). exact (IH1 F _ _ H1).
  - subst c1. reflexivity.
  - subst c1. reflexivity.
  - subst c1. reflexivity.
Qed.

(** Every match of a global scan is the result of one attempt. *)
Lemma pieces_execAt (r : regex) (m : rmatch) :
  forall s skip n, In m (hits (pieces r skip n s)) -> exists n' s', execAt r n' s' = Some m.
Proof.
  induction s as [ | a s IH ]; intros skip n H.
  - destruct skip; cbn [pieces] in H; [ | contradiction ].
    destruct (execAt r n EmptyString) as [m' | ] eqn:E; [ | contradiction ].
    destruct H as [<- | []]. eauto.
  - destruct skip; cbn [pieces] in H; [ | exact (IH _ _ H) ].
    destruct (execAt r n (String a s)) as [m' | ] eqn:E.
    + destruct H as [<- | H]; [ eauto | ].
      destruct (String.length (whole m')); exact (IH _ _ H).
    + exact (IH _ _ H).
Qed.

End Matcher.

(** ** Image preparation *)

Section ImagePreparation.
Import OpenAIService.

Lemma includes_comma_cons (c : ascii) (t : string) :
  includes (String c t) "," = false -> Ascii.eqb c "," = false /\ includes t "," = false.
Proof.
  cbn [includes startsWith]. rewrite Ascii.eqb_sym.
  destruct (Ascii.eqb c ","); simpl; intros H.
  - discriminate.
  - split; [ reflexivity | exact H ].
Qed.

Lemma splitChar_no_comma (s : string) :
  includes s "," = false -> splitChar "," s = [s].
Proof.
  induction s as [ | c t IH ]; intros H.
  - reflexivity.
  - apply includes_comma_cons in H. destruct H as [Hc Ht].
    simpl. rewrite Hc, IH by assumption. reflexivity.
Qed.

Lemma splitChar_first_comma (head rest : string) :
  includes head "," = false ->
  splitChar "," (head ++ "," ++ rest) = head :: splitChar "," rest.
Proof.
  induction head as [ | c t IH ]; intros H.
  - reflexivity.
  - apply includes_comma_cons in H. destruct H as [Hc Ht].
    simpl. rewrite Hc. simpl in IH. rewrite IH by assumption. reflexivity.
Qed.

Lemma afterFirstComma_first (head rest : string) :
  includes head "," = false -> afterFirstComma (head ++ "," ++ rest) = rest.
Proof.
  induction head as [ | c t IH ]; intros H.
  - reflexivity.
  - apply includes_comma_cons in H. destruct H as [Hc Ht].
    cbn [append afterFirstComma]. rewrite Hc. exact (IH Ht).
Qed.

Lemma second_piece (head payload tail : string) :
  includes head "," = false -> includes payload "," = false ->
  tail = EmptyString \/ startsWith tail "," = true ->
  nth_error (splitChar "," (head ++ "," ++ payload ++ tail)) 1 = Some payload.
Proof.
  intros Hh Hp Ht. rewrite splitChar_first_comma by assumption. simpl.
  destruct Ht as [-> | Ht].
  - replace (payload ++ EmptyString) with payload.
    + rewrite splitChar_no_comma by assumption. reflexivity.
    + clear. induction payload; simpl; congruence.
  - destruct tail as [ | c t ]; [ discriminate | ].
    cbn [startsWith] in Ht. rewrite Bool.andb_true_r in Ht.
    apply Ascii.eqb_eq in Ht. subst c.
    change (String "," t) with ("," ++ t).
    rewrite splitChar_first_comma by assumption. reflexivity.
Qed.

(** X26.  What [prepareImageBase64] returns, by the shape of its
    argument.  A string that starts with [data:image] and has a comma
    prepares to the piece that follows its first comma (all that follows
    it when there is one comma only); a string that does not start with
    [data:image] is returned as it is; a buffer is base64-encoded; any
    other value fails with the unsupported-format error. *)
Theorem prepareImageBase64_by_shape :
  (forall head payload tail,
      startsWith (head ++ "," ++ payload ++ tail) "data:image" = true ->
      includes head "," = false -> includes payload "," = false ->
      tail = EmptyString \/ startsWith tail "," = true ->
      prepareImageBase64 (JStr (head ++ "," ++ payload ++ tail)) = Ok (JStr payload))
  /\ (forall head payload,
         startsWith (head ++ "," ++ payload) "data:image" = true ->
         includes head "," = false -> includes payload "," = false ->
         prepareImageBase64 (JStr (head ++ "," ++ payload))
         = Ok (JStr (afterFirstComma (head ++ "," ++ payload))))
  /\ (forall s, startsWith s "data:image" = false ->
                prepareImageBase64 (JStr s) = Ok (JStr s))
  /\ (forall bytes, prepareImageBase64 (JBuffer bytes) = Ok (JStr (Base64.encode bytes)))
  /\ (forall image, (forall s, image <> JStr s) -> (forall b, image <> JBuffer b) ->
                    prepareImageBase64 image = Throw "Formato de imagen no soportado").
Proof.
  split; [ | split; [ | split; [ | split ] ] ].
  - intros head payload tail Hs Hh Hp Ht. unfold prepareImageBase64.
    rewrite Hs, second_piece by assumption. reflexivity.
  - intros head payload Hs Hh Hp. rewrite afterFirstComma_first by exact Hh.
    unfold prepareImageBase64. rewrite Hs.
    rewrite <- (append_empty payload) at 1.
    rewrite second_piece; [ reflexivity | exact Hh | exact Hp | left; reflexivity ].
  - intros s Hs. unfold prepareImageBase64. rewrite Hs. reflexivity.
  - reflexivity.
  - intros image Hs Hb. destruct image; try reflexivity.
    + exfalso. exact (Hs _ eq_refl).
    + exfalso. exact (Hb _ eq_refl).
Qed.

Lemma prepareImageBase64_by_shape_witness :
  prepareImageBase64 (JStr ("data:image/png;base64" ++ "," ++ "QUJD"))
  = Ok (JStr (afterFirstComma ("data:image/png;base64" ++ "," ++ "QUJD"))).
Proof.
  apply (proj1 (proj2 prepareImageBase64_by_shape) "data:image/png;base64" "QUJD");
    reflexivity.
Defined.

(** C8 at a data-URI cut short before its comma.  The contract gives a
    string for every string: the text after the first comma for a
    data-URI, the string itself otherwise.  Here the result is
    [undefined]: not the string itself, not what follows a comma, and no
    string at all, against the result type [string] that
    [prepareImageBase64] declares. *)
Theorem comma_less_data_uri_not_a_string :
  startsWith truncatedDataUri "data:image" = true
  /\ includes truncatedDataUri "," = false
  /\ prepareImageBase64 (JStr truncatedDataUri) = Ok JUndefined
  /\ prepareImageBase64 (JStr truncatedDataUri) <> Ok (JStr truncatedDataUri)
  /\ prepareImageBase64 (JStr truncatedDataUri)
     <> Ok (JStr (afterFirstComma truncatedDataUri))
  /\ (forall t, prepareImageBase64 (JStr truncatedDataUri) <> Ok (JStr t)).
Proof.
  assert (H : prepareImageBase64 (JStr truncatedDataUri) = Ok JUndefined)
    by (vm_compute; reflexivity).
  split; [ reflexivity | ]. split; [ reflexivity | ]. split; [ exact H | ].
  rewrite H. repeat split; intros; discriminate.
Qed.

(** C10.  A string that starts with [data:image] and has no comma
    prepares to [undefined]: no error is raised and no string returned. *)
Theorem prepareImageBase64_no_comma (s : string) :
  startsWith s "data:image" = true -> includes s "," = false ->
  prepareImageBase64 (JStr s) = Ok JUndefined.
Proof.
  intros Hs Hc. unfold prepareImageBase64.
  rewrite Hs, splitChar_no_comma by assumption. reflexivity.
Qed.

Lemma prepareImageBase64_no_comma_witness :
  prepareImageBase64 (JStr "data:image/png;base64") = Ok JUndefined.
Proof.
  apply prepareImageBase64_no_comma; reflexivity.
Defined.

End ImagePreparation.

(** ** Navigation synthesis *)

Section Navigation.
Import AutoNavigationService.

(** The operation never throws: its [catch] turns every failure into
    [null]. *)
Lemma generateNavigationForProject_total (moduleRef : ModuleRef) (projectId : string) :
  exists r, generateNavigationForProject moduleRef projectId = Ok r.
Proof.
  unfold generateNavigationForProject, catch.
  match goal with |- exists r, match ?b with _ => _ end = _ => destruct b as [a | e] end.
  - exists a. reflexivity.
  - exists None. reflexivity.
Qed.

(** C5, as amended.  When either collaborator cannot be resolved, the
    thrown error is caught inside the operation, which returns the
    no-navigation value [null]; nothing is raised to the caller. *)
Theorem unresolved_collaborator_gives_null (moduleRef : ModuleRef) (projectId : string) :
  unresolved (getVistaService moduleRef) \/ unresolved (getFiguraService moduleRef) ->
  generateNavigationForProject moduleRef projectId = Ok None.
Proof.
  unfold generateNavigationForProject, unresolved.
  intros [[Hv | [e Hv]] | [Hf | [e Hf]]].
  - rewrite Hv. simpl. destruct (getFiguraService moduleRef) as [[f | ] | e]; reflexivity.
  - rewrite Hv. reflexivity.
  - rewrite Hf.
    destruct (getVistaService moduleRef) as [[v | ] | e]; reflexivity.
  - rewrite Hf.
    destruct (getVistaService moduleRef) as [[v | ] | e']; reflexivity.
Qed.

Lemma unresolved_collaborator_gives_null_witness :
  generateNavigationForProject withoutVistaService "p1" = Ok None.
Proof.
  apply unresolved_collaborator_gives_null.
  left. left. reflexivity.
Defined.

(** C5 as stated fails: with the view service missing, the caller gets
    [null] and no error. *)
Lemma missing_view_service_not_raised :
  unresolved (getVistaService withoutVistaService)
  /\ generateNavigationForProject withoutVistaService "p1" = Ok None
  /\ ~ (exists e, generateNavigationForProject withoutVistaService "p1" = Throw e).
Proof.
  split; [ left; reflexivity | ].
  split; [ reflexivity | ].
  intros [e H]. discriminate H.
Qed.

(** C6.  When the view service answers with fewer than two views, or with
    no list at all, the result is [null]: no error and no bundle. *)
Theorem fewer_than_two_views_gives_null
        (moduleRef : ModuleRef) (projectId : string)
        (vistaService : VistaService) (vistas : option (list Vista)) :
  getVistaService moduleRef = Ok (Some vistaService) ->
  findAllVistas vistaService projectId = Ok vistas ->
  (vistas = None \/ exists l, vistas = Some l /\ List.length l < 2) ->
  generateNavigationForProject moduleRef projectId = Ok None.
Proof.
  intros Hv Hfind Hfew. unfold generateNavigationForProject.
  rewrite Hv. simpl.
  destruct (getFiguraService moduleRef) as [[figuraService | ] | e]; simpl;
    try reflexivity.
  rewrite Hfind. simpl.
  destruct Hfew as [-> | [l [-> Hl]]].
  - reflexivity.
  - apply Nat.ltb_lt in Hl. rewrite Hl. reflexivity.
Qed.

Lemma fewer_than_two_views_gives_null_witness :
  generateNavigationForProject (projectWith ["Home"]) "p1" = Ok None.
Proof.
  apply (@fewer_than_two_views_gives_null (projectWith ["Home"]) "p1"
           {| findAllVistas := fun _ => Ok (Some (List.map viewNamed ["Home"])) |}
           (Some (List.map viewNamed ["Home"]))).
  - reflexivity.
  - reflexivity.
  - right. exists (List.map viewNamed ["Home"]). split; [ reflexivity | simpl; lia ].
Defined.

(** The first view is always flagged, so the initial route that is written
    is always the route of the first view, whatever the names are. *)
Lemma first_route_is_initial (vista : VistaDetail) (rest : list VistaDetail) :
  initialRouteOf (routes (createNavigationStructure (vista :: rest)))
  = "/" ++ toSnakeCase (nombre vista).
Proof.
  unfold createNavigationStructure, initialRouteOf. simpl.
  assert (H : determineIfInitial vista 0 = true).
  { unfold determineIfInitial.
    destruct (existsb _ initialPatterns); reflexivity. }
  rewrite H. reflexivity.
Qed.

(** C1 at the views [Settings], [Home]: navigation is generated, both
    routes are flagged as initial, and the initial route written to the
    bootstrap is that of [Settings], although only [Home] carries a
    keyword. *)
Theorem settings_home_both_initial :
  exists nav,
    generateNavigationForProject (projectWith ["Settings"; "Home"]) "p1" = Ok (Some nav)
    /\ List.map (fun r => (name r, isInitial r)) (routes nav)
       = [("settings", true); ("home", true)]
    /\ initialRouteOf (routes nav) = "/settings".
Proof.
  eexists. split; [ reflexivity | ].
  split; vm_compute; reflexivity.
Qed.

End Navigation.

(** ** Batch persistence *)

Section BatchPersistence.
Import OpenAIService.

Variable St : Type.
Variable svc : FiguraService St.
Variable vistaId : string.

Lemma createOne_loop (uiElements : list jsval) (acc : list jsval) (st : St) :
  fold_left (createOne svc vistaId) uiElements (acc, st)
  = ((acc ++ createdOf (fst (submitAll svc (List.map (figuraData vistaId) uiElements) st)))%list,
     snd (submitAll svc (List.map (figuraData vistaId) uiElements) st)).
Proof.
  revert acc st. induction uiElements as [ | element rest IH ]; intros acc st.
  - simpl. rewrite app_nil_r. reflexivity.
  - cbn [fold_left List.map submitAll]. unfold createOne at 2.
    destruct (create svc (figuraData vistaId element) st) as [[createdFigure | e] st1].
    + rewrite IH.
      destruct (submitAll svc (List.map (figuraData vistaId) rest) st1) as [h st2].
      simpl. rewrite <- app_assoc. reflexivity.
    + rewrite IH.
      destruct (submitAll svc (List.map (figuraData vistaId) rest) st1) as [h st2].
      reflexivity.
Qed.

Lemma submitAll_submits (datas : list jsval) (st : St) :
  List.map fst (fst (submitAll svc datas st)) = datas.
Proof.
  revert st. induction datas as [ | d rest IH ]; intros st.
  - reflexivity.
  - simpl. destruct (create svc d st) as [r st1].
    specialize (IH st1).
    destruct (submitAll svc rest st1) as [h st2].
    simpl in *. rewrite IH. reflexivity.
Qed.

(** C9.  Whatever the figure service answers, every element of the batch
    is submitted once, in order, with the view id set; the result is the
    list of the records of the submissions that succeeded, in input order,
    and a failed submission stops nothing. *)
Theorem createFiguresFromUIElements_skips_failures (uiElements : list jsval) (st : St) :
  let history := fst (submitAll svc (List.map (figuraData vistaId) uiElements) st) in
  createFiguresFromUIElements (Ok (Some svc)) uiElements vistaId st
  = (Ok (createdOf history),
     snd (submitAll svc (List.map (figuraData vistaId) uiElements) st))
  /\ List.map fst history = List.map (figuraData vistaId) uiElements.
Proof.
  intros history. split.
  - unfold createFiguresFromUIElements. rewrite createOne_loop. reflexivity.
  - apply submitAll_submits.
Qed.

End BatchPersistence.

(** ** Extraction, classification and synthesis *)

Section Pipeline.
Import OpenAIService Regex.

(** C3 at a response in which [login_screen.dart] heads two blocks: the
    screen pattern finds both, the first with [class A {}], and the map
    ends with the content of the last one. *)
Theorem duplicate_filename_last_wins :
  List.map (fun m => (group1 m, extractCodeContent (whole m)))
           (matchAll (suffixed "_screen") twoLoginScreens)
  = [(Some "login_screen.dart", "class A {}"); (Some "login_screen.dart", "class B {}")]
  /\ extractFileBlocks twoLoginScreens = [("login_screen.dart", "class B {}")].
Proof.
  split; vm_compute; reflexivity.
Qed.

(** C4 as stated fails on the fall-back extractor: a class written twice
    gives two screens of the same name. *)
Lemma fallback_duplicate_names :
  namesOf (screens (processCode twoHomePages)) = ["home_page"; "home_page"]
  /\ ~ uniqueNames (processCode twoHomePages).
Proof.
  assert (H : namesOf (screens (processCode twoHomePages)) = ["home_page"; "home_page"])
    by (vm_compute; reflexivity).
  split; [ exact H | ].
  intros [Hs _]. rewrite H in Hs.
  inversion Hs as [ | x l Hin _ ]. apply Hin. left. reflexivity.
Qed.

Lemma processCodeBlocks_mainApp (codeBlocks : JsMap.t string) :
  mainApp (processCodeBlocks codeBlocks) = mainOfBlocks codeBlocks.
Proof. reflexivity. Qed.

(** The bootstrap that [generateMainApp] writes, by cases on the screens. *)
Lemma generateMainApp_shape (screens : list Artifact) :
  mainCode (generateMainApp screens)
  = match screens with
    | first :: _ =>
        mainHead ++ ("import '" ++ toSnakeCase (name first) ++ ".dart';") ++ mainMiddle
        ++ (toPascalCase (name first) ++ "()") ++ mainTail
    | [] => mainHead ++ EmptyString ++ mainMiddle ++ placeholderHome ++ mainTail
    end.
Proof. destruct screens; reflexivity. Qed.

(** C7 at a response whose only block is headed by a file name with its
    directories.  No main entry is extracted by either path and the block
    is the first screen, so the bootstrap is synthesized from it; its home
    is [toPascalCase] of the name of the artifact, which is not a class
    name here, while the class of the screen is [LoginScreen]. *)
Theorem path_named_screen_home_not_a_class :
  mainOfBlocks (extractFileBlocks pathNamedScreen) = None
  /\ looseMain pathNamedScreen = None
  /\ screens (processCode pathNamedScreen)
     = [{| name := "lib/screens/login_screen";
           code := "class LoginScreen extends StatelessWidget {}" |}]
  /\ mainApp (processCode pathNamedScreen)
     = Some {| mainCode := mainHead ++ "import 'lib/screens/login_screen.dart';"
                           ++ mainMiddle ++ "Lib/screens/loginScreen()" ++ mainTail |}
  /\ toPascalCase "lib/screens/login_screen" = "Lib/screens/loginScreen"
  /\ className (toPascalCase "lib/screens/login_screen") = false
  /\ className "LoginScreen" = true.
Proof.
  repeat split; vm_compute; reflexivity.
Qed.

Lemma startsWith_app (a b p : string) :
  startsWith a p = true -> startsWith (a ++ b) p = true.
Proof.
  revert a. induction p as [ | c p IH ]; intros a H.
  - reflexivity.
  - destruct a as [ | d a ]; [ discriminate | ].
    cbn [startsWith append] in *.
    apply andb_true_iff in H. destruct H as [Hc Hp].
    rewrite Hc, (IH _ Hp). reflexivity.
Qed.

Lemma includes_app (a b p : string) :
  includes a p = true -> includes (a ++ b) p = true.
Proof.
  induction a as [ | c a IH ]; intros H.
  - cbn [includes] in H. rewrite orb_false_r in H.
    destruct p; [ | discriminate ].
    destruct b; reflexivity.
  - cbn [includes] in H. apply orb_true_iff in H.
    change (String c a ++ b) with (String c (a ++ b)). cbn [includes].
    apply orb_true_iff. destruct H as [H | H].
    + left. exact (startsWith_app (String c a) b p H).
    + right. exact (IH H).
Qed.

Lemma isEmpty_length {A : Type} (xs : list A) :
  isEmpty xs = false -> 1 <= List.length xs.
Proof.
  destruct xs; [ discriminate | simpl; lia ].
Qed.

(** The fall-back extractor always returns a classified artifact. *)
Lemma extractWithExtendedPatterns_classified (text : string) :
  1 <= classified (extractWithExtendedPatterns text).
Proof.
  unfold extractWithExtendedPatterns, classified.
  destruct (extractWidgetsAndScreens text) as [ss ws]. cbn [screens widgets models services].
  destruct (isEmpty ss) eqn:Es; [ | apply isEmpty_length in Es; simpl; lia ].
  destruct (isEmpty ws) eqn:Ew; [ | apply isEmpty_length in Ew; simpl; lia ].
  destruct (isEmpty (extractModels text)) eqn:Em;
    [ | apply isEmpty_length in Em; simpl; lia ].
  destruct (isEmpty (extractServices text)) eqn:Ev;
    [ | apply isEmpty_length in Ev; simpl; lia ].
  simpl. unfold createErrorWidget. rewrite length_app. simpl. lia.
Qed.

Lemma nothingFound_false (r : ProcessedResponse) :
  nothingFound r = false ->
  1 <= classified r \/ exists m, mainApp r = Some m.
Proof.
  unfold nothingFound, classified. intros H.
  destruct (isEmpty (screens r)) eqn:Es; [ | apply isEmpty_length in Es; left; lia ].
  destruct (isEmpty (widgets r)) eqn:Ew; [ | apply isEmpty_length in Ew; left; lia ].
  destruct (isEmpty (models r)) eqn:Em; [ | apply isEmpty_length in Em; left; lia ].
  destruct (isEmpty (services r)) eqn:Ev; [ | apply isEmpty_length in Ev; left; lia ].
  simpl in H. destruct (mainApp r) as [m | ]; [ | discriminate ].
  right. exists m. reflexivity.
Qed.

(** The bundle of [processCode] always has a main entry. *)
Lemma processCode_mainApp (text : string) :
  exists m, mainApp (processCode text) = Some m.
Proof.
  unfold processCode.
  destruct (nothingFound (processCodeBlocks (extractFileBlocks text))).
  - unfold extractWithExtendedPatterns.
    destruct (extractWidgetsAndScreens text) as [ss ws]. cbn [mainApp].
    destruct (looseMain text) as [m | ]; eexists; reflexivity.
  - destruct (mainApp (processCodeBlocks (extractFileBlocks text))) as [m | ] eqn:E.
    + exists m. exact E.
    + eexists. reflexivity.
Qed.

Lemma includes_prefix (p s : string) : includes (p ++ s) p = true.
Proof.
  destruct p as [ | c p ]; [ destruct s; reflexivity | ].
  change (String c p ++ s) with (String c (p ++ s)). cbn [includes].
  change (String c (p ++ s)) with (String c p ++ s).
  rewrite startsWith_same. reflexivity.
Qed.

Lemma includes_after (a s p : string) :
  includes s p = true -> includes (a ++ s) p = true.
Proof.
  intros H. induction a as [ | c a IH ]; [ exact H | ].
  change (String c a ++ s) with (String c (a ++ s)). cbn [includes].
  rewrite IH. apply orb_true_r.
Qed.

Lemma includes_middle (a b c : string) : includes (a ++ b ++ c) b = true.
Proof. apply includes_after, includes_prefix. Qed.

(** Without a block found by name and without a dart fence, the map of
    blocks is empty and nothing is classified. *)
Lemma no_fence_nothing_found (text : string) :
  namedBlocks text = [] -> matchAll dartPattern text = [] ->
  nothingFound (processCodeBlocks (extractFileBlocks text)) = true.
Proof.
  intros Hnamed Hfences. unfold extractFileBlocks. rewrite Hnamed, Hfences. reflexivity.
Qed.

(** C2, as amended.  When no block is found by file-name convention, the
    bundle returned always has a main entry, so it is never empty.  When
    the scan of the dart fences gives no artifact and no main entry, as
    it does for a text without a dart fence, the fall-back extractor is
    taken and the bundle holds at least one classified artifact: when the
    patterns of the fall-back extractor find nothing, exactly one, the
    placeholder widget, whose code carries the error message and the
    first 500 characters of the response.  When the scan gives something,
    the text has a dart fence, the fall-back extractor is not taken, and
    the bundle holds a classified artifact or, as its main entry, the
    block that the scan named [main.dart]. *)
Theorem no_named_block_bundle (text : string) :
  namedBlocks text = [] ->
  (exists m, mainApp (processCode text) = Some m)
  /\ (matchAll dartPattern text = [] ->
      nothingFound (processCodeBlocks (extractFileBlocks text)) = true)
  /\ (nothingFound (processCodeBlocks (extractFileBlocks text)) = true ->
      processCode text = extractWithExtendedPatterns text
      /\ 1 <= classified (processCode text)
      /\ (extractWidgetsAndScreens text = ([], []) ->
          extractModels text = [] -> extractServices text = [] ->
          classified (processCode text) = 1
          /\ exists w, widgets (processCode text) = [w]
                       /\ name w = "error_widget"
                       /\ includes (code w) ("Error al generar c" ++ oAcute ++ "digo") = true
                       /\ includes (code w) (substring 0 500 text) = true))
  /\ (nothingFound (processCodeBlocks (extractFileBlocks text)) = false ->
      matchAll dartPattern text <> []
      /\ screens (processCode text) = screens (processCodeBlocks (extractFileBlocks text))
      /\ widgets (processCode text) = widgets (processCodeBlocks (extractFileBlocks text))
      /\ models (processCode text) = models (processCodeBlocks (extractFileBlocks text))
      /\ services (processCode text) = services (processCodeBlocks (extractFileBlocks text))
      /\ (1 <= classified (processCode text)
          \/ exists m, JsMap.get (extractFileBlocks text) "main.dart" = Some (mainCode m)
                       /\ mainApp (processCode text) = Some m)).
Proof.
  intros Hnamed.
  split; [ apply processCode_mainApp | ].
  split; [ apply no_fence_nothing_found; exact Hnamed | ].
  split.
  - intros Hnone.
    assert (E : processCode text = extractWithExtendedPatterns text)
      by (unfold processCode; rewrite Hnone; reflexivity).
    rewrite E. split; [ reflexivity | ].
    split; [ apply extractWithExtendedPatterns_classified | ].
    intros Hws Hm Hs. unfold extractWithExtendedPatterns, classified.
    rewrite Hws, Hm, Hs. cbn [isEmpty List.length Nat.eqb andb screens widgets models services].
    split; [ reflexivity | ].
    exists (errorWidget text). split; [ reflexivity | ]. split; [ reflexivity | ].
    unfold errorWidget. cbn [code]. split.
    + apply includes_app. vm_compute. reflexivity.
    + apply includes_middle.
  - intros Hsome.
    split.
    { intros Hfences.
      rewrite (no_fence_nothing_found text Hnamed Hfences) in Hsome. discriminate Hsome. }
    unfold processCode. rewrite Hsome.
    destruct (nothingFound_false _ Hsome) as [Hc | [m Hm]].
    + destruct (mainApp (processCodeBlocks (extractFileBlocks text)));
        repeat (split; [ reflexivity | ]); left; exact Hc.
    + rewrite Hm. repeat (split; [ reflexivity | ]). right. exists m.
      split; [ | exact Hm ].
      rewrite processCodeBlocks_mainApp in Hm. unfold mainOfBlocks in Hm.
      destruct (JsMap.has (extractFileBlocks text) "main.dart"); [ | discriminate Hm ].
      destruct (JsMap.get (extractFileBlocks text) "main.dart") as [c | ];
        [ | discriminate Hm ].
      destruct (String.eqb c EmptyString); [ discriminate Hm | ].
      injection Hm as <-. reflexivity.
Qed.

Lemma no_named_block_bundle_witness :
  (exists m, mainApp (processCode "No code today.") = Some m)
  /\ processCode "No code today." = extractWithExtendedPatterns "No code today."
  /\ classified (processCode "No code today.") = 1
  /\ exists w, widgets (processCode "No code today.") = [w]
               /\ name w = "error_widget"
               /\ includes (code w) ("Error al generar c" ++ oAcute ++ "digo") = true
               /\ includes (code w) (substring 0 500 "No code today.") = true.
Proof.
  assert (H : namedBlocks "No code today." = []) by (vm_compute; reflexivity).
  destruct (no_named_block_bundle "No code today." H) as (Hmain & Hnone & Hfall & _).
  assert (Hn : nothingFound (processCodeBlocks (extractFileBlocks "No code today.")) = true)
    by (apply Hnone; vm_compute; reflexivity).
  destruct (Hfall Hn) as (Htaken & _ & Hworst).
  split; [ exact Hmain | ]. split; [ exact Htaken | ].
  apply Hworst; vm_compute; reflexivity.
Defined.

(** C2 as stated fails: a lone dart fence without a file-name comment that
    holds the entry point is found by no file-name pattern, yet the
    fall-back extractor is not taken and the bundle has no artifact in
    any category, only the main entry; the fall-back extractor would
    have added the placeholder widget. *)
Lemma lone_main_fence_skips_fallback :
  namedBlocks loneMainFence = []
  /\ extractFileBlocks loneMainFence
     = [("main.dart", "void main() { runApp(const MyApp()); }")]
  /\ classified (processCode loneMainFence) = 0
  /\ widgets (extractWithExtendedPatterns loneMainFence) = [errorWidget loneMainFence]
  /\ processCode loneMainFence <> extractWithExtendedPatterns loneMainFence.
Proof.
  assert (Hw : widgets (extractWithExtendedPatterns loneMainFence)
               = [errorWidget loneMainFence]) by (vm_compute; reflexivity).
  assert (Hp : widgets (processCode loneMainFence) = []) by (vm_compute; reflexivity).
  repeat split; try (vm_compute; reflexivity).
  intros E. rewrite E, Hw in Hp. discriminate Hp.
Qed.

(** *** File names *)

Lemma allChars_app (p : ascii -> bool) (a b : string) :
  allChars p (a ++ b) = allChars p a && allChars p b.
Proof.
  induction a as [ | c a IH ]; simpl; [ reflexivity | ].
  rewrite IH. apply andb_assoc.
Qed.

Lemma baseName_dartName (b : string) :
  allChars notDot b = true -> baseName (b ++ ".dart") = b.
Proof.
  unfold baseName. induction b as [ | c b IH ]; intros H.
  - reflexivity.
  - cbn [allChars] in H. apply andb_true_iff in H. destruct H as [Hc Hb].
    change (String c b ++ ".dart") with (String c (b ++ ".dart")).
    cbn [replaceStr startsWith].
    unfold notDot in Hc. apply negb_true_iff in Hc.
    rewrite Ascii.eqb_sym, Hc. cbn [andb]. rewrite (IH Hb). reflexivity.
Qed.

Lemma baseName_injective (k1 k2 : string) :
  dartName k1 -> dartName k2 -> baseName k1 = baseName k2 -> k1 = k2.
Proof.
  intros (b1 & -> & H1) (b2 & -> & H2).
  rewrite (baseName_dartName _ H1), (baseName_dartName _ H2). congruence.
Qed.

Lemma trimEnd_dart (y : string) : trimEnd (y ++ ".dart") = y ++ ".dart".
Proof.
  induction y as [ | c y IH ].
  - reflexivity.
  - change (String c y ++ ".dart") with (String c (y ++ ".dart")).
    cbn [trimEnd]. rewrite IH. destruct y; reflexivity.
Qed.

Lemma trim_dart (a : ascii) (y : string) :
  isSpace a = false -> trim (String a y ++ ".dart") = String a y ++ ".dart".
Proof.
  intros Ha. unfold trim.
  change (String a y ++ ".dart") with (String a (y ++ ".dart")) at 1.
  cbn [trimStart]. rewrite Ha. exact (trimEnd_dart (String a y)).
Qed.

Lemma isWordSlashDash_plain (c : ascii) :
  isWordSlashDash c = true -> notDot c = true /\ isSpace c = false.
Proof.
  destruct c as [[] [] [] [] [] [] [] []]; vm_compute; intuition discriminate.
Qed.

Lemma isWordDash_plain (c : ascii) :
  isWordDash c = true -> notDot c = true /\ isSpace c = false.
Proof.
  destruct c as [[] [] [] [] [] [] [] []]; vm_compute; intuition discriminate.
Qed.

Lemma allChars_weaken (p q : ascii -> bool) (s : string) :
  (forall c, p c = true -> q c = true) -> allChars p s = true -> allChars q s = true.
Proof.
  intros Hpq. induction s as [ | c s IH ]; simpl; [ reflexivity | ].
  intros H. apply andb_true_iff in H. destruct H as [Hc Hs].
  rewrite (Hpq _ Hc), (IH Hs). reflexivity.
Qed.

Lemma steps_seq (r1 r2 : regex) (c cf : cursor) :
  steps (Seq r1 r2) c cf -> exists c', steps r1 c c' /\ steps r2 c' cf.
Proof. intros H. exact H. Qed.

Ltac skip_seq H := apply steps_seq in H; destruct H as (? & _ & H).

(** What the group of a file-name pattern captures. *)
Lemma group_capture (cls : ascii -> bool) (sfx : string) (post : regex) :
  capFree post = true ->
  forall c cf,
    steps (Seq (Group (Seq (Plus cls) (Lit sfx))) post) c cf ->
    exists a w, cls a = true /\ allChars cls w = true
                /\ cap cf = Some (String a w ++ sfx).
Proof.
  intros F c cf H. cbn [steps Plus] in H.
  destruct H as (c2 & (c1 & Hg & ->) & Hpost).
  rewrite (steps_capFree post F _ _ Hpost). cbn [cap].
  destruct Hg as (c3 & (c4 & (a & Hr4 & Pa & Hp4 & _) & (w & Hr3 & Hw & Hp3 & _))
                  & (Hr1 & Hp1 & _)).
  exists a, w. repeat split; try assumption.
  f_equal. rewrite Hr4, Hr3, Hr1.
  replace (pos c1 - pos c) with (String.length (String a w ++ sfx))
    by (rewrite length_append; cbn [String.length]; lia).
  change (String a (w ++ sfx ++ rest c1)) with (String a w ++ sfx ++ rest c1).
  rewrite <- append_assoc. apply take_append.
Qed.

Lemma namesFiles_captured (cls : ascii -> bool) (suffix : string) (r : regex) :
  (forall c, cls c = true -> notDot c = true /\ isSpace c = false) ->
  allChars notDot suffix = true ->
  (forall c cf, steps r c cf ->
                exists a w, cls a = true /\ allChars cls w = true
                            /\ cap cf = Some (String a w ++ suffix ++ ".dart")) ->
  namesFiles r.
Proof.
  intros Hcls Hsfx Hshape n s c' x Hrun Hcap.
  apply run_steps in Hrun. destruct Hrun as (c1 & Hsteps & Hk).
  inversion Hk; subst c1.
  destruct (Hshape _ _ Hsteps) as (a & w & Pa & Hw & Hc).
  assert (Hx : x = String a (w ++ suffix) ++ ".dart").
  { rewrite Hc in Hcap. injection Hcap as <-.
    cbn [append]. rewrite append_assoc. reflexivity. }
  subst x.
  rewrite trim_dart by (apply Hcls; exact Pa).
  exists (String a (w ++ suffix)). split; [ reflexivity | ].
  cbn [allChars]. rewrite allChars_app, Hsfx.
  rewrite (proj1 (Hcls _ Pa)).
  rewrite (allChars_weaken cls notDot w (fun c H => proj1 (Hcls c H)) Hw).
  reflexivity.
Qed.

Lemma namesFiles_suffixed (suffix : string) :
  allChars notDot suffix = true -> namesFiles (suffixed suffix).
Proof.
  intros Hsfx. apply (namesFiles_captured isWordDash suffix).
  - exact isWordDash_plain.
  - exact Hsfx.
  - intros c cf H. unfold suffixed in H. do 4 skip_seq H.
    eapply group_capture; [ | exact H ]. reflexivity.
Qed.

Lemma namesFiles_capFree (r : regex) : capFree r = true -> namesFiles r.
Proof.
  intros F n s c' x Hrun Hcap.
  apply run_steps in Hrun. destruct Hrun as (c1 & Hsteps & Hk).
  inversion Hk; subst c1.
  rewrite (steps_capFree r F _ _ Hsteps) in Hcap. discriminate.
Qed.

Lemma patterns_name_files : Forall namesFiles patterns.
Proof.
  unfold patterns. repeat apply Forall_cons; try apply Forall_nil.
  - apply namesFiles_capFree. reflexivity.
  - apply namesFiles_suffixed. reflexivity.
  - apply namesFiles_suffixed. reflexivity.
  - apply namesFiles_suffixed. reflexivity.
  - apply namesFiles_suffixed. reflexivity.
  - apply (namesFiles_captured isWordSlashDash EmptyString).
    + exact isWordSlashDash_plain.
    + reflexivity.
    + intros c cf H. do 4 skip_seq H.
      eapply group_capture; [ | exact H ]. reflexivity.
Qed.

(** *** The map of blocks *)

Lemma keys_set {V : Type} (m : JsMap.t V) (k : string) (v : V) :
  JsMap.keys (JsMap.set m k v)
  = if in_dec string_dec k (JsMap.keys m) then JsMap.keys m
    else (JsMap.keys m ++ [k])%list.
Proof.
  induction m as [ | [k' v'] m IH ].
  - reflexivity.
  - cbn [JsMap.set JsMap.keys List.map fst] in *.
    destruct (String.eqb_spec k' k) as [-> | Hne].
    + destruct (in_dec string_dec k (k :: List.map fst m)) as [ | Hn ].
      * reflexivity.
      * exfalso. apply Hn. left. reflexivity.
    + cbn [List.map fst]. fold (JsMap.keys (JsMap.set m k v)). rewrite IH.
      destruct (in_dec string_dec k (JsMap.keys m)) as [Hin | Hn];
        destruct (in_dec string_dec k (k' :: List.map fst m)) as [Hin' | Hn'].
      * reflexivity.
      * exfalso. apply Hn'. right. exact Hin.
      * exfalso. destruct Hin' as [E | Hin']; [ exact (Hne E) | exact (Hn Hin') ].
      * reflexivity.
Qed.

Lemma wellNamed_set (blocks : JsMap.t string) (k v : string) :
  dartName k -> wellNamed blocks -> wellNamed (JsMap.set blocks k v).
Proof.
  intros Hk [Hnd Hall]. unfold wellNamed. rewrite keys_set.
  destruct (in_dec string_dec k (JsMap.keys blocks)) as [Hin | Hn].
  - split; assumption.
  - split.
    + apply NoDup_app; [ exact Hnd | repeat constructor; intros [] | ].
      intros x Hx [<- | []]. exact (Hn Hx).
    + apply Forall_app. split; [ exact Hall | repeat constructor; exact Hk ].
Qed.

Lemma wellNamed_empty : wellNamed JsMap.empty.
Proof. split; constructor. Qed.

Lemma dartName_main : dartName "main.dart".
Proof. exists "main". split; reflexivity. Qed.

Lemma recordMatch_wellNamed (i : nat) (mainFound : bool)
      (blocks : JsMap.t string) (m : rmatch) :
  (forall x, group1 m = Some x -> dartName (trim x)) ->
  wellNamed blocks -> wellNamed (recordMatch i mainFound blocks m).
Proof.
  intros Hm Hb. unfold recordMatch.
  destruct (String.eqb (whole m) EmptyString); [ exact Hb | ].
  destruct ((i =? 0)%nat && mainFound); [ exact Hb | ].
  destruct (group1 m) as [x | ]; [ | exact Hb ]. cbn [option_map].
  destruct (String.eqb (trim x) EmptyString); [ exact Hb | ].
  destruct (String.eqb (trim x) "main.dart" && JsMap.has blocks "main.dart");
    [ exact Hb | ].
  apply wellNamed_set; [ apply Hm; reflexivity | exact Hb ].
Qed.

Lemma matchAll_names (p : regex) (text : string) (m : rmatch) :
  namesFiles p -> In m (matchAll p text) ->
  forall x, group1 m = Some x -> dartName (trim x).
Proof.
  intros Hp Hin x Hx. unfold matchAll in Hin.
  apply pieces_execAt in Hin. destruct Hin as (n & s & He).
  unfold execAt in He.
  destruct (run p Some (Cursor n s None)) as [c' | ] eqn:Hrun; [ | discriminate ].
  inversion He; subst m. cbn [group1] in Hx.
  exact (Hp n s c' x Hrun Hx).
Qed.

Lemma fold_recordMatch_wellNamed (i : nat) (mainFound : bool) (ms : list rmatch) :
  (forall m, In m ms -> forall x, group1 m = Some x -> dartName (trim x)) ->
  forall blocks, wellNamed blocks ->
                 wellNamed (fold_left (recordMatch i mainFound) ms blocks).
Proof.
  induction ms as [ | m ms IH ]; intros Hms blocks Hb.
  - exact Hb.
  - cbn [fold_left]. apply IH.
    + intros m' Hin. apply Hms. right. exact Hin.
    + apply recordMatch_wellNamed; [ apply Hms; left; reflexivity | exact Hb ].
Qed.

Lemma scanPatterns_wellNamed (text : string) (mainFound : bool) (start : nat)
      (ps : list regex) :
  Forall namesFiles ps ->
  forall i blocks, wellNamed blocks ->
                   wellNamed (scanPatterns text mainFound start i ps blocks).
Proof.
  induction 1 as [ | p ps Hp Hps IH ]; intros i blocks Hb.
  - exact Hb.
  - cbn [scanPatterns]. apply IH.
    destruct (i <? start)%nat; [ exact Hb | ].
    apply fold_recordMatch_wellNamed; [ | exact Hb ].
    intros m Hin. eapply matchAll_names; eassumption.
Qed.

Lemma namedBlocks_wellNamed (text : string) : wellNamed (namedBlocks text).
Proof.
  unfold namedBlocks. apply scanPatterns_wellNamed; [ exact patterns_name_files | ].
  destruct (matchFirst mainPattern text).
  - apply wellNamed_set; [ exact dartName_main | exact wellNamed_empty ].
  - exact wellNamed_empty.
Qed.

Lemma digits_notDot (d : Decimal.uint) :
  allChars notDot (NilEmpty.string_of_uint d) = true.
Proof. induction d; simpl; auto. Qed.

Lemma ofNat_notDot (n : nat) : allChars notDot (ofNat n) = true.
Proof.
  unfold ofNat, NilZero.string_of_uint.
  destruct (Nat.to_uint n) eqn:E; try (rewrite <- E; apply digits_notDot).
  reflexivity.
Qed.

Lemma inferFileNameFromContent_dartName (content : string) (index : nat) :
  dartName (inferFileNameFromContent content index).
Proof.
  unfold inferFileNameFromContent.
  repeat match goal with
         | |- dartName (if ?b then _ else _) => destruct b
         end;
    try exact dartName_main;
    match goal with
    | |- dartName (?pre ++ ofNat index ++ ".dart") =>
        exists (pre ++ ofNat index); split;
        [ cbn [append]; reflexivity | cbn [append allChars]; apply ofNat_notDot ]
    end.
Qed.

Lemma scanGeneric_wellNamed (dartBlocks : list rmatch) :
  forall i blocks, wellNamed blocks -> wellNamed (scanGeneric i dartBlocks blocks).
Proof.
  induction dartBlocks as [ | m ms IH ]; intros i blocks Hb.
  - exact Hb.
  - cbn [scanGeneric]. apply IH.
    apply wellNamed_set; [ apply inferFileNameFromContent_dartName | exact Hb ].
Qed.

(** The keys of the map [extractFileBlocks] fills are distinct dart file
    names. *)
Lemma extractFileBlocks_wellNamed (text : string) : wellNamed (extractFileBlocks text).
Proof.
  unfold extractFileBlocks.
  destruct (JsMap.size (namedBlocks text) =? 0)%nat.
  - apply scanGeneric_wellNamed. apply namedBlocks_wellNamed.
  - apply namedBlocks_wellNamed.
Qed.

(** *** Classification *)

Lemma distinctAmong_more (seen : list string) (k : string) (xs : list Artifact) :
  distinctAmong seen xs -> distinctAmong (seen ++ [k]) xs.
Proof.
  intros [Hnd Hin]. split; [ exact Hnd | ].
  intros x Hx. rewrite map_app. apply in_or_app. left. exact (Hin x Hx).
Qed.

Lemma distinctAmong_push (seen : list string) (k v : string) (xs : list Artifact) :
  ~ In (baseName k) (List.map baseName seen) ->
  distinctAmong seen xs ->
  distinctAmong (seen ++ [k]) (xs ++ [{| name := baseName k; code := v |}]).
Proof.
  intros Hnew [Hnd Hin]. unfold distinctAmong, namesOf in *.
  rewrite !map_app. cbn [List.map name]. split.
  - apply NoDup_app; [ exact Hnd | repeat constructor; intros [] | ].
    intros x Hx [<- | []]. exact (Hnew (Hin _ Hx)).
  - intros x Hx. apply in_app_or in Hx. apply in_or_app.
    destruct Hx as [Hx | Hx]; [ left; exact (Hin x Hx) | right; exact Hx ].
Qed.

Lemma classifyEntry_fresh (seen : list string) (a : Acc) (k v : string) :
  ~ In (baseName k) (List.map baseName seen) ->
  fresh seen a -> fresh (seen ++ [k]) (classifyEntry a (k, v)).
Proof.
  intros Hnew (Hs & Hw & Hm & Hv). unfold classifyEntry. cbv zeta.
  repeat match goal with
         | |- fresh _ (if ?c then _ else _) => destruct c
         | |- fresh _ (markProcessed _ (if ?c then _ else _)) => destruct c
         end;
    unfold fresh;
    cbn [markProcessed pushScreen pushWidget pushModel pushService
         accScreens accWidgets accModels accServices];
    refine (conj _ (conj _ (conj _ _)));
    first [ apply distinctAmong_push; assumption
          | apply distinctAmong_more; assumption ].
Qed.

Lemma fold_classifyEntry_fresh (entries : JsMap.t string) :
  forall seen a,
    NoDup (seen ++ JsMap.keys entries) ->
    Forall dartName (seen ++ JsMap.keys entries) ->
    fresh seen a ->
    fresh (seen ++ JsMap.keys entries) (fold_left classifyEntry entries a).
Proof.
  induction entries as [ | [k v] entries IH ]; intros seen a Hnd Hall Ha.
  - cbn [JsMap.keys List.map fold_left]. rewrite app_nil_r. exact Ha.
  - cbn [JsMap.keys List.map fst fold_left] in *. fold (JsMap.keys entries) in *.
    replace (seen ++ k :: JsMap.keys entries)%list
      with ((seen ++ [k]) ++ JsMap.keys entries)%list in *
      by (rewrite <- app_assoc; reflexivity).
    apply IH; try assumption.
    apply classifyEntry_fresh; [ | exact Ha ].
    intros Hin. apply in_map_iff in Hin. destruct Hin as (k' & Hbase & Hk').
    rewrite Forall_forall in Hall.
    assert (k' = k).
    { apply baseName_injective; [ | | exact Hbase ]; apply Hall; apply in_or_app; left;
        apply in_or_app; [ left; exact Hk' | right; left; reflexivity ]. }
    subst k'.
    apply NoDup_app_remove_r in Hnd.
    apply NoDup_remove_2 in Hnd. apply Hnd. rewrite app_nil_r. exact Hk'.
Qed.

(** The classifier gives distinct names within each category when the
    keys of the map are distinct dart file names. *)
Lemma processCodeBlocks_uniqueNames (codeBlocks : JsMap.t string) :
  wellNamed codeBlocks -> uniqueNames (processCodeBlocks codeBlocks).
Proof.
  intros [Hnd Hall]. unfold processCodeBlocks, uniqueNames.
  cbn [screens widgets models services].
  match goal with
  | |- context [fold_left classifyEntry codeBlocks ?a0] =>
      pose proof (@fold_classifyEntry_fresh codeBlocks [] a0 Hnd Hall) as H
  end.
  destruct H as ((Hs & _) & (Hw & _) & (Hm & _) & (Hv & _)).
  - repeat split; try constructor; intros x [].
  - auto.
Qed.

(** C4, as amended.  When the classifier finds something, so that the
    fall-back extractor is not used, no two artifacts of one category of
    the bundle share a name. *)
Theorem primary_path_unique_names (text : string) :
  nothingFound (processCodeBlocks (extractFileBlocks text)) = false ->
  uniqueNames (processCode text).
Proof.
  intros Hfound.
  pose proof (processCodeBlocks_uniqueNames (extractFileBlocks_wellNamed text)) as Hu.
  unfold processCode. rewrite Hfound.
  destruct (mainApp (processCodeBlocks (extractFileBlocks text))); exact Hu.
Qed.

Lemma primary_path_unique_names_witness :
  uniqueNames (processCode twoLoginScreens).
Proof.
  apply primary_path_unique_names. vm_compute. reflexivity.
Defined.

End Pipeline.

(** ** Worked examples *)

Section Examples.
Import OpenAIService Regex.

Example extractCodeContent_block :
  extractCodeContent twoLoginScreens = "class A {}
```
class B {}".
Proof. vm_compute. reflexivity. Qed.

Example toSnakeCase_HomeScreen : toSnakeCase "HomeScreen" = "home_screen".
Proof. vm_compute. reflexivity. Qed.

Example toPascalCase_home_screen : toPascalCase "home_screen" = "HomeScreen".
Proof. vm_compute. reflexivity. Qed.

(** The model pattern gives up the last letter of the name of a class
    that extends another one. *)
Example modelPattern_backtracks :
  List.map group1 (matchAll modelPattern "class Foo extends Bar { final int x; } ```")
  = [Some "Fo"].
Proof. vm_compute. reflexivity. Qed.

(** A dart block without a file-name comment is named from its content
    and classified; the fall-back extractor is not used. *)
Example unnamed_widget_classified :
  namedBlocks unnamedWidget = []
  /\ extractFileBlocks unnamedWidget
     = [("widget_0.dart", "class Foo extends StatelessWidget {}")]
  /\ widgets (processCode unnamedWidget)
     = [{| name := "widget_0"; code := "class Foo extends StatelessWidget {}" |}].
Proof. repeat split; vm_compute; reflexivity. Qed.

Example login_screen_bootstrap :
  includes (match mainApp (processCode twoLoginScreens) with
            | Some m => mainCode m
            | None => EmptyString
            end) "home: LoginScreen()," = true.
Proof. vm_compute. reflexivity. Qed.

Example base64_of_ABC :
  prepareImageBase64 (JBuffer [Byte.x41; Byte.x42; Byte.x43]) = Ok (JStr "QUJD").
Proof. reflexivity. Qed.

Example prepareImageBase64_null :
  prepareImageBase64 JNull = Throw "Formato de imagen no soportado".
Proof. reflexivity. Qed.

(** The element without a [tipo] is skipped; the two others are created. *)
Example batch_with_one_failure :
  createFiguresFromUIElements (Ok (Some numberingService))
    [JObj [("tipo", JStr "rectangle")]; JObj [("x", JNum 1)]; JObj [("tipo", JStr "circle")]]
    "v1" 0
  = (Ok [JObj [("tipo", JStr "rectangle"); ("vistaId", JStr "v1"); ("id", JNum 0)];
         JObj [("tipo", JStr "circle"); ("vistaId", JStr "v1"); ("id", JNum 1)]],
     2).
Proof. reflexivity. Qed.

Example routes_login_home_settings :
  match AutoNavigationService.generateNavigationForProject
          (projectWith ["Login"; "Home"; "Settings"]) "p1" with
  | Ok (Some nav) =>
      List.map (fun r => (AutoNavigationService.path r, AutoNavigationService.isInitial r))
               (AutoNavigationService.routes nav)
  | _ => []
  end
  = [("/login", true); ("/home", true); ("/settings", false)].
Proof. vm_compute. reflexivity. Qed.

End Examples.

(** ** More on the map of blocks and the classifier *)

Section BlocksAndClassifier.
Import OpenAIService Regex.

Lemma get_set_same {V : Type} (m : JsMap.t V) (k : string) (v : V) :
  JsMap.get (JsMap.set m k v) k = Some v.
Proof.
  induction m as [ | [k' v'] m IH ]; cbn [JsMap.set JsMap.get].
  - rewrite String.eqb_refl. reflexivity.
  - destruct (String.eqb k' k) eqn:E; cbn [JsMap.get]; rewrite E; [ reflexivity | exact IH ].
Qed.

Lemma get_set_other {V : Type} (m : JsMap.t V) (k k' : string) (v : V) :
  k <> k' -> JsMap.get (JsMap.set m k v) k' = JsMap.get m k'.
Proof.
  intros Hne. induction m as [ | [k0 v0] m IH ]; cbn [JsMap.set JsMap.get].
  - destruct (String.eqb_spec k k'); [ contradiction | reflexivity ].
  - destruct (String.eqb_spec k0 k) as [-> | Hk]; cbn [JsMap.get].
    + destruct (String.eqb_spec k k'); [ contradiction | reflexivity ].
    + rewrite IH. reflexivity.
Qed.

Lemma notDot_includes (b : string) :
  allChars notDot b = true -> includes b "." = false.
Proof.
  induction b as [ | c b IH ]; intros H.
  - reflexivity.
  - cbn [allChars] in H. apply andb_true_iff in H. destruct H as [Hc Hb].
    cbn [includes startsWith]. rewrite (IH Hb).
    unfold notDot in Hc. apply negb_true_iff in Hc.
    rewrite Ascii.eqb_sym, Hc. reflexivity.
Qed.

(** X1.  The keys of the map [extractFileBlocks] fills are pairwise
    distinct, and each one is a base without any dot followed by
    [.dart]; so removing the first [.dart] of a key gives its base. *)
Theorem extractFileBlocks_keys (text : string) :
  NoDup (JsMap.keys (extractFileBlocks text))
  /\ forall k, In k (JsMap.keys (extractFileBlocks text)) ->
               exists b, k = b ++ ".dart" /\ includes b "." = false /\ baseName k = b.
Proof.
  destruct (extractFileBlocks_wellNamed text) as [Hnd Hall].
  split; [ exact Hnd | ].
  intros k Hk. rewrite Forall_forall in Hall.
  destruct (Hall k Hk) as (b & -> & Hb).
  exists b. split; [ reflexivity | ].
  split; [ apply notDot_includes; exact Hb | apply baseName_dartName; exact Hb ].
Qed.

Lemma recordMatch_keeps_main (i : nat) (mainFound : bool) (blocks : JsMap.t string)
      (m : rmatch) (code0 : string) :
  JsMap.get blocks "main.dart" = Some code0 ->
  JsMap.get (recordMatch i mainFound blocks m) "main.dart" = Some code0.
Proof.
  intros H. unfold recordMatch.
  destruct (String.eqb (whole m) EmptyString); [ exact H | ].
  destruct ((i =? 0)%nat && mainFound); [ exact H | ].
  destruct (group1 m) as [x | ]; [ | exact H ]. cbn [option_map].
  destruct (String.eqb (trim x) EmptyString); [ exact H | ].
  unfold JsMap.has. rewrite H.
  destruct (String.eqb_spec (trim x) "main.dart") as [E | E]; cbn [andb]; [ exact H | ].
  rewrite get_set_other by exact E. exact H.
Qed.

Lemma scanPatterns_keeps_main (text : string) (mainFound : bool) (start : nat)
      (code0 : string) (ps : list regex) :
  forall i blocks,
    JsMap.get blocks "main.dart" = Some code0 ->
    JsMap.get (scanPatterns text mainFound start i ps blocks) "main.dart" = Some code0.
Proof.
  induction ps as [ | p ps IH ]; intros i blocks H.
  - exact H.
  - cbn [scanPatterns]. apply IH.
    destruct (i <? start)%nat; [ exact H | ].
    generalize (matchAll p text). intros ms. revert blocks H.
    induction ms as [ | m ms IHm ]; intros blocks H; [ exact H | ].
    cbn [fold_left]. apply IHm. apply recordMatch_keeps_main. exact H.
Qed.

(** X2.  When the response has a dart fence headed by [// main.dart], the
    map keeps the content of the first such block under [main.dart],
    whatever other blocks follow; when that content is not empty it is the
    main entry of the bundle, and nothing is synthesized in its place. *)
Theorem explicit_main_block_is_kept (text : string) (m : rmatch) :
  matchFirst mainPattern text = Some m ->
  extractCodeContent (whole m) <> EmptyString ->
  JsMap.get (extractFileBlocks text) "main.dart" = Some (extractCodeContent (whole m))
  /\ mainApp (processCode text) = Some {| mainCode := extractCodeContent (whole m) |}.
Proof.
  intros Hm Hcode.
  assert (Hnamed : JsMap.get (namedBlocks text) "main.dart"
                   = Some (extractCodeContent (whole m))).
  { unfold namedBlocks. rewrite Hm. apply scanPatterns_keeps_main.
    apply get_set_same. }
  assert (Hblocks : extractFileBlocks text = namedBlocks text).
  { unfold extractFileBlocks.
    destruct (namedBlocks text) as [ | e rest ]; [ discriminate | reflexivity ]. }
  rewrite Hblocks. split; [ exact Hnamed | ].
  assert (Hmain : mainOfBlocks (namedBlocks text)
                  = Some {| mainCode := extractCodeContent (whole m) |}).
  { unfold mainOfBlocks, JsMap.has. rewrite Hnamed.
    destruct (String.eqb_spec (extractCodeContent (whole m)) EmptyString);
      [ contradiction | reflexivity ]. }
  unfold processCode. rewrite Hblocks.
  assert (Hfound : nothingFound (processCodeBlocks (namedBlocks text)) = false).
  { unfold nothingFound. rewrite processCodeBlocks_mainApp, Hmain.
    repeat rewrite andb_false_r. reflexivity. }
  rewrite Hfound.
  assert (E : mainApp (processCodeBlocks (namedBlocks text))
              = Some {| mainCode := extractCodeContent (whole m) |}) by exact Hmain.
  rewrite E. exact E.
Qed.

Lemma explicit_main_block_is_kept_witness :
  JsMap.get (extractFileBlocks twoMainBlocks) "main.dart"
  = Some "void main() { runApp(First()); }"
  /\ mainApp (processCode twoMainBlocks)
     = Some {| mainCode := "void main() { runApp(First()); }" |}.
Proof.
  assert (Hm : matchFirst mainPattern twoMainBlocks
               = Some (Match 0 (take 57 twoMainBlocks) None))
    by (vm_compute; reflexivity).
  apply (explicit_main_block_is_kept twoMainBlocks Hm).
  vm_compute. discriminate.
Defined.

Lemma classifyEntry_adds (a : Acc) (k v : string) (x : Artifact) :
  In x (accArtifacts (classifyEntry a (k, v))) ->
  In x (accArtifacts a)
  \/ (x = {| name := baseName k; code := v |} /\ k <> "main.dart").
Proof.
  unfold classifyEntry. cbv zeta.
  destruct (JsMap.has (processedFiles a) k); [ auto | ].
  destruct (String.eqb_spec k "main.dart") as [E | E]; [ auto | ].
  repeat match goal with
         | |- In _ (accArtifacts (if ?c then _ else _)) -> _ => destruct c
         | |- In _ (accArtifacts (markProcessed _ (if ?c then _ else _))) -> _ => destruct c
         end;
    unfold accArtifacts;
    cbn [markProcessed pushScreen pushWidget pushModel pushService
         accScreens accWidgets accModels accServices];
    rewrite !in_app_iff; cbn [In]; intuition auto.
Qed.

Lemma classifyEntry_count (a : Acc) (e : string * string) :
  List.length (accArtifacts (classifyEntry a e)) <= S (List.length (accArtifacts a)).
Proof.
  destruct e as [k v]. unfold classifyEntry. cbv zeta.
  repeat match goal with
         | |- List.length (accArtifacts (if ?c then _ else _)) <= _ => destruct c
         | |- List.length (accArtifacts (markProcessed _ (if ?c then _ else _))) <= _ =>
             destruct c
         end;
    unfold accArtifacts;
    cbn [markProcessed pushScreen pushWidget pushModel pushService
         accScreens accWidgets accModels accServices];
    rewrite !length_app; cbn [List.length]; lia.
Qed.

Lemma fold_classifyEntry_adds (entries : JsMap.t string) :
  forall a x,
    In x (accArtifacts (fold_left classifyEntry entries a)) ->
    In x (accArtifacts a)
    \/ exists fileName, In (fileName, code x) entries
                        /\ name x = baseName fileName /\ fileName <> "main.dart".
Proof.
  induction entries as [ | [k v] entries IH ]; intros a x H.
  - left. exact H.
  - cbn [fold_left] in H. apply IH in H. destruct H as [H | (f & Hin & Hn & Hf)].
    + apply classifyEntry_adds in H. destruct H as [H | [-> Hk]].
      * left. exact H.
      * right. exists k. cbn [name code]. split; [ left; reflexivity | auto ].
    + right. exists f. split; [ right; exact Hin | auto ].
Qed.

Lemma fold_classifyEntry_count (entries : JsMap.t string) :
  forall a, List.length (accArtifacts (fold_left classifyEntry entries a))
            <= List.length (accArtifacts a) + List.length entries.
Proof.
  induction entries as [ | e entries IH ]; intros a; cbn [fold_left List.length].
  - lia.
  - specialize (IH (classifyEntry a e)).
    pose proof (classifyEntry_count a e). lia.
Qed.

(** X3.  Every artifact the classifier returns comes from a block of the
    map: its code is the content of the block, its name is the file name
    of the block without [.dart], and the block is not [main.dart]. *)
Theorem classified_artifacts_come_from_blocks (codeBlocks : JsMap.t string) (x : Artifact) :
  In x (allArtifacts (processCodeBlocks codeBlocks)) ->
  exists fileName, In (fileName, code x) codeBlocks
                   /\ name x = baseName fileName /\ fileName <> "main.dart".
Proof.
  unfold allArtifacts, processCodeBlocks. cbn [screens widgets models services].
  intros H.
  match type of H with
  | context [fold_left classifyEntry codeBlocks ?a0] =>
      destruct (fold_classifyEntry_adds codeBlocks a0 x H) as [Hin | Hex]
  end.
  - destruct Hin.
  - exact Hex.
Qed.

Lemma classified_artifacts_come_from_blocks_witness :
  exists fileName, In (fileName, "class A {}") [("login_screen.dart", "class A {}")]
                   /\ "login_screen" = baseName fileName /\ fileName <> "main.dart".
Proof.
  apply (classified_artifacts_come_from_blocks
           [("login_screen.dart", "class A {}")]
           {| name := "login_screen"; code := "class A {}" |}).
  left. reflexivity.
Defined.

(** X4.  A block gives at most one artifact: the classifier never returns
    more artifacts than the map has blocks. *)
Theorem classified_at_most_one_per_block (codeBlocks : JsMap.t string) :
  classified (processCodeBlocks codeBlocks) <= JsMap.size codeBlocks.
Proof.
  unfold classified, processCodeBlocks, JsMap.size. cbn [screens widgets models services].
  match goal with
  | |- context [fold_left classifyEntry codeBlocks ?a0] =>
      pose proof (fold_classifyEntry_count codeBlocks a0) as H
  end.
  unfold accArtifacts in H. rewrite !length_app in H. cbn [accScreens accWidgets
    accModels accServices List.length] in H. lia.
Qed.

End BlocksAndClassifier.

(** ** More on navigation synthesis *)

Section RouteTable.
Import AutoNavigationService.

Lemma mapi_routeOf_facts (vistas : list VistaDetail) :
  forall index,
    List.map description (mapi routeOf index vistas) = List.map nombre vistas
    /\ List.map figuraCount (mapi routeOf index vistas)
       = List.map (fun v => List.length (figuras v)) vistas
    /\ Forall (fun r => path r = "/" ++ name r) (mapi routeOf index vistas).
Proof.
  induction vistas as [ | v vistas IH ]; intros index.
  - repeat split. constructor.
  - destruct (IH (S index)) as (Hd & Hf & Hp).
    cbn [mapi List.map]. rewrite Hd, Hf.
    repeat split. constructor; [ reflexivity | exact Hp ].
Qed.

(** X5.  The route table has one route per view, in the order of the
    views: the descriptions are the names of the views, the figure counts
    are the numbers of their figures, and the path of every route is a
    slash followed by its name. *)
Theorem route_table_follows_views (vistas : list VistaDetail) :
  List.map description (routes (createNavigationStructure vistas)) = List.map nombre vistas
  /\ List.map figuraCount (routes (createNavigationStructure vistas))
     = List.map (fun v => List.length (figuras v)) vistas
  /\ Forall (fun r => path r = "/" ++ name r) (routes (createNavigationStructure vistas)).
Proof.
  unfold createNavigationStructure. cbn [routes]. apply mapi_routeOf_facts.
Qed.

Lemma map_detailOf (figuraService : FiguraService) (vistas : list Vista) :
  List.map nombre (List.map (detailOf figuraService) vistas) = List.map vistaNombre vistas
  /\ List.map (fun v => List.length (figuras v)) (List.map (detailOf figuraService) vistas)
     = List.map (figuresKept figuraService) vistas.
Proof.
  induction vistas as [ | v vistas [IHn IHf] ].
  - split; reflexivity.
  - cbn [List.map]. rewrite IHn, IHf. split; [ reflexivity | ].
    f_equal. unfold detailOf, figuresKept. cbn [figuras].
    destruct (findAllFiguras figuraService (vistaId v)) as [[l | ] | e]; reflexivity.
Qed.

(** X6.  With both collaborators resolved and at least two views,
    navigation is always produced, whatever the fetches of the figures do:
    there is one route per view, in order, and a view whose figures could
    not be fetched keeps its route, with a figure count of zero. *)
Theorem figure_fetch_failures_do_not_abort
        (vistaService : VistaService) (figuraService : FiguraService)
        (projectId : string) (vistas : list Vista) :
  findAllVistas vistaService projectId = Ok (Some vistas) ->
  2 <= List.length vistas ->
  exists nav,
    generateNavigationForProject
      {| getVistaService := Ok (Some vistaService);
         getFiguraService := Ok (Some figuraService) |} projectId = Ok (Some nav)
    /\ List.map description (routes nav) = List.map vistaNombre vistas
    /\ List.map figuraCount (routes nav) = List.map (figuresKept figuraService) vistas.
Proof.
  intros Hfind Hlen.
  unfold generateNavigationForProject. cbn [getVistaService getFiguraService bind catch].
  rewrite Hfind. cbn [bind].
  assert (Hlt : (List.length vistas <? 2)%nat = false) by (apply Nat.ltb_ge; exact Hlen).
  rewrite Hlt. eexists. split; [ reflexivity | ].
  unfold createNavigationStructure. cbn [routes].
  match goal with
  | |- context [mapi routeOf ?i _] =>
      destruct (mapi_routeOf_facts (List.map (detailOf figuraService) vistas) i)
        as (Hd & Hf & _)
  end.
  destruct (map_detailOf figuraService vistas) as [Hn Hk].
  rewrite Hd, Hf, Hn, Hk. split; reflexivity.
Qed.

Lemma figure_fetch_failures_do_not_abort_witness :
  exists nav,
    generateNavigationForProject
      {| getVistaService := Ok (Some threeViews);
         getFiguraService := Ok (Some failingForHome) |} "p1" = Ok (Some nav)
    /\ List.map description (routes nav) = ["Login"; "Home"; "User Profile"]
    /\ List.map figuraCount (routes nav) = [2; 0; 2].
Proof.
  apply (@figure_fetch_failures_do_not_abort threeViews failingForHome "p1"
           (List.map viewNamed ["Login"; "Home"; "User Profile"])).
  - reflexivity.
  - simpl. lia.
Defined.

(** X7.  When the view service rejects the request for the views, the
    operation does not reject: it returns [null], whatever the figure
    service resolves to. *)
Theorem rejected_view_fetch_gives_null
        (moduleRef : ModuleRef) (vistaService : VistaService)
        (projectId message : string) :
  getVistaService moduleRef = Ok (Some vistaService) ->
  findAllVistas vistaService projectId = Throw message ->
  generateNavigationForProject moduleRef projectId = Ok None.
Proof.
  intros Hv Hfind. unfold generateNavigationForProject. rewrite Hv. cbn [bind].
  destruct (getFiguraService moduleRef) as [[figuraService | ] | e]; cbn [bind catch];
    try reflexivity.
  rewrite Hfind. reflexivity.
Qed.

Lemma rejected_view_fetch_gives_null_witness :
  generateNavigationForProject
    {| getVistaService := Ok (Some rejectingViews);
       getFiguraService := Ok (Some failingForHome) |} "p1" = Ok None.
Proof.
  apply (@rejected_view_fetch_gives_null
           {| getVistaService := Ok (Some rejectingViews);
              getFiguraService := Ok (Some failingForHome) |}
           rejectingViews "p1" "connection lost"); reflexivity.
Defined.

End RouteTable.

(** ** More on batch persistence *)

Section BatchEdges.
Import OpenAIService.

Variable St : Type.

(** X8.  When the figure service cannot be resolved, the batch fails with
    an error whose message starts with [Error al crear figuras: ], and the
    state of the collaborator is untouched: nothing is submitted. *)
Theorem unresolved_figure_service_fails_batch
        (resolved : result (option (FiguraService St)))
        (uiElements : list jsval) (vistaId : string) (st : St) :
  unresolved resolved ->
  exists cause,
    createFiguresFromUIElements resolved uiElements vistaId st
    = (Throw ("Error al crear figuras: " ++ cause), st).
Proof.
  intros [-> | [e ->]]; eexists; reflexivity.
Qed.

(** X9.  The data submitted for an element carries the view id of the
    batch under [vistaId], also when the element had a [vistaId] of its
    own, and every other property of the element with its value. *)
Theorem figuraData_stamps_view (vistaId : string) (element : jsval) :
  exists props,
    figuraData vistaId element = JObj props
    /\ JsMap.get props "vistaId" = Some (JStr vistaId)
    /\ forall key, key <> "vistaId" -> JsMap.get props key = JsMap.get (spread element) key.
Proof.
  eexists. split; [ reflexivity | ]. split.
  - apply get_set_same.
  - intros key Hkey. apply get_set_other. congruence.
Qed.

Lemma createdOf_length (history : list (jsval * result jsval)) :
  List.length (createdOf history) <= List.length history
  /\ (Forall (fun e => exists v, snd e = Ok v) history ->
      List.length (createdOf history) = List.length history).
Proof.
  induction history as [ | [d [v | e]] history [IHle IHeq] ]; cbn [createdOf List.length].
  - split; [ lia | reflexivity ].
  - split; [ lia | ]. intros H. inversion H; subst. rewrite IHeq by assumption. reflexivity.
  - split; [ lia | ]. intros H. inversion H as [ | ? ? [v Hv] ]. discriminate Hv.
Qed.

Lemma submitAll_length (svc : FiguraService St) (datas : list jsval) (st : St) :
  List.length (fst (submitAll svc datas st)) = List.length datas.
Proof.
  rewrite <- (submitAll_submits svc datas st) at 2. rewrite length_map. reflexivity.
Qed.

(** X10.  The batch never returns more records than it was given
    elements, and it returns exactly one record per element when every
    submission succeeds. *)
Theorem created_records_bounded (svc : FiguraService St)
        (uiElements : list jsval) (vistaId : string) (st : St) :
  exists createdFigures st',
    createFiguresFromUIElements (Ok (Some svc)) uiElements vistaId st
    = (Ok createdFigures, st')
    /\ List.length createdFigures <= List.length uiElements
    /\ (Forall (fun e => exists v, snd e = Ok v)
               (fst (submitAll svc (List.map (figuraData vistaId) uiElements) st)) ->
        List.length createdFigures = List.length uiElements).
Proof.
  unfold createFiguresFromUIElements. rewrite createOne_loop.
  do 2 eexists. split; [ reflexivity | ]. cbn [app].
  pose proof (createdOf_length
                (fst (submitAll svc (List.map (figuraData vistaId) uiElements) st)))
    as [Hle Heq].
  rewrite submitAll_length, length_map in Hle, Heq.
  split; [ exact Hle | exact Heq ].
Qed.

End BatchEdges.

Lemma created_records_bounded_witness :
  exists createdFigures st',
    OpenAIService.createFiguresFromUIElements (Ok (Some numberingService))
      [JObj [("tipo", JStr "circle")]; JObj [("tipo", JStr "text")]] "v1" 7
    = (Ok createdFigures, st')
    /\ List.length createdFigures <= 2
    /\ List.length createdFigures = 2.
Proof.
  destruct (created_records_bounded numberingService
              [JObj [("tipo", JStr "circle")]; JObj [("tipo", JStr "text")]] "v1" 7)
    as (createdFigures & st' & Hrun & Hle & Heq).
  exists createdFigures, st'. split; [ exact Hrun | ]. split; [ exact Hle | ].
  apply Heq. vm_compute. repeat constructor; eexists; reflexivity.
Defined.

Lemma unresolved_figure_service_fails_batch_witness :
  exists cause,
    OpenAIService.createFiguresFromUIElements (St := nat) (Ok None)
      [JObj [("tipo", JStr "circle")]] "v1" 7
    = (Throw ("Error al crear figuras: " ++ cause), 7).
Proof.
  apply unresolved_figure_service_fails_batch. left. reflexivity.
Defined.

(** ** Naming helpers *)

Section Naming.
Import Regex.

Lemma execAt_capital (n : nat) (s : string) :
  execAt (Group (Class isUpper)) n s
  = match s with
    | String c t =>
        if isUpper c
        then Some (Match n (String c EmptyString) (Some (String c EmptyString)))
        else None
    | EmptyString => None
    end.
Proof.
  unfold execAt. cbn [run rest pos cap].
  destruct s as [ | c t ]; [ reflexivity | ].
  destruct (isUpper c); [ | reflexivity ].
  cbn [pos rest cap]. replace (S n - n) with 1 by lia. reflexivity.
Qed.

Lemma replace_capitals (f : rmatch -> string) (s : string) :
  (forall n c, f (Match n (String c EmptyString) (Some (String c EmptyString)))
               = String "_" (String c EmptyString)) ->
  replaceAll (Group (Class isUpper)) f s = underscoreCapitals s.
Proof.
  intros Hf. unfold replaceAll. generalize 0 at 2. 
  induction s as [ | c t IH ]; intros n.
  - cbn [pieces]. rewrite execAt_capital. reflexivity.
  - cbn [pieces]. rewrite execAt_capital. cbn [underscoreCapitals].
    destruct (isUpper c).
    + cbn [whole String.length render]. rewrite Hf, IH. reflexivity.
    + cbn [render]. rewrite IH. reflexivity.
Qed.

Lemma execAt_leading_underscore (n : nat) (s : string) :
  execAt (Seq Bos (Lit "_")) n s
  = if (n =? 0)%nat
    then match s with
         | String c t =>
             if Ascii.eqb c "_" then Some (Match 0 (String "_" EmptyString) None) else None
         | EmptyString => None
         end
    else None.
Proof.
  unfold execAt. cbn [run rest pos cap].
  destruct n as [ | n ]; cbn [Nat.eqb]; [ | reflexivity ].
  destruct s as [ | c t ]; [ reflexivity | ].
  cbn [startsWith]. rewrite Ascii.eqb_sym, andb_true_r.
  destruct (Ascii.eqb_spec c "_") as [-> | ]; reflexivity.
Qed.

Lemma pieces_after_start (f : rmatch -> string) (s : string) :
  forall n, render f true (pieces (Seq Bos (Lit "_")) 0 (S n) s) = s.
Proof.
  induction s as [ | c t IH ]; intros n; cbn [pieces];
    rewrite execAt_leading_underscore; cbn [Nat.eqb render].
  - reflexivity.
  - rewrite IH. reflexivity.
Qed.

Lemma replace_leading_underscore (s : string) :
  replaceFirst (Seq Bos (Lit "_")) (fun _ => EmptyString) s = dropUnderscore s.
Proof.
  unfold replaceFirst. destruct s as [ | c t ]; cbn [pieces];
    rewrite execAt_leading_underscore; cbn [Nat.eqb]; [ reflexivity | ].
  cbn [dropUnderscore]. destruct (Ascii.eqb c "_").
  - cbn [whole String.length render append].
    assert (H : forall n, render whole true (pieces (Seq Bos (Lit "_")) 0 (S n) t) = t).
    { clear. induction t as [ | c t IH ]; intros n; cbn [pieces];
        rewrite execAt_leading_underscore; cbn [Nat.eqb render];
        [ reflexivity | rewrite IH; reflexivity ]. }
    apply H.
  - cbn [render]. rewrite pieces_after_start. reflexivity.
Qed.

(** [toSnakeCase] of the generation service, without patterns. *)
Lemma toSnakeCase_plain (text : string) :
  OpenAIService.toSnakeCase text = dropUnderscore (toLowerCase (underscoreCapitals text)).
Proof.
  unfold OpenAIService.toSnakeCase, OpenAIService.blank.
  rewrite replace_capitals by reflexivity.
  apply replace_leading_underscore.
Qed.

Lemma includes_char_none (c : ascii) (s : string) :
  includes s (String c EmptyString) = false ->
  allChars (fun x => negb (Ascii.eqb x c)) s = true.
Proof.
  induction s as [ | a s IH ]; intros H.
  - reflexivity.
  - cbn [includes startsWith] in H. rewrite andb_true_r in H.
    apply orb_false_iff in H. destruct H as [Ha Hs].
    cbn [allChars]. rewrite Ascii.eqb_sym, Ha, (IH Hs). reflexivity.
Qed.

Lemma splitChar_none (sep : ascii) (s : string) :
  allChars (fun x => negb (Ascii.eqb x sep)) s = true -> splitChar sep s = [s].
Proof.
  induction s as [ | a s IH ]; intros H.
  - reflexivity.
  - cbn [allChars] in H. apply andb_true_iff in H. destruct H as [Ha Hs].
    apply negb_true_iff in Ha. cbn [splitChar]. rewrite Ha, (IH Hs). reflexivity.
Qed.

Lemma splitChar_first (sep : ascii) (h r : string) :
  allChars (fun x => negb (Ascii.eqb x sep)) h = true ->
  splitChar sep (h ++ String sep r) = h :: splitChar sep r.
Proof.
  induction h as [ | a h IH ]; intros H.
  - cbn [append splitChar]. rewrite Ascii.eqb_refl. reflexivity.
  - cbn [allChars] in H. apply andb_true_iff in H. destruct H as [Ha Hh].
    apply negb_true_iff in Ha. cbn [append splitChar]. rewrite Ha, (IH Hh). reflexivity.
Qed.

Lemma splitChar_not_nil (sep : ascii) (s : string) : splitChar sep s <> [].
Proof.
  destruct s as [ | a s ]; cbn [splitChar]; [ discriminate | ].
  destruct (Ascii.eqb a sep); [ discriminate | ].
  destruct (splitChar sep s); discriminate.
Qed.

Lemma capital_facts (u : ascii) :
  isUpper u = true ->
  upperChar (lowerChar u) = u /\ notUnderscore (lowerChar u) = true
  /\ notUnderscore u = true.
Proof.
  destruct u as [[] [] [] [] [] [] [] []]; vm_compute; intuition discriminate.
Qed.

Lemma lowerChar_not_upper (c : ascii) : isUpper (lowerChar c) = false.
Proof.
  destruct c as [[] [] [] [] [] [] [] []]; vm_compute; reflexivity.
Qed.

Lemma lowerChar_fixed (c : ascii) : isUpper c = false -> lowerChar c = c.
Proof. unfold lowerChar. intros ->. reflexivity. Qed.

Lemma join_empty_cons (x : string) (l : list string) :
  join EmptyString (x :: l) = x ++ join EmptyString l.
Proof.
  destruct l; cbn [join append]; [ rewrite append_empty | ]; reflexivity.
Qed.

Lemma pascal_of_words (t : string) :
  allChars notUnderscore t = true ->
  forall u v,
    isUpper u = true -> allChars notUnderscore v = true ->
    join EmptyString
         (List.map capitalised
                   (splitChar "_" (String (lowerChar u) v
                                   ++ toLowerCase (underscoreCapitals t))))
    = String u v ++ t.
Proof.
  induction t as [ | c t IH ]; intros Ht u v Hu Hv;
    destruct (capital_facts u Hu) as (Hround & Hlow & _).
  - cbn [underscoreCapitals toLowerCase JsString.map]. rewrite !append_empty.
    rewrite splitChar_none by (cbn [allChars]; fold notUnderscore in *;
                               unfold notUnderscore in Hlow; rewrite Hlow; exact Hv).
    cbn [List.map join]. unfold capitalised, charAt0, slice1.
    cbn [take drop toUpperCase JsString.map append]. rewrite Hround. reflexivity.
  - cbn [allChars] in Ht. apply andb_true_iff in Ht. destruct Ht as [Hc Ht].
    cbn [underscoreCapitals]. destruct (isUpper c) eqn:Uc.
    + cbn [toLowerCase JsString.map]. fold (toLowerCase (underscoreCapitals t)).
      replace (lowerChar "_") with "_"%char by reflexivity.
      rewrite splitChar_first by (cbn [allChars]; unfold notUnderscore in Hlow;
                                  rewrite Hlow; exact Hv).
      specialize (IH Ht c EmptyString Uc eq_refl). cbn [append] in IH.
      cbn [List.map]. rewrite join_empty_cons, IH.
      unfold capitalised, charAt0, slice1.
      cbn [take drop toUpperCase JsString.map append]. rewrite Hround. reflexivity.
    + cbn [toLowerCase JsString.map]. fold (toLowerCase (underscoreCapitals t)).
      rewrite (lowerChar_fixed c Uc).
      replace (String (lowerChar u) v ++ String c (toLowerCase (underscoreCapitals t)))
        with (String (lowerChar u) (v ++ String c EmptyString)
              ++ toLowerCase (underscoreCapitals t))
        by (cbn [append]; rewrite append_assoc; reflexivity).
      rewrite IH; try assumption.
      * cbn [append]. rewrite append_assoc. reflexivity.
      * rewrite allChars_app, Hv. cbn [allChars]. rewrite Hc. reflexivity.
Qed.

Lemma toSnakeCase_capitalised (u : ascii) (t : string) :
  isUpper u = true ->
  OpenAIService.toSnakeCase (String u t)
  = String (lowerChar u) (toLowerCase (underscoreCapitals t)).
Proof.
  intros Hu. rewrite toSnakeCase_plain. cbn [underscoreCapitals]. rewrite Hu. reflexivity.
Qed.

Lemma toPascalCase_of_snake (u : ascii) (t : string) :
  isUpper u = true ->
  includes (String u t) "_" = false ->
  OpenAIService.toPascalCase (String (lowerChar u) (toLowerCase (underscoreCapitals t)))
  = String u t.
Proof.
  intros Hu Hnone.
  apply includes_char_none in Hnone. cbn [allChars] in Hnone.
  apply andb_true_iff in Hnone. destruct Hnone as [_ Ht].
  unfold OpenAIService.toPascalCase. cbn [String.eqb].
  exact (pascal_of_words t Ht u EmptyString Hu eq_refl).
Qed.

(** X11.  For a name of code units below 128 that starts with a capital
    letter and has no underscore, the Pascal-case form of its snake-case
    form is the name itself; the snake-case form is the name in lower
    case with an underscore before every capital but the first.  (Above
    127 the case mappings of ECMAScript change more code units than
    those of the embedding, and the round trip can lose a capital.) *)
Theorem pascal_snake_round_trip (u : ascii) (t : string) :
  isUpper u = true ->
  allChars isAscii t = true ->
  includes (String u t) "_" = false ->
  OpenAIService.toSnakeCase (String u t)
  = String (lowerChar u) (toLowerCase (underscoreCapitals t))
  /\ OpenAIService.toPascalCase (OpenAIService.toSnakeCase (String u t)) = String u t.
Proof.
  intros Hu _ Hnone. split.
  - apply toSnakeCase_capitalised. exact Hu.
  - rewrite toSnakeCase_capitalised by exact Hu.
    apply toPascalCase_of_snake; assumption.
Qed.

Lemma pascal_snake_round_trip_witness :
  OpenAIService.toSnakeCase "UserProfileScreen" = "user_profile_screen"
  /\ OpenAIService.toPascalCase (OpenAIService.toSnakeCase "UserProfileScreen")
     = "UserProfileScreen".
Proof.
  apply (pascal_snake_round_trip "U" "serProfileScreen"); reflexivity.
Defined.

Lemma toLowerCase_not_upper (s : string) : allChars notUpper (toLowerCase s) = true.
Proof.
  induction s as [ | c s IH ]; cbn [toLowerCase JsString.map allChars]; [ reflexivity | ].
  fold (toLowerCase s). unfold notUpper at 1. rewrite lowerChar_not_upper, IH. reflexivity.
Qed.

Lemma not_upper_fixed (s : string) :
  allChars notUpper s = true -> underscoreCapitals s = s /\ toLowerCase s = s.
Proof.
  induction s as [ | c s IH ]; intros H.
  - split; reflexivity.
  - cbn [allChars] in H. apply andb_true_iff in H. destruct H as [Hc Hs].
    unfold notUpper in Hc. apply negb_true_iff in Hc.
    destruct (IH Hs) as [Hu Hl].
    cbn [underscoreCapitals toLowerCase JsString.map]. fold (toLowerCase s).
    rewrite Hc, Hu, Hl, (lowerChar_fixed c Hc). split; reflexivity.
Qed.

Lemma allChars_dropUnderscore (p : ascii -> bool) (s : string) :
  allChars p s = true -> allChars p (dropUnderscore s) = true.
Proof.
  destruct s as [ | c s ]; [ reflexivity | ].
  cbn [dropUnderscore allChars]. intros H.
  destruct (Ascii.eqb c "_"); [ | exact H ].
  apply andb_true_iff in H. exact (proj2 H).
Qed.

(** X12.  A screen that the fall-back extractor finds under a class name
    that starts with a capital letter and has no underscore is referred to
    by that very class name in the bootstrap synthesized from it, and the
    import names its snake-case file. *)
Theorem bootstrap_names_the_class (u : ascii) (t blockText : string) :
  isUpper u = true ->
  includes (String u t) "_" = false ->
  includes (String u t) "Screen" || includes (String u t) "Page" = true ->
  let screens := fst (OpenAIService.sortWidget ([], []) (blockText, String u t)) in
  List.map OpenAIService.name screens = [OpenAIService.toSnakeCase (String u t)]
  /\ OpenAIService.mainCode (OpenAIService.generateMainApp screens)
     = OpenAIService.mainHead
       ++ ("import '" ++ OpenAIService.toSnakeCase (String u t) ++ ".dart';")
       ++ OpenAIService.mainMiddle ++ (String u t ++ "()") ++ OpenAIService.mainTail.
Proof.
  intros Hu Hnone Hscreen screens. subst screens.
  unfold OpenAIService.sortWidget. rewrite Hscreen. cbn [fst snd]. rewrite app_nil_l.
  cbn [List.map OpenAIService.name].
  split; [ reflexivity | ].
  pose proof (@toSnakeCase_capitalised u t Hu) as Hsnake.
  assert (Hround : OpenAIService.toPascalCase (OpenAIService.toSnakeCase (String u t))
                   = String u t).
  { rewrite Hsnake. apply toPascalCase_of_snake; assumption. }
  rewrite generateMainApp_shape. cbn [OpenAIService.name].
  rewrite Hround.
  assert (Hidem : OpenAIService.toSnakeCase (OpenAIService.toSnakeCase (String u t))
                  = OpenAIService.toSnakeCase (String u t)).
  { rewrite Hsnake at 1. rewrite toSnakeCase_plain.
    assert (Hl : allChars notUpper (String (lowerChar u) (toLowerCase (underscoreCapitals t)))
                 = true).
    { cbn [allChars]. unfold notUpper at 1.
      rewrite lowerChar_not_upper, toLowerCase_not_upper. reflexivity. }
    destruct (not_upper_fixed _ Hl) as [-> ->].
    cbn [dropUnderscore].
    destruct (capital_facts u Hu) as (_ & Hlow & _).
    unfold notUnderscore in Hlow. apply negb_true_iff in Hlow. rewrite Hlow.
    symmetry. exact Hsnake. }
  rewrite Hidem. reflexivity.
Qed.

Lemma bootstrap_names_the_class_witness :
  let screens := fst (OpenAIService.sortWidget ([], []) ("class LoginScreen {}", "LoginScreen")) in
  List.map OpenAIService.name screens = [OpenAIService.toSnakeCase "LoginScreen"]
  /\ OpenAIService.mainCode (OpenAIService.generateMainApp screens)
     = OpenAIService.mainHead
       ++ ("import '" ++ OpenAIService.toSnakeCase "LoginScreen" ++ ".dart';")
       ++ OpenAIService.mainMiddle ++ ("LoginScreen" ++ "()") ++ OpenAIService.mainTail.
Proof.
  apply (bootstrap_names_the_class "L" "oginScreen" "class LoginScreen {}"); reflexivity.
Defined.

Lemma starGreedy_lands (p : ascii -> bool) (s : string) :
  forall n g, exists c', starGreedy p Some n s g = Some c' /\ n <= pos c'.
Proof.
  induction s as [ | c s IH ]; intros n g; cbn [starGreedy].
  - eexists. split; [ reflexivity | cbn [pos]; lia ].
  - destruct (p c).
    + destruct (IH (S n) g) as (c' & E & Hpos). rewrite E. cbn [orElse].
      exists c'. split; [ reflexivity | lia ].
    + eexists. split; [ reflexivity | cbn [pos]; lia ].
Qed.

Lemma routeChar_underscore : routeChar "_" = true.
Proof. reflexivity. Qed.

Lemma replace_spaces_plain (s : string) :
  forall skip n,
    allChars notUpper s = true ->
    allChars routeChar
             (render (fun _ => "_") false (pieces (Plus isSpace) skip n s)) = true.
Proof.
  induction s as [ | c s IH ]; intros skip n H.
  - destruct skip; reflexivity.
  - cbn [allChars] in H. apply andb_true_iff in H. destruct H as [Hc Hs].
    destruct skip as [ | k ]; cbn [pieces]; [ | exact (IH _ _ Hs) ].
    unfold execAt, Plus. cbn [run rest pos cap].
    destruct (isSpace c) eqn:Sc.
    + destruct (starGreedy_lands isSpace s (S n) None) as (c' & E & Hpos).
      rewrite E. cbn [whole].
      destruct (pos c' - n) as [ | j ] eqn:Ej; [ lia | ].
      cbn [take String.length render append allChars].
      rewrite routeChar_underscore. exact (IH _ _ Hs).
    + cbn [render allChars]. unfold routeChar at 1. rewrite Sc.
      unfold notUpper in Hc. rewrite Hc. exact (IH _ _ Hs).
Qed.

Lemma nav_toSnakeCase_plain (text : string) :
  allChars routeChar (AutoNavigationService.toSnakeCase text) = true.
Proof.
  unfold AutoNavigationService.toSnakeCase, AutoNavigationService.blank.
  rewrite replace_capitals by reflexivity.
  rewrite replace_leading_underscore.
  unfold replaceAll. apply replace_spaces_plain.
  apply allChars_dropUnderscore. apply toLowerCase_not_upper.
Qed.

(** X13.  Whatever the names of the views are, the name of every route
    has no capital letter and no white space, and its path is a slash
    followed by that name. *)
Theorem route_names_are_plain (vistas : list AutoNavigationService.VistaDetail) :
  Forall (fun r => allChars routeChar (AutoNavigationService.name r) = true
                   /\ AutoNavigationService.path r = "/" ++ AutoNavigationService.name r)
         (AutoNavigationService.routes
            (AutoNavigationService.createNavigationStructure vistas)).
Proof.
  unfold AutoNavigationService.createNavigationStructure.
  cbn [AutoNavigationService.routes]. generalize 0.
  induction vistas as [ | v vistas IH ]; intros index; cbn [AutoNavigationService.mapi].
  - constructor.
  - constructor; [ | apply IH ].
    cbn [AutoNavigationService.routeOf AutoNavigationService.name AutoNavigationService.path].
    split; [ apply nav_toSnakeCase_plain | reflexivity ].
Qed.

(** *** Names in the synthesized bootstrap *)

Lemma toPascalCase_words (s : string) :
  join EmptyString (List.map capitalised (splitChar "_" s)) = pascalFrom true s
  /\ match splitChar "_" s with
     | w :: ws => w ++ join EmptyString (List.map capitalised ws) = pascalFrom false s
     | [] => True
     end.
Proof.
  induction s as [ | c t [IHstart IHin] ].
  - split; reflexivity.
  - cbn [splitChar pascalFrom]. destruct (Ascii.eqb c "_").
    + cbn [List.map]. rewrite join_empty_cons. split; exact IHstart.
    + destruct (splitChar "_" t) as [ | w ws ] eqn:E.
      { exfalso. exact (splitChar_not_nil _ _ E). }
      cbn [List.map]. rewrite join_empty_cons.
      unfold capitalised at 1.
      cbn [charAt0 take slice1 drop toUpperCase JsString.map append].
      rewrite IHin. split; reflexivity.
Qed.

(** [toPascalCase] is Pascal case as defined character by character. *)
Lemma toPascalCase_pascalCase (s : string) :
  OpenAIService.toPascalCase s = pascalCase s.
Proof.
  unfold OpenAIService.toPascalCase, pascalCase.
  destruct (String.eqb_spec s EmptyString) as [-> | _]; [ reflexivity | ].
  exact (proj1 (toPascalCase_words s)).
Qed.

Lemma lower_facts (c : ascii) :
  isLower c = true ->
  isUpper (upperChar c) = true /\ lowerChar (upperChar c) = c
  /\ isUpper c = false /\ lowerChar c = c /\ Ascii.eqb c "_" = false.
Proof.
  destruct c as [[] [] [] [] [] [] [] []]; vm_compute; intuition discriminate.
Qed.

Lemma digit_facts (c : ascii) :
  isDigit c = true -> isUpper c = false /\ lowerChar c = c.
Proof.
  destruct c as [[] [] [] [] [] [] [] []]; vm_compute; intuition discriminate.
Qed.

Lemma lower_or_digit (c : ascii) :
  isLower c || isDigit c = true -> isUpper c = false /\ lowerChar c = c.
Proof.
  intros H. apply orb_true_iff in H. destruct H as [H | H].
  - destruct (lower_facts c H) as (_ & _ & Hu & Hl & _). split; assumption.
  - apply digit_facts. exact H.
Qed.

(** The snake-case form of the Pascal-case form of a snake-case name, before
    the leading underscore is dropped. *)
Lemma lower_of_pascal (s : string) :
  (snakeFrom false s = true ->
   toLowerCase (underscoreCapitals (pascalFrom false s)) = s)
  /\ (snakeFrom true s = true ->
      toLowerCase (underscoreCapitals (pascalFrom true s)) = String "_" s).
Proof.
  induction s as [ | c t [IHin IHstart] ].
  - split; [ reflexivity | discriminate ].
  - cbn [snakeFrom pascalFrom]. destruct (Ascii.eqb c "_") eqn:E.
    + apply Ascii.eqb_eq in E. subst c. cbn [negb andb].
      split; [ exact IHstart | discriminate ].
    + split; intros H; apply andb_true_iff in H; destruct H as [Hc Ht].
      * destruct (lower_or_digit c Hc) as [Hu Hl].
        cbn [underscoreCapitals]. rewrite Hu.
        cbn [toLowerCase JsString.map]. fold (toLowerCase (underscoreCapitals (pascalFrom false t))).
        rewrite Hl, (IHin Ht). reflexivity.
      * destruct (lower_facts c Hc) as (Hup & Hback & _).
        cbn [underscoreCapitals]. rewrite Hup.
        cbn [toLowerCase JsString.map]. fold (toLowerCase (underscoreCapitals (pascalFrom false t))).
        rewrite Hback, (IHin Ht). reflexivity.
Qed.

Lemma snakeFrom_not_upper (s : string) :
  forall b, snakeFrom b s = true -> allChars notUpper s = true.
Proof.
  induction s as [ | c t IH ]; intros b H; [ reflexivity | ].
  cbn [snakeFrom] in H. cbn [allChars]. unfold notUpper at 1.
  destruct (Ascii.eqb c "_") eqn:E.
  - apply Ascii.eqb_eq in E. subst c.
    apply andb_true_iff in H. destruct H as [_ Ht]. rewrite (IH _ Ht). reflexivity.
  - apply andb_true_iff in H. destruct H as [Hc Ht]. rewrite (IH _ Ht).
    assert (Hu : isUpper c = false).
    { destruct b; [ exact (proj1 (proj2 (proj2 (lower_facts c Hc))))
                  | exact (proj1 (lower_or_digit c Hc)) ]. }
    rewrite Hu. reflexivity.
Qed.

Lemma pascalFrom_letters (s : string) :
  snakeFrom false s = true ->
  allChars (fun x => isUpper x || isLower x || isDigit x) (pascalFrom false s) = true.
Proof.
  assert (G : forall b, snakeFrom b s = true ->
                        allChars (fun x => isUpper x || isLower x || isDigit x)
                                 (pascalFrom b s) = true);
    [ | exact (G false) ].
  induction s as [ | c t IH ]; intros b H; [ reflexivity | ].
  cbn [snakeFrom pascalFrom] in *. destruct (Ascii.eqb c "_").
  - apply andb_true_iff in H. destruct H as [_ Ht]. exact (IH _ Ht).
  - apply andb_true_iff in H. destruct H as [Hc Ht].
    cbn [allChars]. rewrite (IH _ Ht), andb_true_r.
    destruct b.
    + destruct (lower_facts c Hc) as (Hup & _). rewrite Hup. reflexivity.
    + apply orb_true_iff in Hc. destruct Hc as [Hc | Hc]; rewrite Hc;
        repeat rewrite orb_true_r; reflexivity.
Qed.

(** For a snake-case name, the Pascal-case form is a class name, and the
    snake-case form of the name and of its Pascal-case form is the name. *)
Lemma snake_name_forms (n : string) :
  snakeName n = true ->
  className (pascalCase n) = true
  /\ snakeCase n = n
  /\ snakeCase (pascalCase n) = n.
Proof.
  unfold snakeName, pascalCase, snakeCase. intros H.
  destruct (proj2 (lower_of_pascal n) H) as [].
  pose proof (snakeFrom_not_upper n true H) as Hplain.
  destruct (not_upper_fixed n Hplain) as [-> ->].
  destruct n as [ | c t ]; [ discriminate H | ].
  cbn [snakeFrom] in H. destruct (Ascii.eqb c "_") eqn:E; [ discriminate H | ].
  apply andb_true_iff in H. destruct H as [Hc Ht].
  destruct (lower_facts c Hc) as (Hup & _).
  split; [ | split ].
  - cbn [pascalFrom]. rewrite E. cbn [className]. rewrite Hup.
    exact (pascalFrom_letters t Ht).
  - cbn [dropUnderscore]. rewrite E. reflexivity.
  - rewrite (proj2 (lower_of_pascal (String c t))).
    + reflexivity.
    + cbn [snakeFrom]. rewrite E, Hc, Ht. reflexivity.
Qed.

(** X27.  When the path that is taken extracts no main entry (the map of
    blocks has none and, if the fall-back extractor runs, its loose
    pattern finds none), the bundle gets the bootstrap synthesized from
    its screens.  With a first screen, the import names the snake-case
    form of the name of that screen and the home is the Pascal-case form
    of that name applied to no argument, both forms as defined character
    by character; with a snake-case name, the home is a class name and
    the import is the file of the screen.  With no screen, there is no
    import and the home is the placeholder text. *)
Theorem synthesized_bootstrap_names (text : string) :
  OpenAIService.mainOfBlocks (OpenAIService.extractFileBlocks text) = None ->
  (OpenAIService.nothingFound
     (OpenAIService.processCodeBlocks (OpenAIService.extractFileBlocks text)) = true ->
   OpenAIService.looseMain text = None) ->
  exists m,
    OpenAIService.mainApp (OpenAIService.processCode text) = Some m
    /\ match OpenAIService.screens (OpenAIService.processCode text) with
       | first :: _ =>
           OpenAIService.mainCode m
           = OpenAIService.mainHead
             ++ ("import '" ++ snakeCase (OpenAIService.name first) ++ ".dart';")
             ++ OpenAIService.mainMiddle
             ++ (pascalCase (OpenAIService.name first) ++ "()")
             ++ OpenAIService.mainTail
           /\ (snakeName (OpenAIService.name first) = true ->
               className (pascalCase (OpenAIService.name first)) = true
               /\ snakeCase (OpenAIService.name first) = OpenAIService.name first
               /\ snakeCase (pascalCase (OpenAIService.name first))
                  = OpenAIService.name first)
       | [] =>
           OpenAIService.mainCode m
           = OpenAIService.mainHead ++ OpenAIService.mainMiddle
             ++ OpenAIService.placeholderHome ++ OpenAIService.mainTail
       end.
Proof.
  intros Hblocks Hloose.
  exists (OpenAIService.generateMainApp (OpenAIService.screens (OpenAIService.processCode text))).
  split.
  - unfold OpenAIService.processCode.
    destruct (OpenAIService.nothingFound
                (OpenAIService.processCodeBlocks (OpenAIService.extractFileBlocks text)))
      eqn:Hnone.
    + unfold OpenAIService.extractWithExtendedPatterns. rewrite (Hloose eq_refl).
      destruct (OpenAIService.extractWidgetsAndScreens text) as [ss ws]. reflexivity.
    + rewrite processCodeBlocks_mainApp, Hblocks. reflexivity.
  - rewrite generateMainApp_shape.
    destruct (OpenAIService.screens (OpenAIService.processCode text)) as [ | first rest ].
    + reflexivity.
    + rewrite toSnakeCase_plain, toPascalCase_pascalCase.
      split; [ reflexivity | apply snake_name_forms ].
Qed.

Lemma synthesized_bootstrap_names_witness :
  exists m,
    OpenAIService.mainApp (OpenAIService.processCode screenWithMain) = Some m
    /\ OpenAIService.mainCode m
       = OpenAIService.mainHead ++ "import 'login_screen.dart';"
         ++ OpenAIService.mainMiddle ++ "LoginScreen()" ++ OpenAIService.mainTail.
Proof.
  destruct (synthesized_bootstrap_names screenWithMain) as (m & Hm & Hshape).
  - vm_compute. reflexivity.
  - intros H. vm_compute in H. discriminate H.
  - exists m. split; [ exact Hm | ].
    assert (E : OpenAIService.screens (OpenAIService.processCode screenWithMain)
                = [{| OpenAIService.name := "login_screen";
                      OpenAIService.code :=
                        "class LoginScreen extends StatelessWidget {}" ++ lineBreak
                        ++ "void main() { runApp(LoginScreen()); }" |}])
      by (vm_compute; reflexivity).
    rewrite E in Hshape. exact (proj1 Hshape).
Defined.

(** X28.  For a snake-case name (words of lower-case letters and digits,
    each starting with a letter, joined by single underscores),
    [toPascalCase] gives a class name: a capital letter followed by
    letters and digits; [toSnakeCase] leaves the name as it is and gives
    it back from its Pascal-case form. *)
Theorem snake_pascal_round_trip (n : string) :
  snakeName n = true ->
  className (OpenAIService.toPascalCase n) = true
  /\ OpenAIService.toSnakeCase n = n
  /\ OpenAIService.toSnakeCase (OpenAIService.toPascalCase n) = n.
Proof.
  intros H. rewrite toPascalCase_pascalCase, !toSnakeCase_plain.
  exact (snake_name_forms n H).
Qed.

Lemma snake_pascal_round_trip_witness :
  className (OpenAIService.toPascalCase "user_profile2_screen") = true
  /\ OpenAIService.toSnakeCase "user_profile2_screen" = "user_profile2_screen"
  /\ OpenAIService.toSnakeCase (OpenAIService.toPascalCase "user_profile2_screen")
     = "user_profile2_screen".
Proof.
  apply snake_pascal_round_trip. reflexivity.
Defined.

End Naming.

(** ** The content of a block *)

Section BlockContent.
Import Regex OpenAIService.

Lemma drop_same (l x : string) : drop (String.length l) (l ++ x) = x.
Proof. induction l as [ | c l IH ]; [ reflexivity | exact IH ]. Qed.

Lemma lit_then (l : string) (r : regex) (k : cont) (n : nat) (x : string)
      (g : option string) :
  run (Seq (Lit l) r) k (Cursor n (l ++ x) g)
  = run r k (Cursor (n + String.length l) x g).
Proof.
  cbn [run rest pos cap]. rewrite startsWith_same, drop_same. reflexivity.
Qed.

Lemma starGreedy_max (p : ascii -> bool) (k : cont) (w s : string)
      (g : option string) (res : cursor) :
  allChars p w = true -> headFails p s ->
  forall n, k (Cursor (n + String.length w) s g) = Some res ->
            starGreedy p k n (w ++ s) g = Some res.
Proof.
  intros Hw Hs. induction w as [ | c w IH ]; intros n Hk.
  - rewrite Nat.add_0_r in Hk. cbn [append].
    destruct s as [ | c s ]; cbn [starGreedy]; [ exact Hk | ].
    cbn [headFails] in Hs. rewrite Hs. exact Hk.
  - cbn [allChars] in Hw. apply andb_true_iff in Hw. destruct Hw as [Hc Hw].
    cbn [append starGreedy]. rewrite Hc, (IH Hw (S n)); [ reflexivity | ].
    cbn [String.length] in Hk. rewrite <- Hk. do 2 f_equal. lia.
Qed.

Lemma star_then (p : ascii -> bool) (r : regex) (k : cont) (n : nat) (w s : string)
      (g : option string) (res : cursor) :
  allChars p w = true -> headFails p s ->
  run r k (Cursor (n + String.length w) s g) = Some res ->
  run (Seq (Star true p) r) k (Cursor n (w ++ s) g) = Some res.
Proof.
  intros Hw Hs Hk. cbn [run rest pos cap].
  exact (starGreedy_max p (run r k) w s g Hw Hs n Hk).
Qed.

Lemma trimStart_shorter (x : string) : String.length (trimStart x) <= String.length x.
Proof.
  induction x as [ | c x IH ]; cbn [trimStart String.length]; [ lia | ].
  destruct (isSpace c); cbn [String.length]; lia.
Qed.

Lemma spaces_end (x : string) (g : option string) :
  forall n,
    run spaces Some (Cursor n x g)
    = Some (Cursor (n + (String.length x - String.length (trimStart x))) (trimStart x) g).
Proof.
  unfold spaces. cbn [run rest pos cap].
  induction x as [ | c x IH ]; intros n; cbn [starGreedy trimStart].
  - do 2 f_equal. cbn [String.length]. lia.
  - destruct (isSpace c).
    + rewrite IH. cbn [orElse String.length]. do 2 f_equal.
      pose proof (trimStart_shorter x). lia.
    + do 2 f_equal. cbn [String.length]. lia.
Qed.

Lemma pieces_skip (r : regex) (w s : string) :
  forall n, pieces r (String.length w) n (w ++ s) = pieces r 0 (n + String.length w) s.
Proof.
  induction w as [ | c w IH ]; intros n; cbn [String.length append].
  - rewrite Nat.add_0_r. reflexivity.
  - cbn [pieces]. rewrite IH. f_equal. lia.
Qed.

(** A pattern that starts with a literal finds nothing in a text without
    that literal. *)
Lemma no_hits (l : string) (r : regex) (f : rmatch -> string) (once : bool) (s : string) :
  includes s l = false ->
  forall n, render f once (pieces (Seq (Lit l) r) 0 n s) = s.
Proof.
  induction s as [ | c s IH ]; intros H n; cbn [includes] in H;
    apply orb_false_iff in H; destruct H as [Hhere Hrest];
    cbn [pieces]; unfold execAt; cbn [run rest]; rewrite Hhere.
  - reflexivity.
  - cbn [render]. rewrite (IH Hrest). reflexivity.
Qed.

(** One match at the start of the text and none after it. *)
Lemma replace_anchored (r : regex) (f : rmatch -> string) (text : string) (c' : cursor) :
  run r Some (Cursor 0 text None) = Some c' ->
  pos c' <> 0 ->
  (forall n, render f false (pieces r 0 n (rest c')) = rest c') ->
  replaceAll r f text = f (Match 0 (take (pos c') text) (cap c')) ++ rest c'.
Proof.
  intros Hrun Hpos Hrest.
  destruct (run_steps r Some _ Hrun) as (c1 & Hsteps & Hk). injection Hk as ->.
  destruct (steps_reads r _ _ Hsteps) as (w & Hw & Hp). cbn [rest pos] in Hw, Hp.
  destruct w as [ | c w ]; [ cbn [String.length] in Hp; lia | ].
  unfold replaceAll. subst text. cbn [append pieces]. unfold execAt.
  cbn [append] in Hrun. rewrite Hrun. rewrite Nat.sub_0_r, Hp.
  cbn [Nat.add String.length take whole]. rewrite take_append.
  cbn [String.length]. rewrite pieces_skip. cbn [render]. rewrite Hrest. reflexivity.
Qed.

Lemma fence_at_end (x : string) :
  allChars notBacktick x = true ->
  forall n, render blank false (pieces (Seq fence Eos) 0 n (x ++ "```")) = x.
Proof.
  induction x as [ | c x IH ]; intros H n.
  - cbn [append pieces]. unfold execAt, fence. cbn [run rest pos cap startsWith drop
      String.length Ascii.eqb Bool.eqb andb].
    replace (n + 3 - n) with 3 by lia. reflexivity.
  - cbn [allChars] in H. apply andb_true_iff in H. destruct H as [Hc Hx].
    unfold notBacktick in Hc. apply negb_true_iff in Hc.
    cbn [append pieces]. unfold execAt, fence. cbn [run rest startsWith].
    rewrite Ascii.eqb_sym, Hc. cbn [andb render]. rewrite (IH Hx). reflexivity.
Qed.

Lemma no_dart_fence (x : string) :
  allChars notBacktick x = true -> includes (x ++ "```") "```dart" = false.
Proof.
  induction x as [ | c x IH ]; intros H.
  - reflexivity.
  - cbn [allChars] in H. apply andb_true_iff in H. destruct H as [Hc Hx].
    unfold notBacktick in Hc. apply negb_true_iff in Hc.
    cbn [append includes startsWith]. rewrite Ascii.eqb_sym, Hc, (IH Hx). reflexivity.
Qed.

Lemma allChars_trimStart (p : ascii -> bool) (x : string) :
  allChars p x = true -> allChars p (trimStart x) = true.
Proof.
  induction x as [ | c x IH ]; intros H; [ reflexivity | ].
  cbn [trimStart]. destruct (isSpace c); [ | exact H ].
  cbn [allChars] in H. apply andb_true_iff in H. exact (IH (proj2 H)).
Qed.

Lemma trimStart_app (x y : string) :
  headFails isSpace y -> y <> EmptyString -> trimStart (x ++ y) = trimStart x ++ y.
Proof.
  intros Hy Hne. induction x as [ | c x IH ]; cbn [append trimStart].
  - destruct y as [ | d y ]; [ contradiction | ]. cbn [headFails] in Hy.
    cbn [trimStart]. rewrite Hy. reflexivity.
  - destruct (isSpace c); [ exact IH | reflexivity ].
Qed.

Lemma trimStart_idempotent (x : string) : trimStart (trimStart x) = trimStart x.
Proof.
  induction x as [ | c x IH ]; [ reflexivity | ].
  cbn [trimStart]. destruct (isSpace c) eqn:E; [ exact IH | ].
  cbn [trimStart]. rewrite E. reflexivity.
Qed.

Lemma trimEnd_space (z : string) (c : ascii) :
  isSpace c = true -> trimEnd (z ++ String c EmptyString) = trimEnd z.
Proof.
  intros Hc. induction z as [ | a z IH ]; cbn [append trimEnd].
  - rewrite Hc. reflexivity.
  - rewrite IH. reflexivity.
Qed.

Lemma trimStart_space_end (x : string) (c : ascii) :
  isSpace c = true ->
  trimEnd (trimStart (x ++ String c EmptyString)) = trimEnd (trimStart x).
Proof.
  intros Hc. induction x as [ | a x IH ]; cbn [append trimStart].
  - rewrite Hc. reflexivity.
  - destruct (isSpace a); [ exact IH | ].
    exact (trimEnd_space (String a x) c Hc).
Qed.

(** X14.  For a block in the format the service asks for (a dart fence, a
    comment line with the file name, the code, a closing fence) whose code
    has no backtick, the content extracted is the code with the white
    space around it removed: neither the fences nor the comment line
    remain. *)
Theorem extractCodeContent_named_block (a : ascii) (f body : string) :
  isSpace a = false ->
  allChars isDot f = true ->
  includes body "`" = false ->
  extractCodeContent ("```dart" ++ lineBreak ++ "// " ++ String a f ++ lineBreak
                      ++ body ++ lineBreak ++ "```")
  = trim body.
Proof.
  intros Ha Hf Hbody.
  apply includes_char_none in Hbody. fold notBacktick in Hbody.
  set (kept := trimStart (body ++ lineBreak)).
  assert (Hkept : allChars notBacktick kept = true).
  { apply allChars_trimStart. rewrite allChars_app, Hbody. reflexivity. }
  assert (Htail : trimStart (body ++ lineBreak ++ "```") = kept ++ "```").
  { rewrite <- append_assoc. apply trimStart_app; [ reflexivity | discriminate ]. }
  assert (Hdot : isDot a = true).
  { destruct a as [[] [] [] [] [] [] [] []]; vm_compute in Ha |- *;
      first [ reflexivity | discriminate ]. }
  unfold extractCodeContent.
  match goal with
  | |- context [replaceAll ?r blank ("```dart" ++ ?x)] =>
      assert (Hfirst : replaceAll r blank ("```dart" ++ x) = kept ++ "```")
  end.
  { match goal with
    | |- replaceAll ?r blank ?text = _ =>
        assert (Hrun : exists n, run r Some (Cursor 0 text None)
                                 = Some (Cursor (7 + n) (kept ++ "```") None))
    end.
    { eexists. rewrite lit_then.
      apply star_then; [ reflexivity | reflexivity | ].
      change ("// " ++ String a f ++ lineBreak ++ body ++ lineBreak ++ "```")
        with ("//" ++ " " ++ String a f ++ lineBreak ++ body ++ lineBreak ++ "```").
      rewrite lit_then.
      apply star_then; [ reflexivity | exact Ha | ].
      apply star_then;
        [ cbn [allChars]; rewrite Hdot, Hf; reflexivity | reflexivity | ].
      rewrite spaces_end.
      change (trimStart (lineBreak ++ body ++ lineBreak ++ "```"))
        with (trimStart (body ++ lineBreak ++ "```")).
      rewrite Htail. do 2 f_equal.
      cbn [String.length Nat.add]. reflexivity. }
    destruct Hrun as (n & Hrun).
    rewrite (replace_anchored _ blank _ Hrun).
    - reflexivity.
    - cbn [pos]. lia.
    - intros n0. cbn [rest]. apply no_hits. apply no_dart_fence. exact Hkept. }
  rewrite Hfirst.
  unfold replaceAll at 2. rewrite no_hits by (apply no_dart_fence; exact Hkept).
  unfold replaceAll. rewrite (fence_at_end kept Hkept).
  unfold trim, kept. rewrite trimStart_idempotent.
  exact (trimStart_space_end body "010" eq_refl).
Qed.

Lemma extractCodeContent_named_block_witness :
  extractCodeContent ("```dart" ++ lineBreak ++ "// " ++ "login_screen.dart" ++ lineBreak
                      ++ "  class A {} " ++ lineBreak ++ "```")
  = trim "  class A {} ".
Proof.
  apply (extractCodeContent_named_block "l" "ogin_screen.dart" "  class A {} ");
    reflexivity.
Defined.

End BlockContent.

(** ** Generation from a screenshot *)

Section ScreenshotGeneration.
Import OpenAIService Generation.

Variable callOpenAI : CompletionApi.
Variable moduleRef : AutoNavigationService.ModuleRef.

(** X15.  When the image prepares to a string and the completion has a
    content that is not empty, generation succeeds with the bundle that
    [processCode] makes of the content, whatever becomes of navigation:
    the navigation files are absent without a project id, and otherwise
    are what the navigation service returned, absent when it returned
    [null]. *)
Theorem generation_survives_navigation
        (data : ScreenshotGenerationParams) (imageBase64 content : string) :
  prepareImageBase64 (image data) = Ok (JStr imageBase64) ->
  callOpenAI imageBase64 (pageName data) (description data) = Ok (Some content) ->
  content <> EmptyString ->
  exists files,
    generateFlutterCodeFromScreenshot callOpenAI moduleRef data
    = Ok {| processed := processCode content; navigationFiles := files |}
    /\ (falsy (projectId data) = true -> files = None)
    /\ (forall id, projectId data = Some id -> id <> EmptyString ->
                   AutoNavigationService.generateNavigationForProject moduleRef id
                   = Ok files).
Proof.
  intros Himage Hcall Hcontent.
  exists (navigationFor moduleRef (projectId data)).
  split; [ | split ].
  - unfold generateFlutterCodeFromScreenshot. rewrite Himage.
    cbn [bind readLength textOf]. rewrite Hcall. cbn [bind falsy textOr].
    destruct (String.eqb_spec content EmptyString); [ contradiction | reflexivity ].
  - intros Hnone. unfold navigationFor. rewrite Hnone. reflexivity.
  - intros id Hid Hne. unfold navigationFor. rewrite Hid. cbn [falsy textOr].
    destruct (String.eqb_spec id EmptyString); [ contradiction | ].
    destruct (generateNavigationForProject_total moduleRef id) as [r Hr].
    rewrite Hr. destruct r; reflexivity.
Qed.

(** X16.  Every way generation fails gives an error whose message is
    [Error al generar código Flutter: ] followed by the cause: an image
    that cannot be prepared (and then the completion API is not called),
    a rejected completion, or a completion without content. *)
Theorem generation_failures_are_wrapped (data : ScreenshotGenerationParams) :
  (forall cause,
      prepareImageBase64 (image data) = Throw cause ->
      generateFlutterCodeFromScreenshot callOpenAI moduleRef data = Throw (failure cause))
  /\ (forall imageBase64 cause,
         prepareImageBase64 (image data) = Ok (JStr imageBase64) ->
         callOpenAI imageBase64 (pageName data) (description data) = Throw cause ->
         generateFlutterCodeFromScreenshot callOpenAI moduleRef data
         = Throw (failure cause))
  /\ (forall imageBase64 content,
         prepareImageBase64 (image data) = Ok (JStr imageBase64) ->
         callOpenAI imageBase64 (pageName data) (description data) = Ok content ->
         falsy content = true ->
         generateFlutterCodeFromScreenshot callOpenAI moduleRef data
         = Throw (failure "La respuesta de OpenAI no contiene contenido."))
  /\ (forall message,
         generateFlutterCodeFromScreenshot callOpenAI moduleRef data = Throw message ->
         exists cause, message = failure cause).
Proof.
  unfold generateFlutterCodeFromScreenshot. repeat split.
  - intros cause ->. reflexivity.
  - intros imageBase64 cause -> Hcall. cbn [bind readLength textOf].
    rewrite Hcall. reflexivity.
  - intros imageBase64 content -> Hcall Hfalsy. cbn [bind readLength textOf].
    rewrite Hcall. cbn [bind]. rewrite Hfalsy. reflexivity.
  - intros message H. unfold catch in H.
    match type of H with
    | match ?b with _ => _ end = _ => destruct b as [r | cause]
    end; [ discriminate | ].
    exists cause. congruence.
Qed.

(** X17.  A text that starts with [data:image] and has no comma makes
    generation fail before the completion API is called: the image
    prepares to [undefined], and reading its length throws. *)
Theorem comma_less_data_uri_fails_generation
        (data : ScreenshotGenerationParams) (s : string) :
  image data = JStr s ->
  startsWith s "data:image" = true ->
  includes s "," = false ->
  generateFlutterCodeFromScreenshot callOpenAI moduleRef data
  = Throw (failure "Cannot read properties of undefined (reading 'length')").
Proof.
  intros Himage Hs Hc. unfold generateFlutterCodeFromScreenshot, prepareImageBase64.
  rewrite Himage, Hs, splitChar_no_comma by assumption. reflexivity.
Qed.

End ScreenshotGeneration.

Lemma generation_survives_navigation_witness :
  exists files,
    Generation.generateFlutterCodeFromScreenshot
      (answering twoLoginScreens) withoutVistaService
      (screenshotOf (JStr "QUJD") (Some "p1"))
    = Ok {| Generation.processed := OpenAIService.processCode twoLoginScreens;
            Generation.navigationFiles := files |}
    /\ files = None.
Proof.
  destruct (@generation_survives_navigation (answering twoLoginScreens) withoutVistaService
              (screenshotOf (JStr "QUJD") (Some "p1")) "QUJD" twoLoginScreens
              eq_refl eq_refl ltac:(discriminate)) as (files & Hrun & _ & Hnav).
  exists files. split; [ exact Hrun | ].
  specialize (Hnav "p1" eq_refl ltac:(discriminate)).
  cbv in Hnav. congruence.
Defined.

Lemma generation_failures_are_wrapped_witness :
  Generation.generateFlutterCodeFromScreenshot
    (rejecting "429 Too Many Requests") withoutVistaService
    (screenshotOf (JStr "QUJD") None)
  = Throw (Generation.failure "429 Too Many Requests").
Proof.
  apply (proj1 (proj2 (@generation_failures_are_wrapped
                         (rejecting "429 Too Many Requests") withoutVistaService
                         (screenshotOf (JStr "QUJD") None))) "QUJD");
    reflexivity.
Defined.

Lemma comma_less_data_uri_fails_generation_witness :
  Generation.generateFlutterCodeFromScreenshot
    (answering twoLoginScreens) withoutVistaService
    (screenshotOf (JStr "data:image/png;base64") None)
  = Throw (Generation.failure "Cannot read properties of undefined (reading 'length')").
Proof.
  apply (@comma_less_data_uri_fails_generation (answering twoLoginScreens)
           withoutVistaService (screenshotOf (JStr "data:image/png;base64") None)
           "data:image/png;base64"); reflexivity.
Defined.

(** ** Elements of a sketch *)

Section SketchElements.
Import Regex OpenAIService Generation.

Lemma pieces_execAt_at (r : regex) (m : rmatch) :
  forall s skip n,
    In m (hits (pieces r skip n s)) ->
    exists pre suf, s = pre ++ suf /\ execAt r (n + String.length pre) suf = Some m.
Proof.
  induction s as [ | a s IH ]; intros skip n H.
  - destruct skip; cbn [pieces] in H; [ | contradiction ].
    destruct (execAt r n EmptyString) as [m' | ] eqn:E; [ | contradiction ].
    destruct H as [<- | []]. exists EmptyString, EmptyString.
    cbn [String.length]. rewrite Nat.add_0_r. auto.
  - assert (Hlater : forall k, In m (hits (pieces r k (S n) s)) ->
                               exists pre suf, String a s = pre ++ suf
                                 /\ execAt r (n + String.length pre) suf = Some m).
    { intros k Hk. destruct (IH _ _ Hk) as (pre & suf & -> & He).
      exists (String a pre), suf. split; [ reflexivity | ].
      cbn [String.length]. rewrite <- He. f_equal. lia. }
    destruct skip; cbn [pieces] in H; [ | exact (Hlater _ H) ].
    destruct (execAt r n (String a s)) as [m' | ] eqn:E.
    + destruct H as [<- | H].
      * exists EmptyString, (String a s). cbn [String.length]. rewrite Nat.add_0_r. auto.
      * destruct (String.length (whole m')); exact (Hlater _ H).
    + exact (Hlater _ H).
Qed.

Lemma append_same_length (a b r r' : string) :
  String.length a = String.length b -> a ++ r = b ++ r' -> a = b.
Proof.
  revert b. induction a as [ | c a IH ]; intros [ | d b ] Hlen H;
    try discriminate; [ reflexivity | ].
  cbn [append] in H. injection H as -> H. injection Hlen as Hlen.
  f_equal. exact (IH b Hlen H).
Qed.

Lemma append_cancel (a b r : string) : a ++ r = b ++ r -> a = b.
Proof.
  intros H. apply (append_same_length a b r r); [ | exact H ].
  apply (f_equal String.length) in H. rewrite !length_append in H. lia.
Qed.

Lemma jsonArray_slice (n : nat) (s : string) (m : rmatch) :
  execAt jsonArrayPattern n s = Some m ->
  exists inner after, s = ("[" ++ inner ++ "]") ++ after /\ whole m = "[" ++ inner ++ "]".
Proof.
  unfold execAt. intros H.
  destruct (run jsonArrayPattern Some (Cursor n s None)) as [c' | ] eqn:Hrun;
    [ | discriminate ].
  injection H as <-. cbn [whole].
  destruct (run_steps jsonArrayPattern Some _ Hrun) as (c1 & Hsteps & Hk).
  injection Hk as ->.
  destruct (steps_reads jsonArrayPattern _ _ Hsteps) as (w & Hw & Hp).
  cbn [rest pos] in Hw, Hp.
  unfold jsonArrayPattern in Hsteps.
  apply steps_seq in Hsteps. destruct Hsteps as (d1 & (H1 & _) & Hsteps).
  cbn [rest] in H1.
  apply steps_seq in Hsteps. destruct Hsteps as (d2 & Hs2 & Hsteps).
  apply steps_seq in Hsteps. destruct Hsteps as (d3 & Hs3 & Hsteps).
  apply steps_seq in Hsteps. destruct Hsteps as (d4 & Hs4 & Hsteps).
  apply steps_seq in Hsteps. destruct Hsteps as (d5 & Hs5 & Hsteps).
  apply steps_seq in Hsteps. destruct Hsteps as (d6 & Hs6 & (H7 & _)).
  destruct (steps_reads _ _ _ Hs2) as (w2 & Hw2 & _).
  destruct (steps_reads _ _ _ Hs3) as (w3 & Hw3 & _).
  destruct (steps_reads _ _ _ Hs4) as (w4 & Hw4 & _).
  destruct (steps_reads _ _ _ Hs5) as (w5 & Hw5 & _).
  destruct (steps_reads _ _ _ Hs6) as (w6 & Hw6 & _).
  set (inner := w2 ++ w3 ++ w4 ++ w5 ++ w6).
  assert (Hs : s = ("[" ++ inner ++ "]") ++ rest c').
  { rewrite H1, Hw2, Hw3, Hw4, Hw5, Hw6, H7. unfold inner.
    cbn [append]. f_equal. rewrite !append_assoc. reflexivity. }
  assert (Hwhole : w = "[" ++ inner ++ "]").
  { apply (append_cancel _ _ (rest c')). rewrite <- Hw. exact Hs. }
  exists inner, (rest c'). split; [ exact Hs | ].
  rewrite Hp. replace (n + String.length w - n) with (String.length w) by lia.
  rewrite Hw at 1. rewrite take_append. exact Hwhole.
Qed.

(** X18.  When the content of the completion holds an opening bracket
    followed by a brace somewhere, the JSON parser is given one slice of
    the content only, which starts with an opening bracket and ends with a closing bracket: what
    precedes and what follows the slice is ignored, and whether the
    elements are read depends on that slice alone. *)
Theorem parser_gets_bracketed_slice
        (parse : string -> result jsval) (content : string) (m : rmatch) :
  matchFirst jsonArrayPattern content = Some m ->
  exists before inner after,
    content = before ++ ("[" ++ inner ++ "]") ++ after
    /\ parseElements parse content
       = catch (parse ("[" ++ inner ++ "]")) (fun _ => Throw formatError).
Proof.
  intros Hm.
  assert (Hin : In m (hits (pieces jsonArrayPattern 0 0 content))).
  { unfold matchFirst, matchAll in Hm.
    destruct (hits (pieces jsonArrayPattern 0 0 content)) as [ | m' ms ];
      [ discriminate | ].
    injection Hm as ->. left. reflexivity. }
  destruct (pieces_execAt_at _ _ _ _ _ Hin) as (before & suf & Hcontent & He).
  destruct (jsonArray_slice _ _ He) as (inner & after & Hsuf & Hwhole).
  exists before, inner, after. split.
  - rewrite Hcontent, Hsuf. reflexivity.
  - unfold parseElements. rewrite Hm, Hwhole. reflexivity.
Qed.

Lemma parser_gets_bracketed_slice_witness :
  exists before inner after,
    "Here it is: [ {} ] enjoy" = before ++ ("[" ++ inner ++ "]") ++ after
    /\ parseElements (parsingOnly "[ {} ]") "Here it is: [ {} ] enjoy"
       = catch (parsingOnly "[ {} ]" ("[" ++ inner ++ "]")) (fun _ => Throw formatError).
Proof.
  apply (@parser_gets_bracketed_slice (parsingOnly "[ {} ]") "Here it is: [ {} ] enjoy"
           (Match 12 "[ {} ]" None)).
  vm_compute. reflexivity.
Defined.

Lemma parseElements_failure (parse : string -> result jsval) (content e : string) :
  parseElements parse content = Throw e -> e = formatError.
Proof.
  unfold parseElements, catch, bind.
  destruct (matchFirst jsonArrayPattern content).
  - destruct (parse _); intros H; [ discriminate | congruence ].
  - destruct (parse content) as [v | e']; [ destruct (isArray v) | ];
      intros H; [ discriminate | congruence | congruence ].
Qed.

Variable St : Type.

(** X19.  When the content of the completion cannot be read as an array
    of elements (the parser rejects it, or what it parses is not an
    array), the operation fails with the fixed format message behind
    [Error al procesar la imagen: ], and nothing is submitted to the
    figure service. *)
Theorem unreadable_elements_create_nothing
        (analyse : string -> string -> result (option string))
        (parse : string -> result jsval)
        (resolved : result (option (FiguraService St)))
        (imageBuffer imageBase64 : jsval) (vistaId description content e : string)
        (st : St) :
  prepareImageBase64 imageBuffer = Ok imageBase64 ->
  analyse (textOf imageBase64) description = Ok (Some content) ->
  content <> EmptyString ->
  parseElements parse content = Throw e ->
  extractUIElementsFromImage analyse parse resolved imageBuffer vistaId description st
  = (Throw ("Error al procesar la imagen: " ++ formatError), st).
Proof.
  intros Himage Hcall Hcontent Hparse.
  pose proof (parseElements_failure _ _ Hparse) as ->.
  unfold extractUIElementsFromImage. rewrite Himage. cbn [bind]. rewrite Hcall.
  cbn [bind falsy textOr].
  destruct (String.eqb_spec content EmptyString); [ contradiction | ].
  rewrite Hparse. reflexivity.
Qed.

(** X20.  When the content is read as an array and the figure service is
    resolved, the operation returns what the batch returns for the items
    of the array: the records of the submissions that succeeded, in
    order, every item having been submitted once with the view id. *)
Theorem read_elements_are_persisted
        (analyse : string -> string -> result (option string))
        (parse : string -> result jsval) (svc : FiguraService St)
        (imageBuffer imageBase64 : jsval) (vistaId description content : string)
        (items : list jsval) (st : St) :
  prepareImageBase64 imageBuffer = Ok imageBase64 ->
  analyse (textOf imageBase64) description = Ok (Some content) ->
  content <> EmptyString ->
  parseElements parse content = Ok (JArr items) ->
  extractUIElementsFromImage analyse parse (Ok (Some svc)) imageBuffer vistaId description st
  = (Ok (createdOf (fst (submitAll svc (List.map (figuraData vistaId) items) st))),
     snd (submitAll svc (List.map (figuraData vistaId) items) st)).
Proof.
  intros Himage Hcall Hcontent Hparse.
  unfold extractUIElementsFromImage. rewrite Himage. cbn [bind]. rewrite Hcall.
  cbn [bind falsy textOr].
  destruct (String.eqb_spec content EmptyString); [ contradiction | ].
  rewrite Hparse. unfold createFiguresFromParsed. cbn [elementsOf].
  unfold createFiguresFromUIElements. rewrite createOne_loop. reflexivity.
Qed.

End SketchElements.

Lemma unreadable_elements_create_nothing_witness :
  Generation.extractUIElementsFromImage (St := nat)
    (sketchApi "I cannot see any element.") (parsingOnly "[ {} ]")
    (Ok (Some numberingService)) (JBuffer [Byte.x41]) "v1" EmptyString 5
  = (Throw ("Error al procesar la imagen: " ++ Generation.formatError), 5).
Proof.
  apply (@unreadable_elements_create_nothing nat
           (sketchApi "I cannot see any element.") (parsingOnly "[ {} ]")
           (Ok (Some numberingService)) (JBuffer [Byte.x41]) (JStr "QQ==") "v1"
           EmptyString "I cannot see any element." Generation.formatError 5).
  - reflexivity.
  - reflexivity.
  - discriminate.
  - vm_compute. reflexivity.
Defined.

Lemma read_elements_are_persisted_witness :
  Generation.extractUIElementsFromImage (St := nat)
    (sketchApi "Here it is: [ {} ] enjoy") (parsingOnly "[ {} ]")
    (Ok (Some numberingService)) (JBuffer [Byte.x41]) "v1" EmptyString 5
  = (Ok [JObj [("tipo", JStr "circle"); ("vistaId", JStr "v1"); ("id", JNum 5)]], 6).
Proof.
  apply (@read_elements_are_persisted nat
           (sketchApi "Here it is: [ {} ] enjoy") (parsingOnly "[ {} ]")
           numberingService (JBuffer [Byte.x41]) (JStr "QQ==") "v1"
           EmptyString "Here it is: [ {} ] enjoy" [JObj [("tipo", JStr "circle")]] 5).
  - reflexivity.
  - reflexivity.
  - discriminate.
  - vm_compute. reflexivity.
Defined.

(** ** The initial route of the navigation helpers of the generation service *)

Section InitialRoute.
Import OpenAIService ProjectNavigation.

Lemma find_first {A : Type} (f : A -> bool) (l : list A) (x : A) :
  find f l = Some x ->
  exists before after, l = (before ++ x :: after)%list /\ f x = true
                       /\ forall y, In y before -> f y = false.
Proof.
  induction l as [ | a l IH ]; intros H; [ discriminate | ].
  cbn [find] in H. destruct (f a) eqn:Fa.
  - injection H as ->. exists [], l. repeat split; [ exact Fa | intros y [] ].
  - destruct (IH H) as (before & after & -> & Fx & Hb).
    exists (a :: before), after. repeat split; [ exact Fx | ].
    intros y [<- | Hy]; [ exact Fa | exact (Hb y Hy) ].
Qed.

Lemma firstMentioned_spec (routes : list Route) (patterns : list string) :
  match firstMentioned patterns routes with
  | None => forall p r, In p patterns -> In r routes -> mentions p r = false
  | Some n =>
      exists earlier p later before found after,
        patterns = (earlier ++ p :: later)%list
        /\ routes = (before ++ found :: after)%list
        /\ n = name found /\ mentions p found = true
        /\ (forall r, In r before -> mentions p r = false)
        /\ (forall q r, In q earlier -> In r routes -> mentions q r = false)
  end.
Proof.
  induction patterns as [ | p patterns IH ]; cbn [firstMentioned].
  - intros p r [].
  - destruct (find (mentions p) routes) as [found | ] eqn:E.
    + destruct (find_first _ _ E) as (before & after & Hr & Hf & Hb).
      exists [], p, patterns, before, found, after.
      repeat split; try assumption. intros q r [].
    + pose proof (find_none _ _ E) as Hnone.
      destruct (firstMentioned patterns routes) as [n | ].
      * destruct IH as (earlier & p' & later & before & found & after
                        & -> & Hr & Hn & Hf & Hb & He).
        exists (p :: earlier), p', later, before, found, after.
        repeat split; try assumption.
        intros q r [<- | Hq] Hin; [ exact (Hnone r Hin) | exact (He q r Hq Hin) ].
      * intros q r [<- | Hq] Hin; [ exact (Hnone r Hin) | exact (IH q r Hq Hin) ].
Qed.

Lemma determineInitialRoute_found (routes : list Route) :
  forall n, determineInitialRoute routes = Some n ->
            exists found, In found routes /\ name found = n.
Proof.
  intros n H. pose proof (firstMentioned_spec routes initialPatterns) as S.
  unfold determineInitialRoute in H. rewrite H in S.
  destruct S as (earlier & p & later & before & found & after & _ & -> & -> & _).
  exists found. split; [ apply in_or_app; right; left; reflexivity | reflexivity ].
Qed.

(** X21.  [determineInitialRoute] tries the keywords in their order and,
    for the first keyword that some route mentions in its name or its
    description, returns the name of the first such route in the order of
    the routes; no earlier keyword is mentioned by any route.  It returns
    [null] exactly when no route mentions any keyword. *)
Theorem determineInitialRoute_keyword_order (routes : list Route) :
  match determineInitialRoute routes with
  | None => forall p r, In p initialPatterns -> In r routes -> mentions p r = false
  | Some n =>
      exists earlier p later before found after,
        initialPatterns = (earlier ++ p :: later)%list
        /\ routes = (before ++ found :: after)%list
        /\ n = name found /\ mentions p found = true
        /\ (forall r, In r before -> mentions p r = false)
        /\ (forall q r, In q earlier -> In r routes -> mentions q r = false)
  end.
Proof. exact (firstMentioned_spec routes initialPatterns). Qed.

Lemma later_routes_not_initial (vistas : list VistaDetail) :
  forall index, filter isInitial (mapi routeOf (S index) vistas) = [].
Proof.
  induction vistas as [ | v vistas IH ]; intros index; cbn [mapi filter routeOf isInitial
    Nat.eqb]; [ reflexivity | apply IH ].
Qed.

Lemma mapi_names (vistas : list VistaDetail) :
  forall index, List.map name (mapi routeOf index vistas)
                = List.map (fun v => toSnakeCase (nombre v)) vistas.
Proof.
  induction vistas as [ | v vistas IH ]; intros index; cbn [mapi List.map routeOf name];
    [ reflexivity | rewrite IH; reflexivity ].
Qed.

Lemma setInitial_count (n : string) (routes : list Route) :
  List.length (filter isInitial (List.map (setInitial n) routes))
  = List.length (filter (fun x => String.eqb x n) (List.map name routes)).
Proof.
  induction routes as [ | r routes IH ]; cbn [List.map filter setInitial isInitial];
    [ reflexivity | ].
  destruct (String.eqb (name r) n); cbn [List.length]; rewrite IH; reflexivity.
Qed.

Lemma one_occurrence (n : string) (l : list string) :
  NoDup l -> In n l -> List.length (filter (fun x => String.eqb x n) l) = 1.
Proof.
  induction 1 as [ | a l Ha Hnd IH ]; intros Hin; [ destruct Hin | ].
  cbn [filter]. destruct (String.eqb_spec a n) as [-> | Hne].
  - cbn [List.length]. f_equal.
    assert (Hnone : forall l', ~ In n l' -> filter (fun x => String.eqb x n) l' = []).
    { clear. induction l' as [ | b l' IH ]; intros H; [ reflexivity | ].
      cbn [filter]. destruct (String.eqb_spec b n) as [-> | ].
      - exfalso. apply H. left. reflexivity.
      - apply IH. intros Hb. apply H. right. exact Hb. }
    rewrite (Hnone l Ha). reflexivity.
  - destruct Hin as [E | Hin]; [ contradiction | exact (IH Hin) ].
Qed.

(** X22.  When the project has a view and the snake-case names of its
    views are pairwise distinct, exactly one route of the table is
    initial. *)
Theorem analyzedRoutes_one_initial (vistas : list VistaDetail) :
  vistas <> [] ->
  NoDup (List.map (fun v => toSnakeCase (nombre v)) vistas) ->
  List.length (filter isInitial (analyzedRoutes vistas)) = 1.
Proof.
  intros Hne Hnd.
  assert (Hfirst : List.length (filter isInitial (mapi routeOf 0 vistas)) = 1).
  { destruct vistas as [ | v vistas ]; [ contradiction | ].
    cbn [mapi filter routeOf isInitial Nat.eqb].
    rewrite later_routes_not_initial. reflexivity. }
  unfold analyzedRoutes.
  pose proof (determineInitialRoute_found (mapi routeOf 0 vistas)) as Hfound.
  destruct (determineInitialRoute (mapi routeOf 0 vistas)) as [n | ]; [ | exact Hfirst ].
  destruct (String.eqb n EmptyString); [ exact Hfirst | ].
  rewrite setInitial_count, mapi_names.
  apply one_occurrence; [ exact Hnd | ].
  rewrite <- (mapi_names vistas 0). apply in_map_iff.
  destruct (Hfound n eq_refl) as (found & Hin & Hn). exists found. auto.
Qed.

Lemma analyzedRoutes_one_initial_witness :
  List.length (filter isInitial (analyzedRoutes settingsAndHome)) = 1.
Proof.
  apply analyzedRoutes_one_initial.
  - discriminate.
  - repeat constructor; vm_compute; intuition discriminate.
Defined.

End InitialRoute.

(** ** The classifier as a table *)

Section ClassifierTable.
Import OpenAIService.

Lemma classifyEntry_table (a : Acc) (entry : string * string) :
  JsMap.has (processedFiles a) (fst entry) = false \/ fst entry = "main.dart" ->
  accScreens (classifyEntry a entry)
  = (accScreens a ++ List.map artifactOf (filter (ofKind KScreen) [entry]))%list
  /\ accWidgets (classifyEntry a entry)
     = (accWidgets a ++ List.map artifactOf (filter (ofKind KWidget) [entry]))%list
  /\ accModels (classifyEntry a entry)
     = (accModels a ++ List.map artifactOf (filter (ofKind KModel) [entry]))%list
  /\ accServices (classifyEntry a entry)
     = (accServices a ++ List.map artifactOf (filter (ofKind KService) [entry]))%list.
Proof.
  destruct entry as [k v]. cbn [fst]. intros Hfree.
  unfold classifyEntry, ofKind, kindOf, kindOfName, kindOfContent, artifactOf.
  cbv zeta. cbn [fst snd filter].
  destruct (String.eqb_spec k "main.dart") as [Hmain | Hmain].
  - destruct (JsMap.has (processedFiles a) k); cbn [negb andb List.map];
      rewrite !app_nil_r; auto.
  - destruct Hfree as [Hfree | Hfree]; [ | contradiction ]. rewrite Hfree.
    repeat match goal with
           | |- context [if ?c then _ else _] =>
               lazymatch c with
               | context [sameKind] => fail
               | _ => destruct c
               end
           end;
      cbn [negb andb sameKind List.map fst snd markProcessed pushScreen pushWidget
           pushModel pushService accScreens accWidgets accModels accServices];
      rewrite ?app_nil_r; auto.
Qed.

Lemma classifyEntry_processed (a : Acc) (k v k' : string) :
  k' <> k ->
  JsMap.has (processedFiles (classifyEntry a (k, v))) k' = JsMap.has (processedFiles a) k'.
Proof.
  intros Hne. unfold classifyEntry. cbv zeta.
  repeat match goal with
         | |- JsMap.has (processedFiles (if ?c then _ else _)) _ = _ => destruct c
         | |- JsMap.has (processedFiles (markProcessed _ (if ?c then _ else _))) _ = _ =>
             destruct c
         end;
    cbn [markProcessed pushScreen pushWidget pushModel pushService processedFiles];
    try reflexivity;
    unfold JsMap.has; rewrite get_set_other by congruence; reflexivity.
Qed.

Lemma fold_classifyEntry_table (entries : JsMap.t string) :
  forall a,
    NoDup (JsMap.keys entries) ->
    (forall k, In k (JsMap.keys entries) -> k <> "main.dart" ->
               JsMap.has (processedFiles a) k = false) ->
    accScreens (fold_left classifyEntry entries a)
    = (accScreens a ++ List.map artifactOf (filter (ofKind KScreen) entries))%list
    /\ accWidgets (fold_left classifyEntry entries a)
       = (accWidgets a ++ List.map artifactOf (filter (ofKind KWidget) entries))%list
    /\ accModels (fold_left classifyEntry entries a)
       = (accModels a ++ List.map artifactOf (filter (ofKind KModel) entries))%list
    /\ accServices (fold_left classifyEntry entries a)
       = (accServices a ++ List.map artifactOf (filter (ofKind KService) entries))%list.
Proof.
  induction entries as [ | [k v] entries IH ]; intros a Hnd Hfree.
  - cbn [fold_left filter List.map]. rewrite !app_nil_r. auto.
  - cbn [JsMap.keys List.map fst] in Hnd, Hfree. fold (JsMap.keys entries) in Hnd, Hfree.
    apply NoDup_cons_iff in Hnd. destruct Hnd as [Hk Hnd].
    assert (Hhere : JsMap.has (processedFiles a) (fst (k, v)) = false
                    \/ fst (k, v) = "main.dart").
    { cbn [fst]. destruct (string_dec k "main.dart") as [E | E]; [ right; exact E | ].
      left. apply Hfree; [ left; reflexivity | exact E ]. }
    destruct (classifyEntry_table a (k, v) Hhere) as (Hs & Hw & Hm & Hv).
    cbn [fold_left].
    destruct (IH (classifyEntry a (k, v)) Hnd) as (Is & Iw & Im & Iv).
    { intros k' Hin Hne. rewrite classifyEntry_processed.
      - apply Hfree; [ right; exact Hin | exact Hne ].
      - intros ->. exact (Hk Hin). }
    rewrite Is, Iw, Im, Iv, Hs, Hw, Hm, Hv. cbn [filter].
    repeat split;
      match goal with
      | |- context [if ofKind ?K (k, v) then _ else _] => destruct (ofKind K (k, v))
      end; cbn [List.map app]; rewrite <- ?app_assoc; reflexivity.
Qed.

(** X23.  When the keys of the map are pairwise distinct, the classifier
    is a table applied to each block on its own: a category holds, in the
    order of the map, the blocks other than [main.dart] to which the rows
    of the table (file name first, content second) give that category,
    each named by its file name without [.dart]. *)
Theorem classifier_is_a_table (codeBlocks : JsMap.t string) :
  NoDup (JsMap.keys codeBlocks) ->
  screens (processCodeBlocks codeBlocks)
  = List.map artifactOf (filter (ofKind KScreen) codeBlocks)
  /\ widgets (processCodeBlocks codeBlocks)
     = List.map artifactOf (filter (ofKind KWidget) codeBlocks)
  /\ models (processCodeBlocks codeBlocks)
     = List.map artifactOf (filter (ofKind KModel) codeBlocks)
  /\ services (processCodeBlocks codeBlocks)
     = List.map artifactOf (filter (ofKind KService) codeBlocks).
Proof.
  intros Hnd. unfold processCodeBlocks. cbn [screens widgets models services].
  match goal with
  | |- context [fold_left classifyEntry codeBlocks ?a0] =>
      apply (fold_classifyEntry_table codeBlocks a0 Hnd)
  end.
  intros k Hin Hne. cbn [processedFiles].
  destruct (mainOfBlocks codeBlocks); [ | reflexivity ].
  unfold JsMap.has. cbn [JsMap.set JsMap.empty JsMap.get].
  destruct (String.eqb_spec "main.dart" k); [ congruence | reflexivity ].
Qed.

Lemma classifier_is_a_table_witness :
  screens (processCodeBlocks [("home_page_widget.dart", "class A {}"); ("main.dart", "x")])
  = List.map artifactOf
      (filter (ofKind KScreen) [("home_page_widget.dart", "class A {}"); ("main.dart", "x")])
  /\ widgets (processCodeBlocks [("home_page_widget.dart", "class A {}"); ("main.dart", "x")])
     = List.map artifactOf
         (filter (ofKind KWidget) [("home_page_widget.dart", "class A {}"); ("main.dart", "x")])
  /\ models (processCodeBlocks [("home_page_widget.dart", "class A {}"); ("main.dart", "x")])
     = List.map artifactOf
         (filter (ofKind KModel) [("home_page_widget.dart", "class A {}"); ("main.dart", "x")])
  /\ services (processCodeBlocks [("home_page_widget.dart", "class A {}"); ("main.dart", "x")])
     = List.map artifactOf
         (filter (ofKind KService) [("home_page_widget.dart", "class A {}"); ("main.dart", "x")]).
Proof.
  apply classifier_is_a_table.
  repeat constructor; cbn [In]; intuition discriminate.
Defined.

(** X24.  The bundle [processCode] returns always has a main entry, and
    it is the non-empty [main.dart] block of the map, or the block the
    loose pattern of the fall-back extractor finds, or the bootstrap
    synthesized from the screens of the bundle. *)
Theorem bundle_always_has_main_entry (text : string) :
  exists m, mainApp (processCode text) = Some m
            /\ mainEntryOrigin text m (processCode text).
Proof.
  unfold mainEntryOrigin, processCode.
  destruct (nothingFound (processCodeBlocks (extractFileBlocks text))).
  - unfold extractWithExtendedPatterns.
    destruct (extractWidgetsAndScreens text) as [ss ws]. cbn [mainApp screens].
    destruct (looseMain text) as [m | ]; eexists; split; try reflexivity; auto.
  - destruct (mainApp (processCodeBlocks (extractFileBlocks text))) as [m | ] eqn:E.
    + exists m. split; [ exact E | left; exact E ].
    + eexists. split; [ reflexivity | ]. right. right. reflexivity.
Qed.

End ClassifierTable.

(** ** The initial route *)

Section InitialRouteWritten.
Import AutoNavigationService.

(** X25.  With both collaborators resolved and at least two views, the
    initial route written to the bootstrap is the path of the first view,
    whatever the names of the views are: the first view is always flagged
    as initial, and the first flagged route is taken. *)
Theorem initial_route_is_first_view
        (vistaService : VistaService) (figuraService : FiguraService)
        (projectId : string) (first : Vista) (others : list Vista) :
  findAllVistas vistaService projectId = Ok (Some (first :: others)) ->
  others <> [] ->
  exists nav,
    generateNavigationForProject
      {| getVistaService := Ok (Some vistaService);
         getFiguraService := Ok (Some figuraService) |} projectId = Ok (Some nav)
    /\ initialRouteOf (routes nav) = "/" ++ toSnakeCase (vistaNombre first).
Proof.
  intros Hfind Hothers.
  unfold generateNavigationForProject. cbn [getVistaService getFiguraService bind catch].
  rewrite Hfind. cbn [bind].
  destruct others as [ | second others ]; [ contradiction | ].
  cbn [List.length Nat.ltb Nat.leb]. eexists. split; [ reflexivity | ].
  cbn [List.map]. rewrite first_route_is_initial. reflexivity.
Qed.

Lemma initial_route_is_first_view_witness :
  exists nav,
    generateNavigationForProject
      {| getVistaService := Ok (Some threeViews);
         getFiguraService := Ok (Some failingForHome) |} "p1" = Ok (Some nav)
    /\ initialRouteOf (routes nav) = "/" ++ toSnakeCase "Login".
Proof.
  apply (@initial_route_is_first_view threeViews failingForHome "p1"
           (viewNamed "Login") (List.map viewNamed ["Home"; "User Profile"])).
  - reflexivity.
  - discriminate.
Defined.

End InitialRouteWritten.
